(** * OLive perf-tuning: a shallow embedding of [perf_tuning.py]

    The development follows
    [src/docker-images/perf-tuning/src/perf_tuning.py]: the trial
    specification [PerfTestParams], the trial runner [run_perf_tuning], the
    binary-search thread tuner [run_perf_tuning_binary], the environment
    combination generator [get_env_var_combos] / [gen_env_var_dict], the
    body of the [__main__] script, the snippet methods of [PerfTestParams]
    and the argument reader [ConverterParamsFromJson].  The build script
    [build_perf_tuning.py] is modelled in the module [Build].

    Modelling conventions.
    - Python floats are rationals ([Q]); [round(x, n)] is round-half-even
      on the exact value.  NaN and infinities do not occur.
    - Python objects that are mutated after they were put into a list
      ([PerfTestParams]) live in a heap and are referred to by index.
    - Everything outside the interpreter (child processes, the file system,
      the resource monitor, the builtins [float] and [int], the tables of
      [maps.py]) is collected in a record [World] of oracles, indexed by a
      clock that counts the interactions so far.
    - Python exceptions are the [Raise] outcome of the monad [M]. *)

From Stdlib Require Import ZArith QArith Qround Lia Lqa String Ascii DecimalString Sorted.
From Stdlib Require DecimalPos DecimalZ.
From stdpp Require Import base list strings.

Open Scope Z_scope.

(** ** Strings *)

Module Str.

(** [str(n)] for an integer [n]. *)
Definition of_Z (z : Z) : string := NilZero.string_of_int (Z.to_int z).

(** [sep.join(l)] *)
Fixpoint join (sep : string) (l : list string) : string :=
  match l with
  | [] => EmptyString
  | [s] => s
  | s :: rest => (s +:+ sep +:+ join sep rest)%string
  end.

(** [s.split(",")] *)
Fixpoint split_comma (s : string) : list string :=
  match s with
  | EmptyString => [EmptyString]
  | String c r =>
      if Ascii.eqb c ","%char then EmptyString :: split_comma r
      else match split_comma r with
           | [] => [String c EmptyString]
           | t :: ts => String c t :: ts
           end
  end.

(** The ASCII characters for which [str.isspace] holds. *)
Definition is_space (c : ascii) : bool :=
  let n := nat_of_ascii c in
  ((9 <=? n) && (n <=? 13) || (28 <=? n) && (n <=? 32))%nat.

Fixpoint lstrip (s : string) : string :=
  match s with
  | String c r => if is_space c then lstrip r else s
  | EmptyString => EmptyString
  end.

Fixpoint rstrip (s : string) : string :=
  match s with
  | EmptyString => EmptyString
  | String c r =>
      match rstrip r with
      | EmptyString => if is_space c then EmptyString else String c EmptyString
      | r' => String c r'
      end
  end.

(** [s.strip()] *)
Definition strip (s : string) : string := rstrip (lstrip s).

(** [sub in s] *)
Fixpoint contains (sub s : string) : bool :=
  String.prefix sub s ||
  match s with
  | EmptyString => false
  | String _ r => contains sub r
  end.

(** [not s] for a string. *)
Definition is_empty (s : string) : bool :=
  match s with EmptyString => true | _ => false end.

End Str.

(** ** Dictionaries with string keys, in insertion order *)

Definition dict := list (string * string).

Module Dict.

Fixpoint get (d : dict) (k : string) : option string :=
  match d with
  | [] => None
  | (k', v) :: rest => if String.eqb k' k then Some v else get rest k
  end.

(** [d[k] = v]: an existing key keeps its place, a new one goes last. *)
Fixpoint set (d : dict) (k v : string) : dict :=
  match d with
  | [] => [(k, v)]
  | (k', v') :: rest =>
      if String.eqb k' k then (k', v) :: rest else (k', v') :: set rest k v
  end.

(** [d.update(e)] *)
Definition update (d e : dict) : dict :=
  fold_left (fun acc kv => set acc (fst kv) (snd kv)) e d.

(** [d.pop(k, None)] *)
Definition pop (d : dict) (k : string) : dict :=
  List.filter (fun kv => negb (String.eqb (fst kv) k)) d.

Definition keys (d : dict) : list string := List.map fst d.

End Dict.

(** ** Numbers *)

Module Num.

Open Scope Q_scope.

(** Nearest integer, ties to even. *)
Definition round_half_even (x : Q) : Z :=
  let f := Qfloor x in
  match Qcompare (x - inject_Z f) (1 # 2) with
  | Lt => f
  | Gt => (f + 1)%Z
  | Eq => if Z.even f then f else (f + 1)%Z
  end.

Definition pow10 (n : nat) : Q := inject_Z (10 ^ Z.of_nat n).

(** [round(x, ndigits)] *)
Definition round (x : Q) (ndigits : nat) : Q :=
  inject_Z (round_half_even (x * pow10 ndigits)) / pow10 ndigits.

(** [sum(l)] *)
Definition sum (l : list Q) : Q := fold_left Qplus l 0.

(** [len(l)] as a number. *)
Definition len {A} (l : list A) : Q := inject_Z (Z.of_nat (length l)).

(** [x == 0] *)
Definition is_zero (x : Q) : bool := Qeq_bool x 0.

(** [x < y] *)
Definition ltb (x y : Q) : bool := negb (Qle_bool y x).

(** Stable insertion: [x] goes before the first element that is not
    smaller than it. *)
Fixpoint insert_by {A} (key : A -> Q) (x : A) (l : list A) : list A :=
  match l with
  | [] => [x]
  | y :: rest => if ltb (key y) (key x) then y :: insert_by key x rest
                 else x :: l
  end.

(** [sorted(l, key=key)] on keys that are all numbers. *)
Definition sort_by {A} (key : A -> Q) (l : list A) : list A :=
  fold_right (insert_by key) [] l.

End Num.

(** [bool(x)] for a field that holds [None] or a float. *)
Definition truthy (x : option Q) : bool :=
  match x with
  | None => false
  | Some q => negb (Num.is_zero q)
  end.

(** ** Outcomes and the interpreter monad *)

(** The Python exceptions the modelled code can raise. *)
Inductive exn := ValueError | IndexError | TypeError | AttributeError | KeyError.

(** [Ok] is a normal return and [Raise] an uncaught exception.  [Stuck] is
    no outcome of the program: the model yields it when the fuel of a loop
    runs out or a reference points outside the heap. *)
Inductive res (A : Type) : Type :=
| Ok (a : A)
| Raise (e : exn)
| Stuck.
Arguments Ok {A} a.
Arguments Raise {A} e.
Arguments Stuck {A}.

Definition res_bind {A B} (m : res A) (k : A -> res B) : res B :=
  match m with
  | Ok a => k a
  | Raise e => Raise e
  | Stuck => Stuck
  end.

(** The command-line arguments ([args]).  [duration_time] is [None] when
    the attribute does not exist on the object (the [argparse] namespace
    calls it [seconds_to_run]); [parallel] is the truth value of
    [args.parallel]. *)
Record Args := {
  model : string;
  result : string;
  execution_provider : string;
  test_mode : string;
  repeated_times : string;
  duration_time : option string;
  optimization_level : string;
  parallel : bool;
  top_n : string;
  inter_op_num_threads : string;
  intra_op_num_threads : string
}.

(** [class PerfTestParams].  [self.model] and [self.result_dir] are read
    through [args]; [latencies] is the empty list until the first run sets
    the attribute. *)
Record PerfTestParams := {
  name : string;
  desc : string;
  path : string;
  exe : string;
  env : dict;
  test_args : list string;
  env_to_set : dict;
  args : Args;
  build_name : string;
  command : option string;
  avg : option Q;
  latencies : list Q;
  gpu : Q;
  cpu : Q;
  memory : Q
}.

Definition set_test_args (p : PerfTestParams) (l : list string) :=
  {| name := name p; desc := desc p; path := path p; exe := exe p;
     env := env p; test_args := l; env_to_set := env_to_set p;
     args := args p; build_name := build_name p; command := command p;
     avg := avg p; latencies := latencies p; gpu := gpu p; cpu := cpu p;
     memory := memory p |}.

(** [p.test_args += l] *)
Definition extend_test_args (p : PerfTestParams) (l : list string) :=
  set_test_args p (test_args p ++ l).

Definition set_command (p : PerfTestParams) (c : option string) :=
  {| name := name p; desc := desc p; path := path p; exe := exe p;
     env := env p; test_args := test_args p; env_to_set := env_to_set p;
     args := args p; build_name := build_name p; command := c;
     avg := avg p; latencies := latencies p; gpu := gpu p; cpu := cpu p;
     memory := memory p |}.

Definition set_usage (p : PerfTestParams) (g c m : Q) :=
  {| name := name p; desc := desc p; path := path p; exe := exe p;
     env := env p; test_args := test_args p; env_to_set := env_to_set p;
     args := args p; build_name := build_name p; command := command p;
     avg := avg p; latencies := latencies p; gpu := g; cpu := c;
     memory := m |}.

Definition set_result (p : PerfTestParams) (l : list Q) (a : option Q) :=
  {| name := name p; desc := desc p; path := path p; exe := exe p;
     env := env p; test_args := test_args p; env_to_set := env_to_set p;
     args := args p; build_name := build_name p; command := command p;
     avg := a; latencies := l; gpu := gpu p; cpu := cpu p;
     memory := memory p |}.

(** [PerfTestParams.updateEnv] *)
Definition updateEnv (p : PerfTestParams) (e : dict) :=
  {| name := name p; desc := desc p; path := path p; exe := exe p;
     env := Dict.update (env p) e; test_args := test_args p;
     env_to_set := Dict.update (env_to_set p) e;
     args := args p; build_name := build_name p; command := command p;
     avg := avg p; latencies := latencies p; gpu := gpu p; cpu := cpu p;
     memory := memory p |}.

(** [PerfTestParams.get_common_args] *)
Definition get_common_args (p : PerfTestParams) : res (list string) :=
  let a := args p in
  let common_args := ["-o"; optimization_level a]%string in
  let common_args :=
    if Str.is_empty (test_mode a) then common_args
    else common_args ++ ["-m"; test_mode a]%string in
  if String.eqb (test_mode a) "times" then
    Ok (if Str.is_empty (repeated_times a) then common_args
        else common_args ++ ["-r"; repeated_times a]%string)
  else
    match duration_time a with
    | None => Raise AttributeError
    | Some t => Ok (if Str.is_empty t then common_args
                    else common_args ++ ["-t"%string; t])
    end.

(** [PerfTestParams.get_args] *)
Definition get_args (p : PerfTestParams) (result_file : string)
  : res (list string) :=
  res_bind (get_common_args p) (fun common =>
  Ok (test_args p ++ common ++ [model (args p); result_file])).

(** [PerfTestParams.get_percentiles_args] *)
Definition get_percentiles_args (p : PerfTestParams) (result_file : string)
  : list string :=
  test_args p ++
  ["-o"; optimization_level (args p); "-m"; "times"; "-r"; "200";
   model (args p); result_file]%string.

(** [PerfTestParams.get_profile_args] *)
Definition get_profile_args (p : PerfTestParams)
    (profile_file result_file : string) : res (list string) :=
  res_bind (get_common_args p) (fun common =>
  Ok (test_args p ++ common ++
      ["-p"%string; profile_file; model (args p); result_file])).

(** ** The world outside the interpreter *)

(** What a finished child process leaves behind: its exit code and the
    lines of the result file, [None] when that file does not exist. *)
Record CompletedProcess := {
  returncode : Z;
  result_file : option (list string)
}.

(** The samples of a stopped [Monitor]. *)
Record MonitorSamples := {
  recorded_gpu : list Q;
  recorded_cpu : list Q;
  recorded_memory : list Q
}.

Record World := {
  (** the builtin [float] on a string; [None] is [ValueError] *)
  float : string -> option Q;
  (** the builtin [int] on a string; [None] is [ValueError] *)
  int : string -> option Z;
  is_windows : bool;
  (** [os.environ] *)
  environ : dict;
  (** [os.path.join] *)
  path_join : string -> string -> string;
  (** [str(uuid.uuid4())] at a given time *)
  uuid4 : nat -> string;
  (** [subprocess.run(args, env=env)] at a given time *)
  subprocess_run : nat -> list string -> dict -> CompletedProcess;
  (** a [Monitor] started at a given time with a latency hint, read after
      [stop()] *)
  Monitor : nat -> Q -> MonitorSamples;
  (** [os.path.isdir] *)
  isdir : string -> bool;
  (** [len(GPUtil.getGPUs())] *)
  getGPUs : nat;
  (** [maps.ep_envvar_map.get]: the candidate values of each environment
      variable of a provider, in declaration order *)
  ep_envvar_map : string -> option (list (string * list string))
}.

(** A reference to a [PerfTestParams] object. *)
Abbreviation ref := nat.

Record state := {
  heap : list PerfTestParams;
  clock : nat
}.

Definition M (A : Type) : Type := state -> res (A * state).

Definition ret {A} (a : A) : M A := fun st => Ok (a, st).

Definition bind {A B} (m : M A) (k : A -> M B) : M B :=
  fun st =>
    match m st with
    | Ok (a, st') => k a st'
    | Raise e => Raise e
    | Stuck => Stuck
    end.

Definition lift {A} (r : res A) : M A :=
  fun st =>
    match r with
    | Ok a => Ok (a, st)
    | Raise e => Raise e
    | Stuck => Stuck
    end.

Definition raise {A} (e : exn) : M A := fun _ => Raise e.

Notation "'let*' x ':=' m 'in' k" := (bind m (fun x => k))
  (at level 10, x name, m at level 100, k at level 200).
Notation "'let*' ' pat ':=' m 'in' k" :=
  (bind m (fun x => match x with pat => k end))
  (at level 10, pat pattern, m at level 100, k at level 200).
Notation "'do' m 'then' k" := (bind m (fun _ => k))
  (at level 10, m at level 100, k at level 200).

(** Object creation. *)
Definition new (p : PerfTestParams) : M ref :=
  fun st => Ok (length (heap st),
                {| heap := heap st ++ [p]; clock := clock st |}).

(** Reading an object. *)
Definition deref (r : ref) : M PerfTestParams :=
  fun st =>
    match heap st !! r with
    | Some p => Ok (p, st)
    | None => Stuck
    end.

(** Mutating an object in place. *)
Definition modify (r : ref) (f : PerfTestParams -> PerfTestParams) : M unit :=
  fun st =>
    match heap st !! r with
    | Some p => Ok (tt, {| heap := <[r := f p]> (heap st); clock := clock st |})
    | None => Stuck
    end.

(** One interaction with the world: returns the time and advances it. *)
Definition tick : M nat :=
  fun st => Ok (clock st, {| heap := heap st; clock := S (clock st) |}).

(** ** The trial runner *)

Section Runner.

Context (w : World).

(** [PerfTestParams.__init__].  [build_path] is the global of that name
    at the time of the call. *)
Definition PerfTestParams_init (build_path : string)
    (name desc path : string) (test_args : list string) (env : dict)
    (args : Args) (build_name : string) : PerfTestParams :=
  let self_env := environ w in
  let exe :=
    if is_windows w then path_join w build_path "onnxruntime_perf_test.exe"
    else path_join w build_path "onnxruntime_perf_test" in
  let self_env :=
    if is_windows w then self_env
    else Dict.set self_env "LD_LIBRARY_PATH" build_path in
  let self_env := Dict.pop self_env "OMP_WAIT_POLICY" in
  let self_env := Dict.pop self_env "OMP_NUM_THREADS" in
  {| name := name; desc := desc; path := path; exe := exe;
     env := Dict.update self_env env;
     test_args := exe :: test_args;
     env_to_set := env;
     args := args; build_name := build_name;
     command := None; avg := None; latencies := [];
     gpu := 0; cpu := 0; memory := 0 |}.

(** The loop over [result.readlines()]: a line of five comma-separated
    fields contributes [float(tokens[1])]. *)
Fixpoint parse_latencies (lines : list string) : res (list Q) :=
  match lines with
  | [] => Ok []
  | line :: rest =>
      let tokens := Str.split_comma (Str.strip line) in
      if (length tokens =? 5)%nat then
        match tokens !! 1%nat with
        | Some t =>
            match float w t with
            | Some x => res_bind (parse_latencies rest) (fun l => Ok (x :: l))
            | None => Raise ValueError
            end
        | None => Raise IndexError
        end
      else parse_latencies rest
  end.

(** [round(sum(l) / len(l), 5) if len(l) > 0 else 0] *)
Definition mean_usage (l : list Q) : Q :=
  if (0 <? length l)%nat then Num.round (Num.sum l / Num.len l) 5 else 0%Q.

(** The [if percentiles:] block: a third, profiled execution next to a
    resource monitor.  Writing the profile table and moving the trace
    file only produce files and are left out. *)
Definition profile (r : ref) (result_file : string) (latencies : list Q)
  : M unit :=
  let* p := deref r in
  let* k := tick in
  let profile_name := path_join w (result (args p)) (uuid4 w k) in
  match latencies with
  | [] => raise IndexError
  | hint :: _ =>
      let* k := tick in
      let m := Monitor w k hint in
      let* profile_args := lift (get_profile_args p profile_name result_file) in
      let* k := tick in
      let perf_tuning := subprocess_run w k profile_args (env p) in
      let gpus := List.filter (fun x => negb (Num.is_zero x)) (recorded_gpu m) in
      let cpus := List.filter (fun x => negb (Num.is_zero x)) (recorded_cpu m) in
      modify r (fun p => set_usage p (mean_usage gpus) (mean_usage cpus)
                                   (mean_usage (recorded_memory m)))
  end.

(** [test_params.avg] as computed from the sorted latencies. *)
Definition average (latencies : list Q) : option Q :=
  if (0 <? length latencies)%nat
  then Some (Num.round (Num.sum latencies / Num.len latencies) 9 * 1000)%Q
  else None.

(** [run_perf_tuning(test_params, percentiles)] *)
Definition run_perf_tuning (r : ref) (percentiles : bool) : M unit :=
  let* p := deref r in
  let* k := tick in
  let result_file_name := path_join w (result (args p)) (uuid4 w k) in
  let* test_args :=
    lift (if percentiles then Ok (get_percentiles_args p result_file_name)
          else get_args p result_file_name) in
  let* k := tick in
  let warmup := subprocess_run w k test_args (env p) in
  (* The first run was warmup: its result file is removed unread. *)
  do (if match command p with
         | None => true
         | Some c => Str.is_empty c
         end
      then modify r (fun p => set_command p (Some (Str.join " " test_args)))
      else ret tt) then
  let* k := tick in
  let perf_tuning := subprocess_run w k test_args (env p) in
  let* latencies :=
    match returncode perf_tuning =? 0, result_file perf_tuning with
    | true, Some lines =>
        let* latencies := lift (parse_latencies lines) in
        do (if percentiles then profile r result_file_name latencies
            else ret tt) then
        ret latencies
    | _, _ => ret []
    end in
  let latencies := Num.sort_by (fun x => x) latencies in
  modify r (fun p => set_result p latencies (average latencies)).

End Runner.

(** ** The binary-search thread tuner *)

(** The local variables of [run_perf_tuning_binary] that live across loop
    iterations, with the two lists the caller passed in.  [restarts] is a
    ghost counter of how often the re-run branch (lines 284-288) was taken;
    the program does not have it. *)
Record search := {
  lower : Z;
  upper : Z;
  best_latency : Q;
  best_run : Z;
  rerun : bool;
  failed_tests : list ref;
  successful_tests : list ref;
  restarts : nat
}.

(** How one pass through the loop body ends: at its end ([Continue]) or by
    a [break] statement. *)
Inductive step :=
| Continue (s : search)
| Break (s : search).

Section Tuner.

Context (w : World).
(** The globals [build_name] and [build_path] of the script. *)
Context (build_name build_path : string).
(** The parameters of [run_perf_tuning_binary] that stay fixed. *)
Context (test_params : PerfTestParams) (num_cores : Z)
        (name_suffix desc_suffix : string) (is_omp tune_inter_ops : bool).

(** The trial for thread count [n]: the [PerfTestParams(...)] call and
    the update of its arguments or environment (lines 218-234 and
    254-271). *)
Definition make_probe (n : Z) : PerfTestParams :=
  let param :=
    PerfTestParams_init w build_path
      (name test_params +:+ Str.of_Z n +:+ name_suffix)
      (desc test_params +:+ Str.of_Z n +:+ desc_suffix)
      (path test_params) [] (env_to_set test_params)
      (args test_params) build_name in
  if tune_inter_ops then
    set_test_args param (test_args test_params ++ ["-y"%string; Str.of_Z n])
  else if negb is_omp then
    set_test_args param (test_args test_params ++ ["-x"%string; Str.of_Z n])
  else
    set_test_args (updateEnv param [("OMP_NUM_THREADS"%string, Str.of_Z n)])
                  (test_args test_params ++ ["-x"; "1"]%string).

(** [mid = lower + (upper - lower) // 2] *)
Definition midpoint (s : search) : Z := lower s + (upper s - lower s) / 2.

(** Lines 273-280 for a probe with a truthy average [a]. *)
Definition narrow (s : search) (mid : Z) (r : ref) (a : Q) : search :=
  if Num.ltb (best_latency s) a then
    {| lower := lower s; upper := mid - 1;
       best_latency := best_latency s; best_run := best_run s;
       rerun := rerun s; failed_tests := failed_tests s;
       successful_tests := successful_tests s ++ [r];
       restarts := restarts s |}
  else
    {| lower := mid + 1; upper := upper s;
       best_latency := a; best_run := mid;
       rerun := rerun s; failed_tests := failed_tests s;
       successful_tests := successful_tests s ++ [r];
       restarts := restarts s |}.

(** Lines 284-288. *)
Definition rerun_check (s : search) : search :=
  if (upper s <? lower s) && (best_run s =? (1 + num_cores) / 2)
     && negb (rerun s)
  then
    {| lower := 2; upper := (1 + num_cores) / 2 - 1;
       best_latency := best_latency s; best_run := best_run s;
       rerun := true; failed_tests := failed_tests s;
       successful_tests := successful_tests s;
       restarts := S (restarts s) |}
  else s.

(** Lines 281-283. *)
Definition probe_failed (s : search) (r : ref) : search :=
  {| lower := lower s; upper := upper s;
     best_latency := best_latency s; best_run := best_run s;
     rerun := rerun s; failed_tests := failed_tests s ++ [r];
     successful_tests := successful_tests s;
     restarts := restarts s |}.

(** One pass through the body of [while lower <= upper] (lines 249-288). *)
Definition loop_body (s : search) : M step :=
  let mid := midpoint s in
  if mid =? 2 then ret (Break s)
  else
    let* r := new (make_probe mid) in
    do run_perf_tuning w r false then
    let* param := deref r in
    match avg param with
    | Some a =>
        if truthy (Some a) then ret (Continue (rerun_check (narrow s mid r a)))
        else ret (Break (probe_failed s r))
    | None => ret (Break (probe_failed s r))
    end.

(** [while lower <= upper: ...] *)
Fixpoint while_loop (fuel : nat) (s : search) : M search :=
  if lower s <=? upper s then
    match fuel with
    | O => fun _ => Stuck
    | S fuel' =>
        let* r := loop_body s in
        match r with
        | Continue s' => while_loop fuel' s'
        | Break s' => ret s'
        end
    end
  else ret s.

(** [upper] as line 210 sets it. *)
Definition initial_upper : Z := if is_omp then num_cores else num_cores - 1.

(** The state at line 247, after a baseline with average [a]; [failed]
    and [successful] are the lists of the caller. *)
Definition after_baseline (failed successful : list ref)
    (r : ref) (a : Q) : search :=
  {| lower := 2 + 1;
     upper := initial_upper;
     best_latency := a; best_run := 2; rerun := false;
     failed_tests := failed;
     successful_tests := successful ++ [r];
     restarts := 0 |}.

(** [run_perf_tuning_binary]: returns [best_run] and the two lists
    [failed_tests] and [successful_tests] as the function leaves them. *)
Definition run_perf_tuning_binary (failed successful : list ref)
  : M (Z * list ref * list ref) :=
  if initial_upper <? 2 then ret (-1, failed, successful)
  else
    let* r := new (make_probe 2) in
    do run_perf_tuning w r false then
    let* param := deref r in
    match avg param with
    | Some a =>
        if truthy (Some a) then
          let* s := while_loop (Z.to_nat (2 * num_cores))
                      (after_baseline failed successful r a) in
          ret (best_run s, failed_tests s, successful_tests s)
        else ret (-1, failed ++ [r], successful)
    | None => ret (-1, failed ++ [r], successful)
    end.

End Tuner.

(** ** The environment combination generator *)

(** One round of the loop of [get_env_var_combos] (lines 297-311): the
    first non-empty list starts the combinations, each later one extends
    every combination by each of its options. *)
Definition extend_combos (all_combos : list (list string))
    (options : list string) : list (list string) :=
  if (length all_combos =? 0)%nat then
    (* list(itertools.combinations(options, 1)) *)
    List.map (fun o => [o]) options
  else
    (* itertools.product(all_combos, options), flattened *)
    List.flat_map (fun combo => List.map (fun o => combo ++ [o]) options)
                  all_combos.

(** [get_env_var_combos(env_vars)]; [None] is Python's [None]. *)
Definition get_env_var_combos (env_vars : option (list (string * list string)))
  : list (list string) :=
  match env_vars with
  | None => [[EmptyString]]
  | Some d => fold_left extend_combos (List.map snd d) []
  end.

(** [gen_env_var_dict(env_names, env_option)] *)
Definition gen_env_var_dict (env_names env_option : list string) : res dict :=
  if (length env_names =? 0)%nat || (length env_option =? 0)%nat then Ok []
  else
    fold_left
      (fun (acc : res dict) (i : nat) =>
         res_bind acc (fun env_var_dict =>
           match env_names !! i, env_option !! i with
           | Some n, Some o =>
               if (0 <? String.length o)%nat
               then Ok (Dict.set env_var_dict n o)
               else Ok env_var_dict
           | _, _ => Raise IndexError
           end))
      (seq 0 (length env_names)) (Ok []).

(** ** The script *)

(** A record of the report for a successful trial.  The generated code
    snippet, a formatted string, is left out. *)
Record success_record := {
  json_name : string;
  json_command : option string;
  json_avg : option Q;
  json_p90 : option Q;
  json_p95 : option Q;
  json_cpu_usage : Q;
  json_gpu_usage : Q;
  json_memory_util : Q
}.

(** A record of the report for a failed trial; its ["result"] is
    ["error"]. *)
Record failure_record := {
  json_failed_name : string;
  json_failed_command : option string
}.

Inductive json_list :=
| Successes (l : list success_record)
| Failures (l : list failure_record).

(** [out_json], an [OrderedDict]. *)
Definition report := list (string * json_list).

Fixpoint report_set (d : report) (k : string) (v : json_list) : report :=
  match d with
  | [] => [(k, v)]
  | (k', v') :: rest =>
      if String.eqb k' k then (k', v) :: rest else (k', v') :: report_set rest k v
  end.

(** [successful_by_ep] *)
Definition by_ep := list (string * list ref).

Fixpoint by_ep_set (d : by_ep) (k : string) (v : list ref) : by_ep :=
  match d with
  | [] => [(k, v)]
  | (k', v') :: rest =>
      if String.eqb k' k then (k', v) :: rest else (k', v') :: by_ep_set rest k v
  end.

Fixpoint by_ep_get (d : by_ep) (k : string) : option (list ref) :=
  match d with
  | [] => None
  | (k', v) :: rest => if String.eqb k' k then Some v else by_ep_get rest k
  end.

(** [for x in l: body], threading the variables the body assigns. *)
Fixpoint for_each {A S} (l : list A) (body : A -> S -> M S) (s : S) : M S :=
  match l with
  | [] => ret s
  | x :: rest => let* s' := body x s in for_each rest body s'
  end.

(** [[f(x) for x in l]] on objects. *)
Fixpoint deref_all (l : list ref) : M (list (ref * PerfTestParams)) :=
  match l with
  | [] => ret []
  | r :: rest =>
      let* p := deref r in
      let* ps := deref_all rest in
      ret ((r, p) :: ps)
  end.

(** [[x for x in l if x.avg]] and [[x for x in l if not x.avg]] *)
Definition select_avg (want : bool) (l : list ref) : M (list ref) :=
  let* ps := deref_all l in
  ret (List.map fst
         (List.filter (fun rp => Bool.eqb (truthy (avg (snd rp))) want) ps)).

Definition key_of (rp : ref * PerfTestParams) : Q :=
  match avg (snd rp) with
  | Some a => a
  | None => 0%Q
  end.

(** [sorted(l, key=lambda e: e.avg)].  With two or more elements every key
    takes part in a comparison, and comparing [None] is a [TypeError];
    shorter lists are returned without any comparison. *)
Definition sorted_by_avg (l : list ref) : M (list ref) :=
  let* ps := deref_all l in
  if (2 <=? length ps)%nat
     && existsb (fun rp => match avg (snd rp) with None => true | _ => false end) ps
  then raise TypeError
  else ret (List.map fst (Num.sort_by key_of ps)).

(** [l[:n]] *)
Definition slice_to {A} (l : list A) (n : Z) : list A :=
  if 0 <=? n then take (Z.to_nat n) l
  else take (Z.to_nat (Z.of_nat (length l) + n)) l.

Definition allProviders : list string :=
  ["cpu_openmp"; "mklml"; "dnnl"; "cpu"; "tensorrt"; "ngraph"; "cuda"; "nuphar"]%string.
Definition parallel_eps : list string :=
  ["cpu_openmp"; "mklml"; "dnnl"; "cpu"; "ngraph"]%string.
Definition omp_eps : list string :=
  ["cpu_openmp"; "mklml"; "dnnl"; "ngraph"; "nuphar"]%string.

(** [x in l] for a list of strings. *)
Definition mem (x : string) (l : list string) : bool :=
  existsb (String.eqb x) l.

(** The variables of the script that live across providers. *)
Record script := {
  successful_by_ep : by_ep;
  profile_candidates : list ref;
  failed : list ref
}.

Section Script.

Context (w : World).
(** [bin_dir], the directory of the pre-built providers. *)
Context (bin_dir : string).
Context (args : Args).

(** Lines 417: the providers to tune. *)
Definition providers : list string :=
  if (0 <? String.length (execution_provider args))%nat then
    List.filter (fun p => negb (String.eqb p EmptyString))
                (Str.split_comma (execution_provider args))
  else allProviders.

Section Provider.

(** The globals [build_name] and [build_path] and the local
    [test_args] of one round of the provider loop. *)
Context (build_name build_path : string) (test_args : list string).

(** Lines 498-527: the candidates of one environment combination are
    appended to [tests]. *)
Definition add_candidates (env : dict) (env_option : string)
    (is_omp : bool) (name_suffix desc_suffix : string)
    (best_inter_op_num_threads best_thread_pool_size : Z)
    (tests : list ref) : M (list ref) :=
  let* tests :=
    if 1 <? best_inter_op_num_threads then
      let name_suffix :=
        (name_suffix +:+ "_" +:+ Str.of_Z best_inter_op_num_threads
           +:+ "_inter_threads")%string in
      let desc_suffix :=
        (desc_suffix +:+ Str.of_Z best_inter_op_num_threads
           +:+ " inter_op_num_threads, ")%string in
      if 1 <? best_thread_pool_size then
        let params :=
          PerfTestParams_init w build_path
            (build_name +:+ "_parallel_" +:+ Str.of_Z best_thread_pool_size
               +:+ name_suffix +:+ env_option)
            (build_name +:+ " " +:+ Str.of_Z best_thread_pool_size
               +:+ desc_suffix +:+ env_option)
            build_path
            (test_args ++ ["-P"; "-y"; Str.of_Z best_inter_op_num_threads]%string)
            env args build_name in
        let params :=
          if is_omp then
            let params :=
              updateEnv params
                [("OMP_NUM_THREADS"%string, Str.of_Z best_thread_pool_size)] in
            extend_test_args params ["-x"; "1"]%string
          else
            extend_test_args params
              ["-x"%string; Str.of_Z best_thread_pool_size] in
        let* r := new params in
        ret (tests ++ [r])
      else ret tests
    else ret tests in
  let params :=
    PerfTestParams_init w build_path
      (build_name +:+ env_option)
      (build_name +:+ " " +:+ env_option)
      build_path test_args env args build_name in
  let* r := new params in
  ret (tests ++ [r]).

(** Lines 476-527: one round of the loop over the environment
    combinations.  The state is [(tests, failed, successful)]. *)
Definition sweep_combo (env_names : list string)
    (best_inter_op_num_threads : Z) (combo : list string)
    (st : list ref * list ref * list ref)
  : M (list ref * list ref * list ref) :=
  let '(tests, failed, successful) := st in
  let* env := lift (gen_env_var_dict env_names combo) in
  let env_option :=
    fold_left (fun acc e => (acc +:+ "_" +:+ fst e +:+ "_" +:+ snd e)%string)
              env EmptyString in
  let is_omp := mem build_name omp_eps in
  let* num_threads :=
    lift (match int w (intra_op_num_threads args) with
          | Some n => Ok n
          | None => Raise ValueError
          end) in
  let name_suffix :=
    (if negb is_omp then "_intra_threads" else "_OMP_threads")%string in
  let desc_suffix :=
    (if negb is_omp then " intra_op_num_threads, "
     else " OMP_NUM_THREADS, ")%string in
  let* '(best_thread_pool_size, failed, successful) :=
    run_perf_tuning_binary w build_name build_path
      (PerfTestParams_init w build_path
         (build_name +:+ "_") (build_name +:+ " ") build_path
         test_args env args build_name)
      num_threads (name_suffix +:+ env_option) (desc_suffix +:+ env_option)
      is_omp false failed successful in
  let* tests :=
    add_candidates env env_option is_omp name_suffix desc_suffix
      best_inter_op_num_threads best_thread_pool_size tests in
  ret (tests, failed, successful).

(** Lines 533-539: the provider's trials are ranked and cut to the
    best [top_n]; the candidates without a truthy average join
    [failed]. *)
Definition rank (tests successful : list ref) (s : script) : M script :=
  let* passed := select_avg true tests in
  let successful := successful ++ passed in
  let* ranked := sorted_by_avg successful in
  let* n :=
    lift (match int w (top_n args) with
          | Some n => Ok n
          | None => Raise ValueError
          end) in
  let successful := slice_to ranked n in
  let* not_passed := select_avg false tests in
  ret {| successful_by_ep :=
           if (0 <? length successful)%nat
           then by_ep_set (successful_by_ep s) build_name successful
           else successful_by_ep s;
         profile_candidates :=
           match successful with
           | best :: _ => profile_candidates s ++ [best]
           | [] => profile_candidates s
           end;
         failed := failed s ++ not_passed |}.

(** Lines 450-539: the body of [if os.path.isdir(build_path):]. *)
Definition tune (s : script) : M script :=
  let successful := [] in
  let tests := [] in
  let best_inter_op_num_threads := -1 in
  let* '(best_inter_op_num_threads, failed, successful) :=
    if parallel args && mem build_name parallel_eps then
      let* num_cores :=
        lift (match int w (inter_op_num_threads args) with
              | Some n => Ok n
              | None => Raise ValueError
              end) in
      run_perf_tuning_binary w build_name build_path
        (PerfTestParams_init w build_path
           (build_name +:+ "_parallel_") (build_name +:+ " ") build_path
           (test_args ++ ["-P"%string]) [] args build_name)
        num_cores "_inter_threads" " threads, " false true
        (failed s) successful
    else ret (best_inter_op_num_threads, failed s, successful) in
  let env_vars := ep_envvar_map w build_name in
  let env_var_combos := get_env_var_combos env_vars in
  let env_names :=
    match env_vars with
    | Some d => List.map fst d
    | None => []
    end in
  let* '(tests, failed, successful) :=
    for_each env_var_combos
      (sweep_combo env_names best_inter_op_num_threads)
      (tests, failed, successful) in
  (* Run the tests under current execution provider. *)
  do for_each tests (fun test _ => run_perf_tuning w test false) tt then
  rank tests successful
    {| successful_by_ep := successful_by_ep s;
       profile_candidates := profile_candidates s;
       failed := failed |}.

End Provider.

(** Lines 439-539: one round of [for build_name in providers]. *)
Definition tune_provider (build_name : string) (s : script) : M script :=
  let* build_path :=
    if Str.contains "mklml" build_name || Str.contains "nuphar" build_name
    then ret (path_join w bin_dir "mklml")
    else if mem build_name allProviders
    then ret (path_join w bin_dir "all_eps")
    else raise ValueError in
  if isdir w build_path then
    let test_args :=
      if negb (Str.contains "mklml" build_name)
         && negb (Str.contains "cpu_openmp" build_name)
      then ["-e"%string; build_name] else [] in
    tune build_name build_path test_args s
  else ret s.

(** Lines 564-575: the record of a successful trial.  [int(n * .9)] and
    [int(n * .95)] are the floors of [9n/10] and [95n/100]. *)
Definition json_record (test : PerfTestParams) : res success_record :=
  let num_latencies := Z.of_nat (length (latencies test)) in
  res_bind
    (if 10 <=? num_latencies then
       match latencies test !! Z.to_nat (num_latencies * 9 / 10) with
       | Some x => Ok (Some (Num.round (x * 1000) 5))
       | None => Raise IndexError
       end
     else Ok None) (fun p90 =>
  res_bind
    (if 20 <=? num_latencies then
       match latencies test !! Z.to_nat (num_latencies * 95 / 100) with
       | Some x => Ok (Some (Num.round (x * 1000) 5))
       | None => Raise IndexError
       end
     else Ok None) (fun p95 =>
  Ok {| json_name := name test;
        json_command := command test;
        json_avg := avg test;
        json_p90 := p90;
        json_p95 := p95;
        json_cpu_usage := Num.round (cpu test / 100) 5;
        json_gpu_usage := Num.round (gpu test) 5;
        json_memory_util := Num.round (memory test / 100) 5 |})).

Fixpoint json_records (tests : list PerfTestParams)
  : res (list success_record) :=
  match tests with
  | [] => Ok []
  | test :: rest =>
      res_bind (json_record test) (fun record =>
      res_bind (json_records rest) (fun records =>
      Ok (record :: records)))
  end.

(** Lines 558-578: one round of [for ep_candidate in profile_candidates].
    Every [out_json[test.build_name] = json_list] stores the one list
    object that the loop goes on filling. *)
Definition report_ep (successes : by_ep) (ep_candidate : ref) (out_json : report)
  : M report :=
  let* candidate := deref ep_candidate in
  match by_ep_get successes (build_name candidate) with
  | None => raise KeyError
  | Some tests =>
      let* ps := deref_all tests in
      let* json_list := lift (json_records (List.map snd ps)) in
      ret (fold_left
             (fun out test => report_set out (build_name (snd test))
                                         (Successes json_list))
             ps out_json)
  end.

(** Lines 580-589. *)
Definition report_failed (failed : list ref) (out_json : report) : M report :=
  let* ps := deref_all failed in
  let json_list :=
    List.map (fun test => {| json_failed_name := name (snd test);
                             json_failed_command := command (snd test) |})
             ps in
  ret (match ps with
       | [] => out_json
       | _ => report_set out_json "failed" (Failures json_list)
       end).

(** Line 546: [[x for x in failed if "cuda" not in x.name and "tensorrt"
    not in x.name]] *)
Definition drop_gpu_failures (failed : list ref) : M (list ref) :=
  let* ps := deref_all failed in
  ret (List.map fst
         (List.filter
            (fun test => negb (Str.contains "cuda" (name (snd test)))
                         && negb (Str.contains "tensorrt" (name (snd test))))
            ps)).

(** Lines 541-589: re-profiling of the fastest trial of every provider
    and the report [out_json] that is dumped to [latencies.json]. *)
Definition aggregate (s : script) : M report :=
  do for_each (profile_candidates s)
       (fun test _ => run_perf_tuning w test true) tt then
  let* failed :=
    if (getGPUs w =? 0)%nat then drop_gpu_failures (failed s)
    else ret (failed s) in
  (* Re-sort tests based on 100 runs *)
  let* profile_candidates := sorted_by_avg (profile_candidates s) in
  let* out_json :=
    for_each profile_candidates (report_ep (successful_by_ep s)) [] in
  report_failed failed out_json.

(** The script from line 415 on, given [args].  What comes before it is
    not modelled: reading the arguments, [os.mkdir] of a missing result
    directory and [os.listdir(bin_dir)] (lines 401-413), which raises
    when [bin_dir] does not exist.  [main] is the script once line 413
    has passed. *)
Definition main : M report :=
  let* s :=
    for_each providers tune_provider
      {| successful_by_ep := []; profile_candidates := []; failed := [] |} in
  aggregate s.

End Script.

(** The state the script starts in. *)
Definition initial_state : state := {| heap := []; clock := 0 |}.

(** ** The code snippet of a report record *)

(** [l.index(x)]: the first position of [x]; [None] is [ValueError]. *)
Fixpoint index (x : string) (l : list string) : option nat :=
  match l with
  | [] => None
  | y :: rest => if String.eqb y x then Some 0%nat else option_map S (index x rest)
  end.

(** [PerfTestParams.get_graph_optimization_level]; the result [None] is
    Python's [None], which the method returns by falling off its end. *)
Definition get_graph_optimization_level (p : PerfTestParams) : option string :=
  if String.eqb (optimization_level (args p)) "1" then Some "ORT_ENABLE_BASIC"%string
  else if String.eqb (optimization_level (args p)) "2"
  then Some "ORT_ENABLE_EXTENDED"%string
  else if String.eqb (optimization_level (args p)) "99"
  then Some "ORT_ENABLE_ALL"%string
  else None.

(** [PerfTestParams.get_inter_threads_code_snippet].  The last branch is
    not reached: the index is within the list. *)
Definition get_inter_threads_code_snippet (p : PerfTestParams) : string :=
  match index "-y" (test_args p) with
  | None => EmptyString
  | Some i =>
      if (length (test_args p) <=? i + 1)%nat then EmptyString
      else match test_args p !! (i + 1)%nat with
           | Some v => ("so.inter_op_num_threads = " +:+ v)%string
           | None => EmptyString
           end
  end.

(** [PerfTestParams.get_intra_threads_code_snippet] *)
Definition get_intra_threads_code_snippet (p : PerfTestParams) : string :=
  match index "-x" (test_args p) with
  | None => EmptyString
  | Some i =>
      if (length (test_args p) <=? i + 1)%nat then EmptyString
      else match test_args p !! (i + 1)%nat with
           | Some v => ("so.intra_op_num_threads = " +:+ v)%string
           | None => EmptyString
           end
  end.

(** [PerfTestParams.get_execution_provider_name]; [upper] is the builtin
    [str.upper]. *)
Definition get_execution_provider_name (upper : string -> string)
    (p : PerfTestParams) : string :=
  match index "-e" (test_args p) with
  | None => "CPUExecutionProvider"%string
  | Some i =>
      if (length (test_args p) <=? i + 1)%nat then EmptyString
      else match test_args p !! (i + 1)%nat with
           | Some v => (upper v +:+ "ExecutionProvider")%string
           | None => EmptyString
           end
  end.

(** ** Arguments from a JSON file *)

(** What [json.load] returns; a JSON [null] is Python's [None]. *)
#[warnings="-register-all"] Inductive json :=
| JNull
| JBool (b : bool)
| JNumber (q : Q)
| JString (s : string)
| JArray (l : list json)
| JObject (members : list (string * json)).

(** [bool(x)] *)
Definition json_truthy (x : json) : bool :=
  match x with
  | JNull => false
  | JBool b => b
  | JNumber q => negb (Num.is_zero q)
  | JString s => negb (Str.is_empty s)
  | JArray l => match l with [] => false | _ => true end
  | JObject l => match l with [] => false | _ => true end
  end.

(** [x == None] *)
Definition json_is_none (x : json) : bool :=
  match x with JNull => true | _ => false end.

(** [d.get(k)] on the members of a JSON object. *)
Fixpoint json_get (d : list (string * json)) (k : string) : json :=
  match d with
  | [] => JNull
  | (k', v) :: rest => if String.eqb k' k then v else json_get rest k
  end.

(** [l.index(x)] does not raise: [x] is one of the strings of [l]. *)
Definition json_in (x : json) (l : list string) : bool :=
  match x with
  | JString s => mem s l
  | _ => false
  end.

Module ConverterParamsFromJson.

(** The attributes of a [ConverterParamsFromJson] object. *)
Record t := {
  model : json;
  result : json;
  config : json;
  test_mode : json;
  execution_provider : json;
  repeated_times : json;
  duration_time : json;
  intra_op_num_threads : json;
  inter_op_num_threads : json;
  top_n : json;
  parallel : json;
  optimization_level : json
}.

(** [loaded_json[k] if loaded_json.get(k) else default] *)
Definition choose (loaded_json : list (string * json)) (k : string)
    (default : json) : json :=
  if json_truthy (json_get loaded_json k) then json_get loaded_json k
  else default.

(** [ConverterParamsFromJson.__init__] from line 337 on, for the object
    [loaded_json] that the file holds and the value [cpu_count] of
    [os.cpu_count()]. *)
Definition init (cpu_count : Z) (loaded_json : list (string * json)) : res t :=
  let cores := cpu_count / 2 in
  if json_is_none (json_get loaded_json "model") then Raise ValueError
  else if json_is_none (json_get loaded_json "result") then Raise ValueError
  else if json_truthy (json_get loaded_json "config")
          && negb (json_in (json_get loaded_json "config")
                     ["Debug"; "MinSizeRel"; "Release"; "RelWithDebInfo"]%string)
  then Raise ValueError
  else if json_truthy (json_get loaded_json "test_mode")
          && negb (json_in (json_get loaded_json "test_mode")
                     ["duration"; "times"]%string)
  then Raise ValueError
  else
    Ok {| model := json_get loaded_json "model";
          result := json_get loaded_json "result";
          config := choose loaded_json "config" (JString "RelWithDebInfo");
          test_mode := choose loaded_json "test_mode" (JString "times");
          execution_provider :=
            choose loaded_json "execution_provider" (JString EmptyString);
          repeated_times := choose loaded_json "repeated_times" (JString "20");
          duration_time := choose loaded_json "duration_time" (JString "10");
          intra_op_num_threads :=
            choose loaded_json "intra_op_num_threads" (JString (Str.of_Z cores));
          inter_op_num_threads :=
            choose loaded_json "inter_op_num_threads" (JString (Str.of_Z cores));
          top_n := choose loaded_json "top_n" (JString "3");
          parallel := choose loaded_json "parallel" (JBool true);
          optimization_level :=
            choose loaded_json "optimization_level" (JString "99") |}.

End ConverterParamsFromJson.

(** ** The build script [build_perf_tuning.py] *)

Module Build.

(** The arguments of the build script; an option that takes a value is
    [None] when it was not given. *)
Record Args := {
  onnxruntime_home : string;
  config : string;
  use_cuda : bool;
  cuda_version : option string;
  cuda_home : option string;
  cudnn_home : option string;
  use_tensorrt : bool;
  tensorrt_home : option string;
  use_ngraph : bool;
  use_mklml : bool;
  use_nuphar : bool;
  llvm_path : option string;
  variants : option string;
  prebuilt : bool
}.

(** [bool(x)] for an option that is [None] or a string. *)
Definition given (x : option string) : bool :=
  match x with
  | Some s => negb (Str.is_empty s)
  | None => false
  end.

(** What the script does to the outside, in the order in which it does
    it.  [Copy] is a call of [copy]: all files that match the pattern go to
    the directory. *)
Inductive action :=
| Remove (path : string)
| Run (cmd : list string) (cwd : string) (env : option dict)
| Rmtree (path : string)
| Makedirs (path : string)
| Copy (pattern dest : string).

(** The exceptions the script can raise. *)
Inductive exn :=
  ValueError | TypeError | KeyError | UnboundLocalError | CalledProcessError.

(** How a computation ends, with the actions done until then. *)
Inductive outcome (A : Type) : Type :=
| Done (a : A) (h : list action)
| Raised (e : exn) (h : list action).
Arguments Done {A} a h.
Arguments Raised {A} e h.

(** The outside: the platform, [os.environ], [os.pathsep], [os.path.join],
    and what [os.path.exists] and the exit code of a child process are
    after the actions done so far.  File operations themselves are taken
    to succeed. *)
Record World := {
  is_windows : bool;
  environ : dict;
  pathsep : string;
  join : list string -> string;
  path_exists : list action -> string -> bool;
  exits_zero : list action -> list string -> bool
}.

(** A computation that adds to the actions done so far. *)
Definition B (A : Type) : Type := list action -> outcome A.

Definition ret {A} (a : A) : B A := fun h => Done a h.

Definition bind {A C} (m : B A) (k : A -> B C) : B C :=
  fun h =>
    match m h with
    | Done a h' => k a h'
    | Raised e h' => Raised e h'
    end.

Definition raise {A} (e : exn) : B A := fun h => Raised e h.

Definition act (a : action) : B unit := fun h => Done tt (h ++ [a]).

Definition exists_ (w : World) (path : string) : B bool :=
  fun h => Done (path_exists w h path) h.

(** [subprocess.run(cmd, cwd=cwd, env=env, check=True)] *)
Definition run (w : World) (cmd : list string) (cwd : string)
    (env : option dict) : B unit :=
  fun h =>
    if exits_zero w h cmd then Done tt (h ++ [Run cmd cwd env])
    else Raised CalledProcessError (h ++ [Run cmd cwd env]).

(** [os.path.join(home, rest)] for a [home] that may be [None]. *)
Definition join_home (w : World) (home : option string) (rest : string)
  : B string :=
  match home with
  | Some d => ret (join w [d; rest])
  | None => raise TypeError
  end.

Definition when (c : bool) (m : B unit) : B unit := if c then m else ret tt.

Notation "'let+' x ':=' m 'in' k" := (bind m (fun x => k))
  (at level 10, x name, m at level 100, k at level 200).
Notation "'run+' m 'then' k" := (bind m (fun _ => k))
  (at level 10, m at level 100, k at level 200).

(** [copy(os.path.join(home, rest), target_dir)] *)
Definition copy_from (w : World) (home : option string) (rest dest : string)
  : B unit :=
  let+ pattern := join_home w home rest in
  act (Copy pattern dest).

(** Line 22: whether [args.variants] leaves the build out. *)
Definition skipped (build_name : string) (args : Args) : bool :=
  match variants args with
  | Some v => negb (Str.is_empty v) && negb (mem build_name (Str.split_comma v))
  | None => false
  end.

(** The Windows branch of [build_onnxruntime] (lines 25-57).  [target_dir]
    is assigned in the branch that builds only. *)
Definition build_windows (w : World) (onnxruntime_dir config : string)
    (build_args : list string) (build_name : string) (args : Args)
  : B bool :=
  let windows_build_dir :=
    join w [onnxruntime_dir; "build"; "Windows"; config; config]%string in
  let perf_test_exe :=
    join w [windows_build_dir; "onnxruntime_perf_test.exe"]%string in
  let+ found := exists_ w perf_test_exe in
  let prebuilt := if negb found && prebuilt args then false else prebuilt args in
  let+ target_dir :=
    if negb prebuilt then
      let+ cached := exists_ w (join w [windows_build_dir; "CMakeCache.txt"]%string) in
      run+ when cached (act (Remove (join w [windows_build_dir; "CMakeCache.txt"]%string))) then
      run+ run w ([join w [onnxruntime_dir; "build.bat"]; "--config"; config;
                   "--build_shared_lib"; "--parallel"]%string ++ build_args)
                 onnxruntime_dir None then
      ret (Some (join w ["bin"; config; build_name]%string))
    else ret None in
  match target_dir with
  | None => raise UnboundLocalError
  | Some target_dir =>
      let+ old := exists_ w target_dir in
      run+ when old (act (Rmtree target_dir)) then
      run+ act (Makedirs target_dir) then
      run+ act (Copy (join w [windows_build_dir; "onnxruntime_perf_test.exe"]%string)
                     target_dir) then
      run+ act (Copy (join w [windows_build_dir; "onnxruntime.dll"]%string)
                     target_dir) then
      run+ (if Str.contains "all_eps" build_name then
              run+ act (Copy (join w [windows_build_dir; "dnnl.dll"]%string)
                             target_dir) then
              run+ (if use_cuda args || use_tensorrt args
                    then copy_from w (cudnn_home args) "bin/cudnn*.dll" target_dir
                    else ret tt) then
              if use_tensorrt args
              then copy_from w (tensorrt_home args) "lib/nvinfer.dll" target_dir
              else ret tt
            else ret tt) then
      run+ (if Str.contains "mklml" build_name then
              run+ act (Copy (join w [windows_build_dir; "tvm.dll"]%string)
                             target_dir) then
              when (use_nuphar args)
                (act (Copy (join w [onnxruntime_dir; "onnxruntime"; "core";
                                    "providers"; "nuphar"; "scripts";
                                    "symbolic_shape_infer.py"]%string)
                           target_dir))
            else ret tt) then
      ret prebuilt
  end.

(** The other branch of [build_onnxruntime] (lines 58-110). *)
Definition build_linux (w : World) (onnxruntime_dir config : string)
    (build_args : list string) (build_name : string) (args : Args)
  : B bool :=
  let linux_build_dir :=
    join w [onnxruntime_dir; "build"; "Linux"; config]%string in
  let perf_test_exe := join w [linux_build_dir; "onnxruntime_perf_test"]%string in
  let+ found := exists_ w perf_test_exe in
  let prebuilt := if negb found && prebuilt args then false else prebuilt args in
  run+ (if negb prebuilt then
          let+ cached := exists_ w (join w [linux_build_dir; "CMakeCache.txt"]%string) in
          run+ when cached (act (Remove (join w [linux_build_dir; "CMakeCache.txt"]%string))) then
          let build_env := environ w in
          let lib_path :=
            join w [linux_build_dir; "mklml"; "src"; "project_mklml"; "lib"]%string in
          let build_env :=
            match Dict.get build_env "LD_LIBRARY_PATH" with
            | Some old =>
                Dict.set build_env "LD_LIBRARY_PATH" (old +:+ pathsep w +:+ lib_path)
            | None => Dict.set build_env "LD_LIBRARY_PATH" lib_path
            end in
          let+ build_env :=
            if use_tensorrt args then
              match Dict.get build_env "LD_LIBRARY_PATH", tensorrt_home args with
              | Some old, Some home =>
                  ret (Dict.set build_env "LD_LIBRARY_PATH"
                         (old +:+ pathsep w +:+ home))
              | Some _, None => raise TypeError
              | None, _ => raise KeyError
              end
            else ret build_env in
          run w ([join w [onnxruntime_dir; "build.sh"]; "--config"; config;
                  "--build_shared_lib"; "--parallel"]%string ++ build_args)
                onnxruntime_dir (Some build_env)
        else ret tt) then
  let target_dir := join w ["bin"; config; build_name]%string in
  let+ old := exists_ w target_dir in
  run+ when old (act (Rmtree target_dir)) then
  run+ act (Makedirs target_dir) then
  run+ act (Copy (join w [linux_build_dir; "onnxruntime_perf_test"]%string)
                 target_dir) then
  run+ act (Copy (join w [linux_build_dir; "libonnxruntime.so*"]%string)
                 target_dir) then
  run+ (if Str.contains "all_eps" build_name then
          run+ act (Copy (join w [linux_build_dir; "dnnl/install/lib/libdnnl.so*"]%string)
                         target_dir) then
          run+ act (Copy (join w [linux_build_dir;
                                  "libonnxruntime_providers_dnnl.so*"]%string)
                         target_dir) then
          run+ (if use_cuda args || use_tensorrt args then
                  run+ copy_from w (cudnn_home args) "lib64/libcudnn.so*" target_dir then
                  copy_from w (cudnn_home args) "lib64/libnvrtc.so*" target_dir
                else ret tt) then
          if use_tensorrt args then
            run+ copy_from w (tensorrt_home args) "lib/libnvinfer.so*" target_dir then
            run+ copy_from w (tensorrt_home args) "lib/libnvinfer_plugin.so*"
                           target_dir then
            copy_from w (tensorrt_home args) "lib/libmyelin.so*" target_dir
          else ret tt
        else ret tt) then
  run+ (if Str.contains "mklml" build_name then
          run+ act (Copy (join w [linux_build_dir;
                                  "mklml/src/project_mklml/lib/*.so*"]%string)
                         target_dir) then
          if use_nuphar args then
            run+ act (Copy (join w [linux_build_dir; "external"; "tvm";
                                    "libtvm.so*"]%string)
                           target_dir) then
            act (Copy (join w [onnxruntime_dir; "onnxruntime"; "core";
                               "providers"; "nuphar"; "scripts";
                               "symbolic_shape_infer.py"]%string)
                      target_dir)
          else ret tt
        else ret tt) then
  run+ (if Str.contains "ngraph" build_name then
          run+ act (Copy (join w [linux_build_dir; "external/ngraph/lib/lib*.so*"]%string)
                         target_dir) then
          act (Copy (join w [linux_build_dir; "external"; "tvm"; "libtvm.so*"]%string)
                    target_dir)
        else ret tt) then
  ret prebuilt.

(** [build_onnxruntime]; the result is [args.prebuilt] as the call leaves
    it. *)
Definition build_onnxruntime (w : World) (onnxruntime_dir config : string)
    (build_args : list string) (build_name : string) (args : Args)
  : B bool :=
  if skipped build_name args
  then ret (prebuilt args)
  else if is_windows w
  then build_windows w onnxruntime_dir config build_args build_name args
  else build_linux w onnxruntime_dir config build_args build_name args.

(** [args] after a call that left [args.prebuilt] as [p]. *)
Definition set_prebuilt (args : Args) (p : bool) : Args :=
  {| onnxruntime_home := onnxruntime_home args; config := config args;
     use_cuda := use_cuda args; cuda_version := cuda_version args;
     cuda_home := cuda_home args; cudnn_home := cudnn_home args;
     use_tensorrt := use_tensorrt args; tensorrt_home := tensorrt_home args;
     use_ngraph := use_ngraph args; use_mklml := use_mklml args;
     use_nuphar := use_nuphar args; llvm_path := llvm_path args;
     variants := variants args; prebuilt := p |}.

(** [["--flag", value]] when the option was given. *)
Definition flag (name : string) (value : option string) : list string :=
  match value with
  | Some v => if negb (Str.is_empty v) then [name; v] else []
  | None => []
  end.

(** The flags that lines 157-176 collect for the first build. *)
Definition first_build_args (args : Args) : list string :=
  let build_args :=
    if use_cuda args then
      ["--use_cuda"%string] ++ flag "--cuda_version" (cuda_version args)
      ++ flag "--cuda_home" (cuda_home args)
      ++ flag "--cudnn_home" (cudnn_home args)
    else [] in
  if use_tensorrt args then
    build_args ++ ["--use_tensorrt"; "--use_full_protobuf"]%string
    ++ flag "--tensorrt_home" (tensorrt_home args)
    ++ (if negb (use_cuda args) then
          flag "--cuda_version" (cuda_version args)
          ++ flag "--cuda_home" (cuda_home args)
          ++ flag "--cudnn_home" (cudnn_home args)
        else [])
  else build_args.

(** Lines 181-182. *)
Definition nuphar_args (args : Args) : list string :=
  let nuphar_args :=
    if use_nuphar args then ["--use_tvm"; "--use_llvm"; "--use_nuphar"]%string
    else [] in
  match llvm_path args with
  | Some p => if negb (Str.is_empty p) then nuphar_args ++ ["--llvm_path"%string; p]
              else nuphar_args
  | None => nuphar_args
  end.

(** The name under which a prebuilt tree is copied (lines 149-153). *)
Definition prebuilt_name (args : Args) : string :=
  let build_name := "all_eps"%string in
  let build_name :=
    if use_nuphar args || use_mklml args then "mklml"%string else build_name in
  if use_ngraph args then "ngraph"%string else build_name.

(** The script from line 147 on, given [args]. *)
Definition main (w : World) (args : Args) : B unit :=
  if prebuilt args then
    run+ build_onnxruntime w (onnxruntime_home args) (config args) []
           (prebuilt_name args) args then
    ret tt
  else
    let+ p := build_onnxruntime w (onnxruntime_home args) (config args)
                (first_build_args args) "mlas_eps" args in
    let args := set_prebuilt args p in
    let+ args :=
      if use_mklml args then
        let+ p := build_onnxruntime w (onnxruntime_home args) (config args)
                    (["--use_mklml"%string] ++ nuphar_args args) "mklml" args in
        ret (set_prebuilt args p)
      else if use_nuphar args then raise ValueError
      else ret args in
    let+ args :=
      if use_ngraph args then
        let+ p := build_onnxruntime w (onnxruntime_home args) (config args)
                    ["--use_openmp"; "--use_ngraph"]%string "ngraph" args in
        ret (set_prebuilt args p)
      else ret args in
    run+ build_onnxruntime w (onnxruntime_home args) (config args)
           ["--use_dnnl"; "--use_openmp"]%string "omp_eps" args then
    ret tt.

(** The commands of the processes run among the actions, and the
    directories made. *)
Definition runs (h : list action) : list (list string) :=
  List.flat_map (fun a => match a with Run cmd _ _ => [cmd] | _ => [] end) h.

Definition made (h : list action) : list string :=
  List.flat_map (fun a => match a with Makedirs d => [d] | _ => [] end) h.

(** A computation that runs no process and makes no directory. *)
Definition quiet {A} (m : B A) : Prop :=
  forall h a h', m h = Done a h' -> runs h' = runs h /\ made h' = made h.

(** The command line of a build with the flags [build_args]. *)
Definition command (w : World) (onnxruntime_dir config : string)
    (build_args : list string) : list string :=
  [join w [onnxruntime_dir; if is_windows w then "build.bat" else "build.sh"];
   "--config"; config; "--build_shared_lib"; "--parallel"]%string ++ build_args.

(** The executable that tells whether a built tree is there, and whether
    a call of [build_onnxruntime] after the actions [h] takes the tree as
    it is. *)
Definition perf_test_exe (w : World) (onnxruntime_dir config : string) : string :=
  if is_windows w
  then join w [join w [onnxruntime_dir; "build"; "Windows"; config; config];
               "onnxruntime_perf_test.exe"]%string
  else join w [join w [onnxruntime_dir; "build"; "Linux"; config];
               "onnxruntime_perf_test"]%string.

Definition takes_prebuilt (w : World) (onnxruntime_dir config : string)
    (args : Args) (h : list action) : bool :=
  prebuilt args && path_exists w h (perf_test_exe w onnxruntime_dir config).

(** The builds of a run from source: name and flags, in order. *)
Definition plan (args : Args) : list (string * list string) :=
  [("mlas_eps"%string, first_build_args args)]
  ++ (if use_mklml args
      then [("mklml"%string, "--use_mklml"%string :: nuphar_args args)] else [])
  ++ (if use_ngraph args
      then [("ngraph", ["--use_openmp"; "--use_ngraph"])]%string else [])
  ++ [("omp_eps", ["--use_dnnl"; "--use_openmp"])]%string.

(** Those of them that [args.variants] lets through. *)
Definition chosen (args : Args) : list (string * list string) :=
  List.filter (fun b => negb (skipped (fst b) args)) (plan args).

End Build.

(** ** Concrete worlds for the examples *)

Module Sample.

Definition digit (c : ascii) : option Z :=
  let n := Z.of_nat (nat_of_ascii c) in
  if (48 <=? n) && (n <=? 57) then Some (n - 48) else None.

(** The digits of [s] as a number, after the accumulator [acc]. *)
Fixpoint digits (s : string) (acc : Z) : option Z :=
  match s with
  | EmptyString => Some acc
  | String c r =>
      match digit c with
      | Some d => digits r (10 * acc + d)
      | None => None
      end
  end.

(** Decimal integers, as [int] reads them. *)
Definition parse_int (s : string) : option Z :=
  match s with
  | EmptyString => None
  | String "-"%char (String c r) => option_map Z.opp (digits (String c r) 0)
  | _ => digits s 0
  end.

(** The part of [s] before the first dot, and the part after it. *)
Fixpoint cut_dot (s : string) : string * option string :=
  match s with
  | EmptyString => (EmptyString, None)
  | String c r =>
      if Ascii.eqb c "."%char then (EmptyString, Some r)
      else let '(a, b) := cut_dot r in (String c a, b)
  end.

(** Unsigned decimal numbers such as [12], [0.25] or [3.], as [float]
    reads them. *)
Definition parse_float (s : string) : option Q :=
  match cut_dot s with
  | (EmptyString, _) => None
  | (a, None) => option_map inject_Z (digits a 0)
  | (a, Some b) =>
      match digits a 0, digits b 0 with
      | Some x, Some y =>
          Some (inject_Z x + inject_Z y / Num.pow10 (String.length b))%Q
      | _, _ => None
      end
  end.

(** The argument that follows [flag] on a command line. *)
Fixpoint after (flag : string) (l : list string) : option string :=
  match l with
  | f :: (v :: _) as rest => if String.eqb f flag then Some v else after flag rest
  | _ => None
  end.

(** The thread count a command line asks for: [OMP_NUM_THREADS] if it is
    set, else the value of [-y], else that of [-x]. *)
Definition threads (cmd : list string) (env : dict) : option string :=
  match Dict.get env "OMP_NUM_THREADS" with
  | Some n => Some n
  | None =>
      match after "-y" cmd with
      | Some n => Some n
      | None => after "-x" cmd
      end
  end.

(** A result file with [n] records of latency [lat]. *)
Definition records (n : nat) (lat : string) : list string :=
  repeat ("x," +:+ lat +:+ ",y,z,w")%string n.

(** A benchmark that succeeds with the latency a table gives for the
    requested thread count, writes [n] records, and fails for thread
    counts that are not in the table; [dflt] is the latency of a run with
    no thread count. *)
Definition benchmark (table : list (string * string)) (dflt : option string)
    (n : nat) (cmd : list string) (env : dict) : CompletedProcess :=
  match
    match threads cmd env with
    | Some t => Dict.get table t
    | None => dflt
    end
  with
  | Some lat => {| returncode := 0; result_file := Some (records n lat) |}
  | None => {| returncode := 1; result_file := None |}
  end.

Definition world (run : nat -> list string -> dict -> CompletedProcess)
    (gpus : nat) (envvars : string -> option (list (string * list string)))
  : World :=
  {| float := parse_float;
     int := parse_int;
     is_windows := false;
     environ := [("PATH", "/usr/bin")]%string;
     path_join := fun a b => (a +:+ "/" +:+ b)%string;
     uuid4 := fun k => ("run" +:+ Str.of_Z (Z.of_nat k))%string;
     subprocess_run := run;
     Monitor := fun _ _ => {| recorded_gpu := []; recorded_cpu := [];
                              recorded_memory := [] |};
     isdir := fun _ => true;
     getGPUs := gpus;
     ep_envvar_map := envvars |}.

End Sample.

(** * Vocabulary of the statements *)

(** ** The trial runner *)

Section RunnerSpec.

Context (w : World).

(** The command line of a trial started at time [k]. *)
Definition trial_command (p : PerfTestParams) (percentiles : bool) (k : nat)
  : res (list string) :=
  let file := path_join w (result (args p)) (uuid4 w k) in
  if percentiles then Ok (get_percentiles_args p file) else get_args p file.

(** The latencies that lines 162-169 read from a finished run. *)
Definition measured_latencies (cp : CompletedProcess) : res (list Q) :=
  match returncode cp =? 0, result_file cp with
  | true, Some lines => parse_latencies w lines
  | _, _ => Ok []
  end.

(** [st] differs from [st0] at most in the object [r], which kept the
    identity of [p]. *)
Definition touched (r : ref) (p : PerfTestParams) (st0 st : state) : Prop :=
  exists q, heap st = <[r := q]> (heap st0) /\ heap st !! r = Some q /\
            name q = name p /\ build_name q = build_name p.

End RunnerSpec.

(** ** The tuner *)

Section TunerSpec.

Context (w : World) (build_name build_path : string).
Context (test_params : PerfTestParams) (num_cores : Z)
        (name_suffix desc_suffix : string) (is_omp tune_inter_ops : bool).

(** The state in which the trial for [n] threads has been created. *)
Definition with_probe (n : Z) (st : state) : state :=
  {| heap := heap st
             ++ [make_probe w build_name build_path test_params name_suffix
                            desc_suffix is_omp tune_inter_ops n];
     clock := clock st |}.

(** The steps "create the trial, run it, read it back" that the baseline
    and every probe share. *)
Definition probe (n : Z) : M (ref * PerfTestParams) :=
  let* r := new (make_probe w build_name build_path test_params name_suffix
                            desc_suffix is_omp tune_inter_ops n) in
  do run_perf_tuning w r false then
  let* param := deref r in
  ret (r, param).

(** The loop-head states of the passes that [while_loop] makes: the
    states in which the loop body is entered. *)
Fixpoint loop_heads (fuel : nat) (s : search) (st : state)
  : list (search * state) :=
  if lower s <=? upper s then
    match fuel with
    | O => []
    | S fuel' =>
        (s, st) ::
        match loop_body w build_name build_path test_params num_cores
                        name_suffix desc_suffix is_omp tune_inter_ops s st with
        | Ok (Continue s', st') => loop_heads fuel' s' st'
        | _ => []
        end
    end
  else [].

(** A bound on the passes through the loop body that are still to come. *)
Definition remaining (s : search) : nat :=
  (Z.to_nat (upper s - lower s + 1)
   + if rerun s then 0 else Z.to_nat ((1 + num_cores) / 2 - 2))%nat.

End TunerSpec.

(** ** The script *)

(** Ascending order of the keys. *)
Definition ascending {A} (key : A -> Q) (l : list A) : Prop :=
  StronglySorted (fun a b => (key a <= key b)%Q) l.

(** The averages that count as no result: [None] and zero. *)
Definition no_latency (x : option Q) : Prop :=
  x = None \/ exists q, x = Some q /\ (q == 0)%Q.

(** The product of the numbers of candidate values. *)
Definition cardinality (options : list (list string)) : nat :=
  fold_right (fun o n => (length o * n)%nat) 1%nat options.

Section TunerLedger.

Context (w : World) (provider provider_path : string).
Context (template : PerfTestParams) (num_cores : Z)
        (name_suffix desc_suffix : string) (is_omp tune_inter_ops : bool).

(** The name of the trial for [n] threads (lines 219 and 255). *)
Definition probe_name (n : Z) : string :=
  (name template +:+ Str.of_Z n +:+ name_suffix)%string.

(** The passes a binary search makes at most through a window of [z]
    thread counts. *)
Definition span (z : Z) : nat :=
  if 0 <? z then S (Z.to_nat (Z.log2 z)) else 0%nat.

(** The trials a search makes at most: the baseline, the passes through
    the range above it, and those of the re-run on the first half. *)
Definition max_trials : nat :=
  (1 + span (initial_upper num_cores is_omp - 2)
   + span ((1 + num_cores) / 2 - 2))%nat.

(** What holds at every loop head of a search that was started in the
    state [st0] with the lists [failed] and [successful]: the trials
    created so far all succeeded and were appended to the successful ones
    in the order of their creation, the objects of [st0] are as they were,
    every trial took three interactions with the world, the window lies
    within the range, the trials made and the passes still possible stay
    within [max_trials], and the best latency is the least
    average of those trials, reached by the trial for [best_run]
    threads. *)
Definition ledger (failed successful : list ref) (st0 : state)
    (s : search) (st : state) : Prop :=
  exists passed,
    successful_tests s = successful ++ passed /\
    failed_tests s = failed /\
    passed = seq (length (heap st0)) (length passed) /\
    length (heap st) = (length (heap st0) + length passed)%nat /\
    take (length (heap st0)) (heap st) = heap st0 /\
    clock st = (clock st0 + 3 * length passed)%nat /\
    2 <= lower s /\ upper s <= initial_upper num_cores is_omp /\
    2 <= best_run s <= initial_upper num_cores is_omp /\
    (length passed + span (upper s - lower s + 1)
     + (if rerun s then 0 else span ((1 + num_cores) / 2 - 2))
     <= max_trials)%nat /\
    (forall r, r ∈ passed ->
       exists p a, heap st !! r = Some p /\ avg p = Some a /\
                   truthy (Some a) = true /\ (best_latency s <= a)%Q) /\
    (exists r p, r ∈ passed /\ heap st !! r = Some p /\
                 avg p = Some (best_latency s) /\
                 name p = probe_name (best_run s)).

(** What a search that started in [st] with the lists [failed] and
    [successful] and returned [best] with the lists [failed'] and
    [successful'] in the state [st'] has done. *)
Definition outcome (failed successful : list ref) (st : state) (best : Z)
    (failed' successful' : list ref) (st' : state) : Prop :=
  exists passed not_passed,
    successful' = successful ++ passed /\
    failed' = failed ++ not_passed /\
    passed ++ not_passed
      = seq (length (heap st)) (length passed + length not_passed) /\
    (length not_passed <= 1)%nat /\
    (length passed + length not_passed <= max_trials)%nat /\
    length (heap st')
      = (length (heap st) + (length passed + length not_passed))%nat /\
    take (length (heap st)) (heap st') = heap st /\
    clock st' = (clock st + 3 * (length passed + length not_passed))%nat /\
    (forall r, r ∈ not_passed ->
       exists p, heap st' !! r = Some p /\ truthy (avg p) = false) /\
    (forall r, r ∈ passed ->
       exists p, heap st' !! r = Some p /\ truthy (avg p) = true) /\
    (passed = [] -> best = -1) /\
    (passed <> [] ->
       2 <= best <= initial_upper num_cores is_omp /\
       exists r p a,
         r ∈ passed /\ heap st' !! r = Some p /\ avg p = Some a /\
         name p = probe_name best /\
         forall r', r' ∈ passed ->
           exists p' a', heap st' !! r' = Some p' /\ avg p' = Some a' /\
                         (a <= a')%Q).

End TunerLedger.

(** ** The trial runner, continued *)

(** The fields of a trial that say what is to be run. *)
Definition same_setup (p q : PerfTestParams) : Prop :=
  name q = name p /\ desc q = desc p /\ path q = path p /\ exe q = exe p /\
  env q = env p /\ test_args q = test_args p /\
  env_to_set q = env_to_set p /\ args q = args p /\
  build_name q = build_name p.

(** Lines 159-160: [command] is assigned when it is [None] or empty. *)
Definition with_command (p : PerfTestParams) (cmd : list string)
  : PerfTestParams :=
  if match command p with
     | None => true
     | Some c => Str.is_empty c
     end
  then set_command p (Some (Str.join " " cmd))
  else p.

(** The fields of a line of the result file, and whether the line is a
    record (line 166-168). *)
Definition fields (line : string) : list string :=
  Str.split_comma (Str.strip line).

Definition is_record (line : string) : bool := (length (fields line) =? 5)%nat.

(** [float(tokens[1])] *)
Definition latency_of (w : World) (line : string) : option Q :=
  match fields line !! 1%nat with
  | Some t => float w t
  | None => None
  end.

(** The world [w] with child processes that behave as [run]. *)
Definition with_subprocess_run (w : World)
    (run : nat -> list string -> dict -> CompletedProcess) : World :=
  {| float := float w; int := int w; is_windows := is_windows w;
     environ := environ w; path_join := path_join w; uuid4 := uuid4 w;
     subprocess_run := run; Monitor := Monitor w; isdir := isdir w;
     getGPUs := getGPUs w; ep_envvar_map := ep_envvar_map w |}.

(** ** The environment combinations *)

(** The Cartesian product of lists of candidate values, in lexicographic
    order: the last list varies fastest. *)
Fixpoint product (options : list (list string)) : list (list string) :=
  match options with
  | [] => [[]]
  | o :: rest => List.flat_map (fun x => List.map (cons x) (product rest)) o
  end.

(** The overrides that a combination of values stands for: the variables
    with a non-empty value, in the order of the names. *)
Definition overrides (env_names env_option : list string) : dict :=
  List.filter (fun kv => negb (Str.is_empty (snd kv)))
              (zip env_names env_option).

(** ** The script, continued *)

(** The providers that line 440-447 accept. *)
Definition supported (provider : string) : bool :=
  Str.contains "mklml" provider || Str.contains "nuphar" provider
  || mem provider allProviders.

(** The names that stand for a GPU provider in line 546. *)
Definition names_gpu (name : string) : bool :=
  Str.contains "cuda" name || Str.contains "tensorrt" name.

(** Every provider has at most [n] successes. *)
Definition bounded (n : Z) (d : by_ep) : Prop :=
  forall k v, (k, v) ∈ d -> Z.of_nat (length v) <= n.

(** ** The report, continued *)

(** The trials that [successful_by_ep] holds for a provider. *)
Definition kept (d : by_ep) (k : string) : list ref :=
  match by_ep_get d k with
  | Some l => l
  | None => []
  end.

(** The objects from [h] on belong to the provider [b]. *)
Definition stamped (b : string) (h : nat) (st : state) : Prop :=
  forall r p, (h <= r)%nat -> heap st !! r = Some p -> build_name p = b.

(** The trial [p] has a record among the successes of its provider, or
    among the failures, of a report. *)
Definition listed_as_success (out_json : report) (p : PerfTestParams) : Prop :=
  exists l record,
    (build_name p, Successes l) ∈ out_json /\ record ∈ l /\
    json_record p = Ok record.

Definition listed_as_failure (out_json : report) (p : PerfTestParams) : Prop :=
  exists l,
    ("failed"%string, Failures l) ∈ out_json /\
    {| json_failed_name := name p; json_failed_command := command p |} ∈ l.

(** The trial [p] ranks behind the successes of its provider in a report:
    these are [n] records, and each of them after the first, which is the
    one of the re-profiled trial, has an average that is not above that
    of [p].  For [n = 0] nothing is required of the report. *)
Definition outranked (n : Z) (out_json : report) (p : PerfTestParams) : Prop :=
  n = 0 \/
  exists l,
    (build_name p, Successes l) ∈ out_json /\ Z.of_nat (length l) = n /\
    forall i record, l !! S i = Some record ->
      exists a' a, json_avg record = Some a' /\ avg p = Some a /\
                   (a' <= a)%Q.

(** What holds between the steps of one round of the provider loop, for
    the provider [b], that started with the heap [heap0] of [h] objects
    and the failures [failed0]: the objects of [heap0] are as they were
    and the later ones belong to [b]; the trials in [successful] have a
    truthy average and are not in [tests]; no trial is twice in
    [successful] or in [tests]; and every later object is in [failed]
    with a falsy average, or in [successful], or in [tests]. *)
Definition provider_round (b : string) (h : nat) (heap0 : list PerfTestParams)
    (failed0 tests failed successful : list ref) (st : state) : Prop :=
  take h (heap st) = heap0 /\
  (h <= length (heap st))%nat /\
  stamped b h st /\
  (forall r, r ∈ failed0 -> r ∈ failed) /\
  (forall r, r ∈ successful ->
     (h <= r)%nat /\ (r ∉ tests) /\
     exists p, heap st !! r = Some p /\ truthy (avg p) = true) /\
  (forall r, r ∈ tests -> (h <= r < length (heap st))%nat) /\
  NoDup successful /\ NoDup tests /\
  (forall r p, (h <= r)%nat -> heap st !! r = Some p ->
     (r ∈ failed /\ truthy (avg p) = false) \/ r ∈ successful \/ r ∈ tests).

(** What holds of the variables of the script after the rounds for the
    providers [done], for every object from [h0] on: it belongs to one of
    these providers, and it is among the failures with a falsy average,
    or among the trials kept for its provider, or it has a truthy average
    while its provider keeps [n] trials, none of which has a greater
    average.  Every list of kept trials holds trials of its provider with
    a truthy average, none of them twice, and starts with a profile
    candidate; every profile candidate is the first of the trials kept
    for its provider. *)
Definition accounts (h0 : nat) (n : Z) (done : list string) (s : script)
    (st : state) : Prop :=
  (forall r p, (h0 <= r)%nat -> heap st !! r = Some p ->
     build_name p ∈ done /\
     ((r ∈ failed s /\ truthy (avg p) = false) \/
      r ∈ kept (successful_by_ep s) (build_name p) \/
      (truthy (avg p) = true /\
       (0 <= n ->
        Z.of_nat (length (kept (successful_by_ep s) (build_name p))) = n) /\
       (forall r' p',
          r' ∈ kept (successful_by_ep s) (build_name p) ->
          heap st !! r' = Some p' ->
          (key_of (r', p') <= key_of (r, p))%Q)))) /\
  (forall k l, by_ep_get (successful_by_ep s) k = Some l ->
     k ∈ done /\ NoDup l /\
     (forall r, r ∈ l ->
        exists p, heap st !! r = Some p /\ build_name p = k /\
                  truthy (avg p) = true) /\
     exists c l', l = c :: l' /\ c ∈ profile_candidates s) /\
  (forall c, c ∈ profile_candidates s ->
     exists p l', heap st !! c = Some p /\
                  by_ep_get (successful_by_ep s) (build_name p)
                  = Some (c :: l')).

(** The records that a report holds for a provider: those of the trials
    kept for it, read in the state [st]. *)
Definition recorded (successes : by_ep) (st : state) (k : string)
    (records : list success_record) : Prop :=
  exists tests ps,
    by_ep_get successes k = Some tests /\
    deref_all tests st = Ok (ps, st) /\
    json_records (List.map snd ps) = Ok records.

(** ** Example runs *)

Module RunnerExample.

Import Sample.

Definition sample_args : Args :=
  {| model := "model.onnx"; result := "out"; execution_provider := "cpu";
     test_mode := "times"; repeated_times := "20"; duration_time := None;
     optimization_level := "99"; parallel := false; top_n := "3";
     inter_op_num_threads := "4"; intra_op_num_threads := "6" |}.

(** Every run writes three records of 12.5 ms and a header line. *)
Definition steady (_ : nat) (_ : list string) (_ : dict) : CompletedProcess :=
  {| returncode := 0;
     result_file := Some ("name,latency,a,b,c,d" :: records 3 "0.0125")%string |}.

Definition sample_world : World := world steady 1 (fun _ => None).

Definition trial : PerfTestParams :=
  PerfTestParams_init sample_world "bin/all_eps" "cpu" "cpu " "bin/all_eps"
    ["-e"; "cpu"]%string [] sample_args "cpu".

Definition before : state := {| heap := [trial]; clock := 0 |}.

Definition after : state :=
  Eval vm_compute in
    match run_perf_tuning sample_world 0%nat false before with
    | Ok (_, st) => st
    | _ => before
    end.

(** The command line of that run. *)
Definition command : list string :=
  Eval vm_compute in
    match trial_command sample_world trial false 0 with
    | Ok cmd => cmd
    | _ => []
    end.
End RunnerExample.

Module HollowExample.

Import Sample.

(** A run of 200 repetitions exits with code 0 and writes a result file
    that holds a header line only; every other run is as in
    [RunnerExample]. *)
Definition hollow (k : nat) (cmd : list string) (e : dict) : CompletedProcess :=
  if mem "200" cmd
  then {| returncode := 0;
          result_file := Some ["name,latency,a,b,c,d"%string] |}
  else RunnerExample.steady k cmd e.

Definition sample_world : World := world hollow 1 (fun _ => None).

(** The state after the ranking run of the trial of [RunnerExample], and
    the command line of the percentile run that follows. *)
Definition ranked : state :=
  Eval vm_compute in
    match run_perf_tuning sample_world 0%nat false RunnerExample.before with
    | Ok (_, st) => st
    | _ => RunnerExample.before
    end.

Definition command : list string :=
  Eval vm_compute in
    match trial_command sample_world RunnerExample.trial true 3 with
    | Ok cmd => cmd
    | _ => []
    end.

End HollowExample.

Module SearchExample.

Import Sample.

Definition sample_args : Args :=
  {| model := "model.onnx"; result := "out"; execution_provider := "dnnl";
     test_mode := "times"; repeated_times := "20"; duration_time := None;
     optimization_level := "99"; parallel := false; top_n := "3";
     inter_op_num_threads := "6"; intra_op_num_threads := "6" |}.

(** Latencies in seconds by thread count: 3 threads are best, 4 are worse
    than 2. *)
Definition valley : list (string * string) :=
  [("2", "0.010"); ("3", "0.008"); ("4", "0.012")]%string.

(** Latencies in seconds by thread count: 3 threads are best, 4 are
    better than 2. *)
Definition dip : list (string * string) :=
  [("2", "0.010"); ("3", "0.005"); ("4", "0.007")]%string.

(** The baseline of 2 threads reports a latency of zero. *)
Definition frozen : list (string * string) := [("2", "0")]%string.

(** A benchmark that knows the latencies of [table], writes three records
    per run, and fails for every other thread count. *)
Definition world_of (table : list (string * string)) : World :=
  world (fun _ => benchmark table None 3) 1 (fun _ => None).

Definition template (w : World) : PerfTestParams :=
  PerfTestParams_init w "bin/all_eps" "dnnl_" "dnnl " "bin/all_eps"
    ["-e"; "dnnl"]%string [] sample_args "dnnl".

(** The search over [OMP_NUM_THREADS] of the provider [dnnl] in the world
    [w], for [n] cores. *)
Definition tuner (w : World) (n : Z) : M (Z * list ref * list ref) :=
  run_perf_tuning_binary w "dnnl" "bin/all_eps" (template w) n
    "_OMP_threads" " OMP_NUM_THREADS, " true false [] [].

(** The state in which the trial for [k] threads of that search has been
    created. *)
Definition created (w : World) (k : Z) (st : state) : state :=
  with_probe w "dnnl" "bin/all_eps" (template w)
    "_OMP_threads" " OMP_NUM_THREADS, " true false k st.

(** The state after the baseline trial of that search. *)
Definition baseline (w : World) : state :=
  match run_perf_tuning w 0%nat false (created w 2 initial_state) with
  | Ok (_, st) => st
  | _ => initial_state
  end.

(** The object [r] of a state, and its average. *)
Definition object (w : World) (st : state) (r : ref) : PerfTestParams :=
  match heap st !! r with
  | Some p => p
  | None => template w
  end.

Definition latency (p : PerfTestParams) : Q :=
  match avg p with
  | Some a => a
  | None => 0
  end.

(** The loop state after a baseline with average [a]. *)
Definition start (n : Z) (a : Q) : search :=
  after_baseline n true [] [] 0%nat a.

Definition body (w : World) (n : Z) : search -> M step :=
  loop_body w "dnnl" "bin/all_eps" (template w) n
    "_OMP_threads" " OMP_NUM_THREADS, " true false.

Definition loop (w : World) (n : Z) : search -> M search :=
  while_loop w "dnnl" "bin/all_eps" (template w) n
    "_OMP_threads" " OMP_NUM_THREADS, " true false (Z.to_nat (2 * n)).

Definition heads (w : World) (n : Z) : search -> state -> list (search * state) :=
  loop_heads w "dnnl" "bin/all_eps" (template w) n
    "_OMP_threads" " OMP_NUM_THREADS, " true false (Z.to_nat (2 * n)).

(** The search through [valley] with 6 cores: the state and the average
    after the baseline, the state after the first probe with the trial of
    that probe, and the end of the loop. *)
Definition valley_baseline : state :=
  Eval vm_compute in baseline (world_of valley).

Definition valley_latency : Q :=
  Eval vm_compute in latency (object (world_of valley) valley_baseline 0).

Definition valley_first : state :=
  Eval vm_compute in
    match body (world_of valley) 6 (start 6 valley_latency) valley_baseline with
    | Ok (_, st) => st
    | _ => valley_baseline
    end.

Definition valley_probe : PerfTestParams :=
  Eval vm_compute in object (world_of valley) valley_first 1.

Definition valley_end : search * state :=
  Eval vm_compute in
    match loop (world_of valley) 6 (start 6 valley_latency) valley_baseline with
    | Ok x => x
    | _ => (start 6 valley_latency, valley_baseline)
    end.

(** The search through [dip] with 4 cores after the baseline. *)
Definition dip_baseline : state :=
  Eval vm_compute in baseline (world_of dip).

Definition dip_latency : Q :=
  Eval vm_compute in latency (object (world_of dip) dip_baseline 0).

(** The baselines of the searches through [frozen] and through the empty
    table, where every run fails. *)
Definition frozen_baseline : state :=
  Eval vm_compute in baseline (world_of frozen).

Definition frozen_trial : PerfTestParams :=
  Eval vm_compute in object (world_of frozen) frozen_baseline 0.

Definition failed_baseline : state :=
  Eval vm_compute in baseline (world_of []).

Definition failed_trial : PerfTestParams :=
  Eval vm_compute in object (world_of []) failed_baseline 0.

End SearchExample.

Module RankExample.

Import Sample.

Definition sample_args : Args :=
  {| model := "model.onnx"; result := "out"; execution_provider := "cpu";
     test_mode := "times"; repeated_times := "20"; duration_time := None;
     optimization_level := "99"; parallel := false; top_n := "1";
     inter_op_num_threads := "1"; intra_op_num_threads := "3" |}.

(** Two threads take 10 ms and the default setting takes 20 ms; any
    other thread count fails. *)
Definition sample_world : World :=
  world (fun _ => benchmark [("2", "0.010")]%string (Some "0.020"%string) 3)
        1 (fun _ => None).

Definition trial (flags : list string) : PerfTestParams :=
  PerfTestParams_init sample_world "bin/all_eps" "cpu" "cpu " "bin/all_eps"
    flags [] sample_args "cpu".

(** Three candidates, for 2 threads, 3 threads and the default setting,
    are created and run. *)
Definition prepare : M (list ref) :=
  let* r0 := new (trial ["-x"; "2"]%string) in
  let* r1 := new (trial ["-x"; "3"]%string) in
  let* r2 := new (trial []) in
  do for_each [r0; r1; r2]
       (fun test _ => run_perf_tuning sample_world test false) tt then
  ret [r0; r1; r2].

Definition prepared : state :=
  Eval vm_compute in
    match prepare initial_state with
    | Ok (_, st) => st
    | _ => initial_state
    end.

Definition empty_script : script :=
  {| successful_by_ep := []; profile_candidates := []; failed := [] |}.

Definition ranked : script :=
  Eval vm_compute in
    match rank sample_world sample_args "cpu" [0; 1; 2]%nat [] empty_script
               prepared with
    | Ok (s, _) => s
    | _ => empty_script
    end.

(** All names in a report. *)
Definition report_names (out_json : report) : list string :=
  List.flat_map
    (fun kv => match snd kv with
               | Successes l => List.map json_name l
               | Failures l => List.map json_failed_name l
               end)
    out_json.

End RankExample.

Module ReportExample.

Import Sample.

Definition sample_args (providers : string) : Args :=
  {| model := "model.onnx"; result := "out"; execution_provider := providers;
     test_mode := "times"; repeated_times := "20"; duration_time := None;
     optimization_level := "99"; parallel := false; top_n := "3";
     inter_op_num_threads := "1"; intra_op_num_threads := "1" |}.

(** Every run succeeds with three records of 10 ms, except the run of 200
    repetitions for the provider [cpu], which exits with code 1. *)
Definition flaky (_ : nat) (cmd : list string) (_ : dict) : CompletedProcess :=
  if mem "200" cmd && mem "cpu" cmd
  then {| returncode := 1; result_file := None |}
  else {| returncode := 0; result_file := Some (records 3 "0.01") |}.

Definition sample_world : World := world flaky 1 (fun _ => None).

(** A world whose table of environment variables is empty for every
    provider. *)
Definition bare_world : World :=
  world (fun _ => benchmark [] (Some "0.020"%string) 3) 1 (fun _ => Some []).

(** Ten records of 12.3456789 ms. *)
Definition fine_world : World :=
  world (fun _ _ _ => {| returncode := 0;
                         result_file := Some (records 10 "0.0123456789") |})
        1 (fun _ => None).

Definition measured : PerfTestParams :=
  Eval vm_compute in
  let t := PerfTestParams_init fine_world "bin/all_eps" "cpu" "cpu "
             "bin/all_eps" ["-e"; "cpu"]%string [] (sample_args "cpu") "cpu" in
  match run_perf_tuning fine_world 0%nat false {| heap := [t]; clock := 0 |} with
  | Ok (_, st) => match heap st !! 0%nat with Some p => p | None => t end
  | _ => t
  end.

(** The run for the provider [cpu] requested twice, in the world of
    [RunnerExample]. *)
Definition twice : report * state :=
  Eval vm_compute in
    match main RunnerExample.sample_world "bin" (sample_args "cpu,cpu")
               initial_state with
    | Ok x => x
    | _ => ([], initial_state)
    end.

End ReportExample.

Module TunerExample.

(** The state in which the search through [SearchExample.valley] over 2..6
    OpenMP threads ends, when it starts in the initial state: it returns 3
    after the trials for 2, 4 and 3 threads. *)
Definition valley_final : state :=
  Eval vm_compute in
    match SearchExample.tuner (SearchExample.world_of SearchExample.valley) 6
                              initial_state with
    | Ok (_, st) => st
    | _ => initial_state
    end.

End TunerExample.

Module RunnerExtraExample.

Import Sample.

(** A trial of the provider [cpu] in a world whose benchmark writes [n]
    records of 20 ms, before its first run. *)
Definition quiet_world (n : nat) : World :=
  world (fun _ => benchmark [] (Some "0.020"%string) n) 1 (fun _ => None).

Definition trial (w : World) (a : Args) : PerfTestParams :=
  PerfTestParams_init w "bin/all_eps" "cpu" "cpu " "bin/all_eps"
    ["-e"; "cpu"]%string [] a "cpu".

Definition fresh (w : World) (a : Args) : state :=
  {| heap := [trial w a]; clock := 0 |}.

(** The arguments of a run in duration mode that were read from the
    command line. *)
Definition duration_args : Args :=
  {| model := "model.onnx"; result := "out"; execution_provider := "cpu";
     test_mode := "duration"; repeated_times := "20"; duration_time := None;
     optimization_level := "99"; parallel := false; top_n := "3";
     inter_op_num_threads := "4"; intra_op_num_threads := "6" |}.

(** The states after a ranking run and after the re-profiling run that
    follows it, with three records per run. *)
Definition ranked : state :=
  Eval vm_compute in
    match run_perf_tuning (quiet_world 3) 0%nat false
            (fresh (quiet_world 3) RunnerExample.sample_args) with
    | Ok (_, st) => st
    | _ => initial_state
    end.

Definition profiled : state :=
  Eval vm_compute in
    match run_perf_tuning (quiet_world 3) 0%nat true ranked with
    | Ok (_, st) => st
    | _ => initial_state
    end.

(** Child processes whose warm-up execution at time 1 fails, and that
    behave as those of [quiet_world 3] otherwise. *)
Definition cold (k : nat) (cmd : list string) (e : dict) : CompletedProcess :=
  if (k =? 1)%nat then {| returncode := 1; result_file := None |}
  else subprocess_run (quiet_world 3) k cmd e.

(** The command line of the ranking run. *)
Definition ranking_command : list string :=
  Eval vm_compute in
    match trial_command (quiet_world 3)
            (trial (quiet_world 3) RunnerExample.sample_args) false 0 with
    | Ok cmd => cmd
    | _ => []
    end.

(** A world whose benchmark always fails. *)
Definition broken_world : World :=
  world (fun _ _ _ => {| returncode := 1; result_file := None |}) 1
        (fun _ => None).

End RunnerExtraExample.

Module PercentileExample.

(** The state after the ranking run of a trial whose benchmark writes
    twenty records of 20 ms. *)
Definition start : state :=
  {| heap := [PerfTestParams_init (Sample.world (fun _ => Sample.benchmark [] (Some "0.020"%string) 20) 1 (fun _ => None))
                "bin/all_eps" "cpu" "cpu " "bin/all_eps" ["-e"; "cpu"]%string []
                RunnerExample.sample_args "cpu"];
     clock := 0 |}.

Definition measured : state :=
  Eval vm_compute in
    match run_perf_tuning
            (Sample.world (fun _ => Sample.benchmark [] (Some "0.020"%string) 20)
                          1 (fun _ => None))
            0%nat false start with
    | Ok (_, st) => st
    | _ => initial_state
    end.

Definition trial : PerfTestParams :=
  Eval vm_compute in
    match heap measured !! 0%nat with
    | Some p => p
    | None => RunnerExample.trial
    end.

Definition record : success_record :=
  Eval vm_compute in
    match json_record trial with
    | Ok r => r
    | _ => {| json_name := EmptyString; json_command := None; json_avg := None;
              json_p90 := None; json_p95 := None; json_cpu_usage := 0;
              json_gpu_usage := 0; json_memory_util := 0 |}
    end.

End PercentileExample.

Module EnvExample.

(** A world in which the tool itself was started with [OMP_NUM_THREADS]
    set. *)
Definition omp_world : World :=
  {| float := Sample.parse_float;
     int := Sample.parse_int;
     is_windows := false;
     environ := [("OMP_NUM_THREADS", "8"); ("PATH", "/usr/bin")]%string;
     path_join := fun a b => (a +:+ "/" +:+ b)%string;
     uuid4 := fun k => ("run" +:+ Str.of_Z (Z.of_nat k))%string;
     subprocess_run := fun _ => Sample.benchmark [] None 3;
     Monitor := fun _ _ => {| recorded_gpu := []; recorded_cpu := [];
                              recorded_memory := [] |};
     isdir := fun _ => true;
     getGPUs := 1;
     ep_envvar_map := fun _ => None |}.

(** A table of two variables with two values each. *)
Definition table : list (string * list string) :=
  [("KMP_AFFINITY", ["compact"; "scatter"]); ("OMP_WAIT_POLICY", ["ACTIVE"; ""])]%string.

End EnvExample.

Module ScriptExample.

(** The ranking of [RankExample.prepared] when the three best trials are
    kept: the trial for 2 threads and the default one succeeded. *)
Definition wide_args : Args :=
  {| model := "model.onnx"; result := "out"; execution_provider := "cpu";
     test_mode := "times"; repeated_times := "20"; duration_time := None;
     optimization_level := "99"; parallel := false; top_n := "3";
     inter_op_num_threads := "1"; intra_op_num_threads := "3" |}.

Definition ranked : script :=
  Eval vm_compute in
    match rank RankExample.sample_world wide_args "cpu" [0; 1; 2]%nat []
               RankExample.empty_script RankExample.prepared with
    | Ok (s, _) => s
    | _ => RankExample.empty_script
    end.

(** A machine without a GPU on which every benchmark fails. *)
Definition failing_world : World :=
  Sample.world (fun _ _ _ => {| returncode := 1; result_file := None |}) 0
               (fun _ => None).

(** The report and the final state of the script for the providers [cpu]
    and [cuda] on that machine. *)
Definition failing_run : report * state :=
  Eval vm_compute in
    match main failing_world "bin" (ReportExample.sample_args "cpu,cuda")
               initial_state with
    | Ok x => x
    | _ => ([], initial_state)
    end.

(** A machine without any build directory. *)
Definition empty_world : World :=
  {| float := Sample.parse_float;
     int := Sample.parse_int;
     is_windows := false;
     environ := [("PATH", "/usr/bin")]%string;
     path_join := fun a b => (a +:+ "/" +:+ b)%string;
     uuid4 := fun k => ("run" +:+ Str.of_Z (Z.of_nat k))%string;
     subprocess_run := fun _ => Sample.benchmark [] None 3;
     Monitor := fun _ _ => {| recorded_gpu := []; recorded_cpu := [];
                              recorded_memory := [] |};
     isdir := fun _ => false;
     getGPUs := 1;
     ep_envvar_map := fun _ => None |}.

End ScriptExample.

Module TopExample.

(** The report and the final state of the script of [RankExample], which
    keeps one trial per provider. *)
Definition outcome : report * state :=
  Eval vm_compute in
    match main RankExample.sample_world "bin" RankExample.sample_args
               initial_state with
    | Ok x => x
    | _ => ([], initial_state)
    end.

End TopExample.

Module JsonExample.

(** A run specification that asks for the sequential executor. *)
Definition sequential : list (string * json) :=
  [("model", JString "model.onnx"); ("result", JString "out");
   ("parallel", JBool false); ("top_n", JNumber 0)]%string.

End JsonExample.

Module BuildExample.

Import Build.

(** Paths are joined with a slash; every run of a process succeeds. *)
Definition world (windows : bool) (found : string -> bool) : World :=
  {| is_windows := windows;
     environ := [];
     pathsep := ":";
     join := String.concat "/";
     path_exists := fun _ => found;
     exits_zero := fun _ _ => true |}.

Definition sample_args (from_prebuilt : bool) : Args :=
  {| onnxruntime_home := "ort"; config := "Release";
     use_cuda := true; cuda_version := None; cuda_home := Some "/cuda"%string;
     cudnn_home := Some "/cudnn"%string;
     use_tensorrt := false; tensorrt_home := None;
     use_ngraph := false; use_mklml := false; use_nuphar := false;
     llvm_path := None; variants := None; prebuilt := from_prebuilt |}.

(** As [sample_args false], with Nuphar asked for. *)
Definition nuphar_args : Args :=
  {| onnxruntime_home := "ort"; config := "Release";
     use_cuda := true; cuda_version := None; cuda_home := Some "/cuda"%string;
     cudnn_home := Some "/cudnn"%string;
     use_tensorrt := false; tensorrt_home := None;
     use_ngraph := false; use_mklml := false; use_nuphar := true;
     llvm_path := None; variants := None; prebuilt := false |}.

Definition everything (_ : string) : bool := true.
Definition nothing (_ : string) : bool := false.

Definition first_build : list action :=
  Eval vm_compute in
    match build_onnxruntime (world false nothing) "ort" "Release"
            (first_build_args nuphar_args) "mlas_eps" nuphar_args [] with
    | Done _ h => h
    | Raised _ h => h
    end.

Definition from_prebuilt : list action :=
  Eval vm_compute in
    match main (world false everything) (sample_args true) [] with
    | Done _ h => h
    | Raised _ h => h
    end.

Definition from_source : list action :=
  Eval vm_compute in
    match main (world false nothing) (sample_args false) [] with
    | Done _ h => h
    | Raised _ h => h
    end.

End BuildExample.

(** * Properties *)

(** ** The monad *)

Lemma bind_Ok {A B} (m : M A) (k : A -> M B) st b st' :
  bind m k st = Ok (b, st') ->
  exists a st1, m st = Ok (a, st1) /\ k a st1 = Ok (b, st').
Proof.
  unfold bind. destruct (m st) as [[a st1]| |]; try discriminate.
  intros H. exists a, st1. split; [reflexivity | exact H].
Qed.

Lemma lift_Ok {A} (r : res A) st a st' :
  lift r st = Ok (a, st') -> r = Ok a /\ st' = st.
Proof.
  unfold lift. destruct r; try discriminate.
  intros H. injection H as -> ->. split; reflexivity.
Qed.

Lemma ret_Ok {A} (x : A) st a st' :
  ret x st = Ok (a, st') -> a = x /\ st' = st.
Proof. unfold ret. intros H. injection H as -> ->. split; reflexivity. Qed.

Lemma deref_Ok r st p st' :
  deref r st = Ok (p, st') -> heap st !! r = Some p /\ st' = st.
Proof.
  unfold deref. destruct (heap st !! r) eqn:E; try discriminate.
  intros H. injection H as -> ->. split; reflexivity.
Qed.

Lemma modify_Ok r f st u st' :
  modify r f st = Ok (u, st') ->
  exists p, heap st !! r = Some p /\
            heap st' = <[r := f p]> (heap st) /\ clock st' = clock st.
Proof.
  unfold modify. destruct (heap st !! r) as [p|] eqn:E; try discriminate.
  intros H. injection H as _ <-. exists p. repeat split.
Qed.

Lemma tick_Ok st k st' :
  tick st = Ok (k, st') ->
  k = clock st /\ heap st' = heap st /\ clock st' = S (clock st).
Proof. unfold tick. intros H. injection H as <- <-. repeat split. Qed.

Lemma new_Ok p st r st' :
  new p st = Ok (r, st') ->
  r = length (heap st) /\ heap st' = heap st ++ [p] /\ clock st' = clock st.
Proof. unfold new. intros H. injection H as <- <-. repeat split. Qed.

(** Inversion of a monadic computation that returned normally. *)
Ltac invert_M H :=
  repeat match type of H with
  | bind _ _ _ = Ok _ =>
      let a := fresh "a" in let s := fresh "st" in
      let H1 := fresh "Hstep" in
      apply bind_Ok in H; destruct H as (a & s & H1 & H)
  end.

(** ** Numbers *)

Section NumFacts.

Open Scope Q_scope.

Lemma round_half_even_comp x y : x == y -> Num.round_half_even x = Num.round_half_even y.
Proof.
  intros E. unfold Num.round_half_even.
  rewrite (Qfloor_comp _ _ E).
  assert (C : (x - inject_Z (Qfloor y) ?= 1 # 2) = (y - inject_Z (Qfloor y) ?= 1 # 2)).
  { apply Qcompare_comp; [rewrite E|]; reflexivity. }
  rewrite C. reflexivity.
Qed.

Lemma round_comp x y n : x == y -> Num.round x n = Num.round y n.
Proof. intros E. unfold Num.round. rewrite (round_half_even_comp _ _ (Qmult_comp _ _ E _ _ (Qeq_refl _))). reflexivity. Qed.

(** Rounding seconds to nine places and converting to milliseconds is
    converting first and rounding to six places. *)
Lemma round_milliseconds x : Num.round x 9 * 1000 == Num.round (x * 1000) 6.
Proof.
  unfold Num.round.
  change (Num.pow10 9) with (1000000000 # 1).
  change (Num.pow10 6) with (1000000 # 1).
  assert (E : x * (1000000000 # 1) == x * 1000 * (1000000 # 1)) by ring.
  rewrite (round_half_even_comp _ _ E). field.
Qed.

Lemma sum_from l a : fold_left Qplus l a == a + Num.sum l.
Proof.
  unfold Num.sum. revert a. induction l as [|x l IH]; intros a; simpl.
  - ring.
  - rewrite IH, (IH (0 + x)). ring.
Qed.

Lemma sum_cons x l : Num.sum (x :: l) == x + Num.sum l.
Proof. unfold Num.sum at 1. simpl. rewrite sum_from. ring. Qed.

Lemma length_insert_by {A} (key : A -> Q) x l :
  length (Num.insert_by key x l) = S (length l).
Proof.
  induction l as [|y l IH]; simpl; [reflexivity|].
  destruct (Num.ltb (key y) (key x)); simpl; [rewrite IH|]; reflexivity.
Qed.

Lemma length_sort_by {A} (key : A -> Q) l :
  length (Num.sort_by key l) = length l.
Proof.
  induction l as [|x l IH]; simpl; [reflexivity|].
  unfold Num.sort_by in *. simpl. rewrite length_insert_by, IH. reflexivity.
Qed.

Lemma insert_by_Permutation {A} (key : A -> Q) x l :
  Num.insert_by key x l ≡ₚ x :: l.
Proof.
  induction l as [|y l IH]; simpl; [reflexivity|].
  destruct (Num.ltb (key y) (key x)); [|reflexivity].
  rewrite IH. apply Permutation_swap.
Qed.

Lemma sort_by_Permutation {A} (key : A -> Q) l : Num.sort_by key l ≡ₚ l.
Proof.
  induction l as [|x l IH]; [reflexivity|].
  unfold Num.sort_by in *. simpl. rewrite insert_by_Permutation, IH. reflexivity.
Qed.

Lemma sum_insert x l : Num.sum (Num.insert_by (fun x => x) x l) == x + Num.sum l.
Proof.
  induction l as [|y l IH]; simpl; [apply sum_cons|].
  destruct (Num.ltb y x); [|apply sum_cons].
  rewrite !sum_cons, IH. ring.
Qed.

Lemma sum_sort l : Num.sum (Num.sort_by (fun x => x) l) == Num.sum l.
Proof.
  induction l as [|x l IH]; [reflexivity|].
  unfold Num.sort_by in *. simpl. rewrite sum_insert, IH, sum_cons. reflexivity.
Qed.

(** The average of the sorted latencies is that of the parsed ones. *)
Lemma average_sort l : average (Num.sort_by (fun x => x) l) = average l.
Proof.
  unfold average. rewrite length_sort_by.
  destruct (0 <? length l)%nat; [|reflexivity].
  f_equal. f_equal. apply round_comp.
  unfold Num.len. rewrite length_sort_by, sum_sort. reflexivity.
Qed.

Lemma average_None l : average l = None <-> l = [].
Proof.
  unfold average. destruct l; simpl; split; intros; congruence.
Qed.

Lemma truthy_zero q : q == 0 -> truthy (Some q) = false.
Proof.
  intros E. simpl. unfold Num.is_zero.
  apply Qeq_bool_iff in E. rewrite E. reflexivity.
Qed.

Lemma ltb_lt x y : Num.ltb x y = true <-> x < y.
Proof.
  unfold Num.ltb. rewrite negb_true_iff.
  split.
  - intros H. apply Qnot_le_lt. intros L. apply Qle_bool_iff in L. congruence.
  - intros H. destruct (Qle_bool y x) eqn:E; [|reflexivity].
    apply Qle_bool_iff in E. exfalso. exact (Qlt_not_le _ _ H E).
Qed.

Lemma ltb_ge x y : Num.ltb x y = false <-> y <= x.
Proof.
  unfold Num.ltb. rewrite negb_false_iff. apply Qle_bool_iff.
Qed.

End NumFacts.

(** ** The trial runner *)

Section RunnerFacts.

Context (w : World).

Lemma touched_refl r p st0 st :
  heap st0 !! r = Some p -> heap st = heap st0 -> touched r p st0 st.
Proof.
  intros Hp Hh. exists p. rewrite Hh.
  rewrite list_insert_id by exact Hp. repeat split; assumption.
Qed.

Lemma touched_modify r p st0 st f u st' :
  touched r p st0 st ->
  (forall q, name (f q) = name q /\ build_name (f q) = build_name q) ->
  modify r f st = Ok (u, st') ->
  touched r p st0 st' /\ clock st' = clock st /\
  exists q, heap st !! r = Some q /\ heap st' !! r = Some (f q).
Proof.
  intros (q & Hh & Hq & Hn & Hb) Hf H.
  apply modify_Ok in H as (q' & Hq' & Hh' & Hc).
  rewrite Hq in Hq'. injection Hq' as <-.
  assert (Hlt : (r < length (heap st))%nat) by (eapply lookup_lt_Some; eauto).
  split; [|split; [exact Hc|]].
  - exists (f q). rewrite Hh'.
    split; [rewrite Hh; apply list_insert_insert_eq|].
    split; [apply list_lookup_insert_eq; exact Hlt|].
    destruct (Hf q) as [-> ->]. split; assumption.
  - exists q. split; [exact Hq|]. rewrite Hh'.
    apply list_lookup_insert_eq. exact Hlt.
Qed.

Lemma profile_Ok r p st0 f l st u st' :
  touched r p st0 st ->
  profile w r f l st = Ok (u, st') ->
  touched r p st0 st' /\ (clock st <= clock st')%nat.
Proof.
  unfold profile. intros T H. invert_M H.
  apply deref_Ok in Hstep as [Hp ->].
  apply tick_Ok in Hstep0 as (-> & Hh & Hc).
  destruct l as [|hint l]; [discriminate|].
  invert_M H.
  apply tick_Ok in Hstep as (-> & Hh1 & Hc1).
  apply lift_Ok in Hstep0 as [_ ->].
  apply tick_Ok in Hstep1 as (-> & Hh2 & Hc2).
  assert (T' : touched r p st0 st4).
  { destruct T as (q & ? & ? & ? & ?). exists q.
    rewrite Hh2, Hh1, Hh. repeat split; assumption. }
  eapply touched_modify in H as (T2 & Hc3 & _); [|exact T'|intros q; split; reflexivity].
  split; [exact T2|]. lia.
Qed.

Lemma run_perf_tuning_Ok r percentiles st u st' :
  run_perf_tuning w r percentiles st = Ok (u, st') ->
  exists p cmd l p',
    heap st !! r = Some p /\
    trial_command w p percentiles (clock st) = Ok cmd /\
    measured_latencies w (subprocess_run w (2 + clock st) cmd (env p)) = Ok l /\
    heap st' = <[r := p']> (heap st) /\
    heap st' !! r = Some p' /\
    latencies p' = Num.sort_by (fun x => x) l /\
    avg p' = average (Num.sort_by (fun x => x) l) /\
    name p' = name p /\ build_name p' = build_name p /\
    (percentiles = false -> clock st' = (3 + clock st)%nat) /\
    (clock st <= clock st')%nat.
Proof.
  unfold run_perf_tuning. intros H. invert_M H.
  apply deref_Ok in Hstep as [Hp ->].
  apply tick_Ok in Hstep0 as (-> & Hh & Hc).
  apply lift_Ok in Hstep1 as [Hcmd ->].
  apply tick_Ok in Hstep2 as (-> & Hh1 & Hc1).
  assert (T3 : touched r a st st3).
  { apply touched_refl; [exact Hp | congruence]. }
  assert (T4 : touched r a st st4 /\ clock st4 = clock st3).
  { destruct (match command a with Some c => Str.is_empty c | None => true end).
    - eapply touched_modify in Hstep3 as (T & Hc' & _);
        [split; eassumption | exact T3 | intros q; split; reflexivity].
    - apply ret_Ok in Hstep3 as [_ ->]. split; [exact T3 | reflexivity]. }
  destruct T4 as [T4 Hc4].
  apply tick_Ok in Hstep4 as (-> & Hh5 & Hc5).
  assert (T5 : touched r a st st5).
  { destruct T4 as (q & ? & ? & ? & ?). exists q. rewrite Hh5.
    repeat split; assumption. }
  assert (E : clock st4 = (2 + clock st)%nat) by lia.
  rewrite E in Hstep5.
  set (cp := subprocess_run w (2 + clock st) a1 (env a)) in *.
  assert (L : measured_latencies w cp = Ok a5 /\ touched r a st st6 /\
              (percentiles = false -> clock st6 = clock st5) /\
              (clock st5 <= clock st6)%nat).
  { unfold measured_latencies.
    destruct (returncode cp =? 0);
      [destruct (result_file cp) as [lines|]|].
    - invert_M Hstep5. apply lift_Ok in Hstep as [Hl ->].
      apply ret_Ok in Hstep5 as [-> ->].
      split; [exact Hl|].
      destruct percentiles.
      + eapply profile_Ok in Hstep0 as [T Hle]; [|exact T5].
        split; [exact T|]. split; [discriminate | exact Hle].
      + apply ret_Ok in Hstep0 as [_ ->].
        split; [exact T5|]. split; [reflexivity | lia].
    - apply ret_Ok in Hstep5 as [-> ->].
      split; [reflexivity|]. split; [exact T5|]. split; [reflexivity | lia].
    - apply ret_Ok in Hstep5 as [-> ->].
      split; [reflexivity|]. split; [exact T5|]. split; [reflexivity | lia]. }
  destruct L as (Hl & T6 & Hc6 & Hle6).
  eapply touched_modify in H as (T7 & Hc7 & q & Hq & Hq');
    [|exact T6|intros q; split; reflexivity].
  destruct T7 as (q' & Hh7 & Hq7 & Hn7 & Hb7).
  rewrite Hq7 in Hq'. injection Hq' as ->.
  exists a, a1, a5, (set_result q (Num.sort_by (fun x => x) a5)
                        (average (Num.sort_by (fun x => x) a5))).
  split; [exact Hp|]. split; [exact Hcmd|]. split; [exact Hl|].
  split; [exact Hh7|]. split; [exact Hq7|].
  split; [reflexivity|]. split; [reflexivity|].
  split; [exact Hn7|]. split; [exact Hb7|].
  split; [intros ->; specialize (Hc6 eq_refl); lia | lia].
Qed.

(** A ranking run returns when its command line can be built and the
    result file of the measured run can be read. *)
Lemma run_perf_tuning_returns r st p cmd l :
  heap st !! r = Some p ->
  trial_command w p false (clock st) = Ok cmd ->
  measured_latencies w (subprocess_run w (2 + clock st) cmd (env p)) = Ok l ->
  exists st', run_perf_tuning w r false st = Ok (tt, st').
Proof.
  intros Hp Hcmd Hl.
  assert (Hr : (r < length (heap st))%nat) by (eapply lookup_lt_Some; exact Hp).
  unfold run_perf_tuning, trial_command in *.
  unfold bind at 1. unfold deref. rewrite Hp.
  unfold bind at 1. unfold tick at 1. cbn [clock heap].
  unfold bind at 1. unfold lift at 1. rewrite Hcmd.
  unfold bind at 1. unfold tick at 1. cbn [clock heap].
  set (h1 := if match command p with Some c => Str.is_empty c | None => true end
             then <[r := set_command p (Some (Str.join " " cmd))]> (heap st)
             else heap st).
  assert (Hh1 : (r < length h1)%nat).
  { unfold h1. destruct (match command p with Some c => _ | None => _ end);
      [rewrite length_insert|]; exact Hr. }
  unfold bind at 1.
  replace ((if match command p with Some c => Str.is_empty c | None => true end
            then modify r (fun p0 => set_command p0 (Some (Str.join " " cmd)))
            else ret ()) {| heap := heap st; clock := S (S (clock st)) |})
    with (Ok (tt, {| heap := h1; clock := S (S (clock st)) |})).
  2:{ unfold h1. destruct (match command p with Some c => _ | None => _ end);
        [unfold modify; cbn [heap clock]; rewrite Hp|]; reflexivity. }
  unfold bind at 1. unfold tick at 1. cbn [clock heap].
  unfold measured_latencies in Hl. change (2 + clock st)%nat with (S (S (clock st))) in Hl.
  destruct (lookup_lt_is_Some_2 _ _ Hh1) as [q Hq].
  unfold bind at 1.
  destruct (returncode _ =? 0);
    [destruct (result_file _) as [lines|]|].
  - unfold bind at 1. unfold lift at 1. rewrite Hl.
    unfold bind, ret, modify. cbn [heap clock]. rewrite Hq. eauto.
  - unfold ret, modify. cbn [heap clock]. rewrite Hq. eauto.
  - unfold ret, modify. cbn [heap clock]. rewrite Hq. eauto.
Qed.

(** A re-profiling run whose measured execution succeeds without a single
    latency record does not return: [latencies[0]] raises [IndexError]
    before [avg] is assigned. *)
Lemma run_perf_tuning_without_sample_raises r st p cmd lines :
  heap st !! r = Some p ->
  trial_command w p true (clock st) = Ok cmd ->
  returncode (subprocess_run w (2 + clock st) cmd (env p)) = 0 ->
  result_file (subprocess_run w (2 + clock st) cmd (env p)) = Some lines ->
  parse_latencies w lines = Ok [] ->
  run_perf_tuning w r true st = Raise IndexError.
Proof.
  intros Hp Hcmd Hrc Hfile Hl.
  unfold trial_command in Hcmd. injection Hcmd as <-.
  unfold run_perf_tuning.
  unfold bind at 1. unfold deref. rewrite Hp.
  unfold bind at 1. unfold tick at 1. cbn [clock heap].
  unfold bind at 1. unfold lift at 1. cbv iota.
  set (cmd := get_percentiles_args p _) in *.
  unfold bind at 1. unfold tick at 1. cbn [clock heap].
  set (h1 := if match command p with Some c => Str.is_empty c | None => true end
             then <[r := set_command p (Some (Str.join " " cmd))]> (heap st)
             else heap st).
  assert (Hh1 : (r < length h1)%nat).
  { unfold h1. destruct (match command p with Some c => _ | None => _ end);
      [rewrite length_insert|]; eapply lookup_lt_Some; exact Hp. }
  unfold bind at 1.
  replace ((if match command p with Some c => Str.is_empty c | None => true end
            then modify r (fun p0 => set_command p0 (Some (Str.join " " cmd)))
            else ret ()) {| heap := heap st; clock := S (S (clock st)) |})
    with (Ok (tt, {| heap := h1; clock := S (S (clock st)) |})).
  2:{ unfold h1. destruct (match command p with Some c => _ | None => _ end);
        [unfold modify; cbn [heap clock]; rewrite Hp|]; reflexivity. }
  unfold bind at 1. unfold tick at 1. cbn [clock heap].
  change (2 + clock st)%nat with (S (S (clock st))) in Hrc, Hfile.
  destruct (lookup_lt_is_Some_2 _ _ Hh1) as [q Hq].
  unfold bind at 1. rewrite Hrc, Hfile. cbn [Z.eqb].
  unfold bind at 1. unfold lift at 1. rewrite Hl.
  unfold bind at 1. unfold profile.
  unfold bind at 1. unfold deref. cbn [heap clock]. rewrite Hq.
  reflexivity.
Qed.

End RunnerFacts.

Section RunnerClaims.

Context (w : World).

(** C4.  For a trial whose command line can be built: when
    [run_perf_tuning] returns, the trial has [avg = None] exactly when the
    measured (second) execution exited with a non-zero code, or left no
    result file, or its result file yielded no latency, and otherwise
    [avg] is the mean of the parsed latencies rounded to nine places and
    multiplied by 1000.  A ranking run returns whenever the result file
    can be parsed.  A percentile run whose measured execution exits with
    code 0 and leaves a result file without a latency does not return: it
    raises [IndexError]. *)
Theorem run_perf_tuning_avg r percentiles st p cmd :
  heap st !! r = Some p ->
  trial_command w p percentiles (clock st) = Ok cmd ->
  let measured := subprocess_run w (2 + clock st) cmd (env p) in
  (forall st',
     run_perf_tuning w r percentiles st = Ok (tt, st') ->
     exists p',
       heap st' !! r = Some p' /\
       (avg p' = None <->
          returncode measured <> 0 \/ result_file measured = None \/
          exists lines, result_file measured = Some lines /\
                        parse_latencies w lines = Ok []) /\
       (forall a, avg p' = Some a ->
          exists lines l,
            returncode measured = 0 /\
            result_file measured = Some lines /\
            parse_latencies w lines = Ok l /\
            a = (Num.round (Num.sum l / Num.len l) 9 * 1000)%Q)) /\
  (percentiles = false ->
   forall l, measured_latencies w measured = Ok l ->
             exists st', run_perf_tuning w r percentiles st = Ok (tt, st')) /\
  (percentiles = true ->
   forall lines,
     returncode measured = 0 ->
     result_file measured = Some lines ->
     parse_latencies w lines = Ok [] ->
     run_perf_tuning w r percentiles st = Raise IndexError).
Proof.
  intros Hp Hcmd. cbv zeta.
  set (measured := subprocess_run w (2 + clock st) cmd (env p)).
  split; [|split].
  - intros st' H.
    apply run_perf_tuning_Ok in H
      as (p0 & cmd0 & l & p' & Hp0 & Hcmd0 & Hl & _ & Hp' & _ & Havg & _).
    rewrite Hp in Hp0. injection Hp0 as <-.
    rewrite Hcmd in Hcmd0. injection Hcmd0 as <-.
    exists p'. split; [exact Hp'|]. fold measured in Hl.
    rewrite Havg, average_sort. unfold measured_latencies in Hl.
    destruct (returncode measured =? 0) eqn:Hrc.
    + apply Z.eqb_eq in Hrc. destruct (result_file measured) as [lines|].
      * split.
        -- rewrite average_None. split.
           ++ intros ->. right. right. exists lines.
              split; [reflexivity | exact Hl].
           ++ intros [Hne | [Hno | (lines' & E & Hl')]];
                [congruence | discriminate |].
              injection E as <-. congruence.
        -- intros a Ha. exists lines, l.
           split; [exact Hrc|]. split; [reflexivity|]. split; [exact Hl|].
           unfold average in Ha. destruct (0 <? length l)%nat; [|discriminate].
           injection Ha as <-. reflexivity.
      * injection Hl as <-. split.
        -- split; [intros _; right; left; reflexivity | reflexivity].
        -- discriminate.
    + apply Z.eqb_neq in Hrc. injection Hl as <-. split.
      * split; [intros _; left; exact Hrc | reflexivity].
      * discriminate.
  - intros -> l Hl.
    exact (run_perf_tuning_returns w r st p cmd l Hp Hcmd Hl).
  - intros -> lines Hrc Hfile Hl.
    exact (run_perf_tuning_without_sample_raises w r st p cmd lines
             Hp Hcmd Hrc Hfile Hl).
Qed.

End RunnerClaims.

(** ** Progress: the model does not get stuck *)

Section Progress.

Context (w : World).

Lemma bind_not_stuck {A B} (m : M A) (k : A -> M B) st :
  m st <> Stuck ->
  (forall a st1, m st = Ok (a, st1) -> k a st1 <> Stuck) ->
  bind m k st <> Stuck.
Proof.
  unfold bind. intros Hm Hk. destruct (m st) as [[a st1]| |].
  - apply Hk. reflexivity.
  - discriminate.
  - contradiction.
Qed.

Lemma lift_not_stuck {A} (r : res A) st : r <> Stuck -> lift r st <> Stuck.
Proof. unfold lift. destruct r; [discriminate | discriminate | contradiction]. Qed.

Lemma deref_not_stuck r st :
  (r < length (heap st))%nat -> deref r st <> Stuck.
Proof.
  intros Hr. unfold deref. destruct (lookup_lt_is_Some_2 _ _ Hr) as [p ->].
  discriminate.
Qed.

Lemma modify_not_stuck r f st :
  (r < length (heap st))%nat -> modify r f st <> Stuck.
Proof.
  intros Hr. unfold modify. destruct (lookup_lt_is_Some_2 _ _ Hr) as [p ->].
  discriminate.
Qed.

Lemma get_common_args_not_stuck p : get_common_args p <> Stuck.
Proof.
  unfold get_common_args.
  destruct (String.eqb _ _); [discriminate|].
  destruct (duration_time (args p)); discriminate.
Qed.

Lemma parse_latencies_not_stuck lines : parse_latencies w lines <> Stuck.
Proof.
  induction lines as [|line rest IH]; simpl; [discriminate|].
  destruct (length _ =? 5)%nat; [|exact IH].
  destruct (_ !! 1%nat); [|discriminate].
  destruct (float w s); [|discriminate].
  destruct (parse_latencies w rest); [discriminate | discriminate | contradiction].
Qed.

Lemma profile_not_stuck r f l st :
  (r < length (heap st))%nat -> profile w r f l st <> Stuck.
Proof.
  intros Hr. unfold profile.
  apply bind_not_stuck; [apply deref_not_stuck; exact Hr|].
  intros p st1 H1. apply deref_Ok in H1 as [_ ->].
  apply bind_not_stuck; [discriminate|].
  intros k st2 H2. apply tick_Ok in H2 as (_ & Hh2 & _).
  destruct l as [|hint l]; [discriminate|].
  apply bind_not_stuck; [discriminate|].
  intros k3 st3 H3. apply tick_Ok in H3 as (_ & Hh3 & _).
  apply bind_not_stuck.
  { apply lift_not_stuck. unfold get_profile_args.
    pose proof (get_common_args_not_stuck p) as N.
    destruct (get_common_args p); [discriminate | discriminate | contradiction]. }
  intros cmd st4 H4. apply lift_Ok in H4 as [_ ->].
  apply bind_not_stuck; [discriminate|].
  intros k5 st5 H5. apply tick_Ok in H5 as (_ & Hh5 & _).
  apply modify_not_stuck. congruence.
Qed.

Lemma run_perf_tuning_not_stuck r percentiles st :
  (r < length (heap st))%nat -> run_perf_tuning w r percentiles st <> Stuck.
Proof.
  intros Hr. unfold run_perf_tuning.
  apply bind_not_stuck; [apply deref_not_stuck; exact Hr|].
  intros p st1 H1. apply deref_Ok in H1 as [Hp ->].
  apply bind_not_stuck; [discriminate|].
  intros k st2 H2. apply tick_Ok in H2 as (_ & Hh2 & _).
  apply bind_not_stuck.
  { apply lift_not_stuck. destruct percentiles; [discriminate|].
    unfold get_args. pose proof (get_common_args_not_stuck p) as N.
    destruct (get_common_args p); [discriminate | discriminate | contradiction]. }
  intros cmd st3 H3. apply lift_Ok in H3 as [_ ->].
  apply bind_not_stuck; [discriminate|].
  intros k4 st4 H4. apply tick_Ok in H4 as (_ & Hh4 & _).
  assert (T4 : touched r p st st4).
  { apply touched_refl; [exact Hp | congruence]. }
  apply bind_not_stuck.
  { destruct (match command p with Some c => Str.is_empty c | None => true end);
      [apply modify_not_stuck; congruence | discriminate]. }
  intros u st5 H5.
  assert (T5 : touched r p st st5).
  { destruct (match command p with Some c => Str.is_empty c | None => true end).
    - eapply touched_modify in H5 as (T & _); [exact T | exact T4 |].
      intros q; split; reflexivity.
    - apply ret_Ok in H5 as [_ ->]. exact T4. }
  apply bind_not_stuck; [discriminate|].
  intros k6 st6 H6. apply tick_Ok in H6 as (-> & Hh6 & _).
  assert (T6 : touched r p st st6).
  { destruct T5 as (q & ? & ? & ? & ?). exists q. rewrite Hh6. auto. }
  assert (V : forall st', touched r p st st' -> (r < length (heap st'))%nat).
  { intros st' (q & _ & Hq & _). eapply lookup_lt_Some. exact Hq. }
  apply bind_not_stuck.
  - destruct (returncode _ =? 0); [|discriminate].
    destruct (result_file _) as [lines|]; [|discriminate].
    apply bind_not_stuck.
    { apply lift_not_stuck, parse_latencies_not_stuck. }
    intros l st7 H7. apply lift_Ok in H7 as [_ ->].
    apply bind_not_stuck; [|discriminate].
    destruct percentiles; [|discriminate].
    apply profile_not_stuck. apply V. exact T6.
  - intros l st7 H7. apply modify_not_stuck. apply V.
    destruct (returncode _ =? 0); [|apply ret_Ok in H7 as [_ ->]; exact T6].
    destruct (result_file _) as [lines|]; [|apply ret_Ok in H7 as [_ ->]; exact T6].
    invert_M H7. apply lift_Ok in Hstep as [_ ->].
    apply ret_Ok in H7 as [_ ->].
    destruct percentiles.
    + eapply profile_Ok in Hstep0 as [T _]; [exact T | exact T6].
    + apply ret_Ok in Hstep0 as [_ ->]. exact T6.
Qed.

End Progress.

(** ** The tuner *)

Ltac unfold_tuner := unfold run_perf_tuning_binary, loop_body.
Ltac unfold_probe := unfold probe.
Ltac unfold_with_probe := unfold with_probe.
Ltac unfold_remaining := unfold remaining.
Ltac unfold_remaining_in H := unfold remaining in H.

Section TunerFacts.

Context (w : World) (build_name build_path : string).
Context (test_params : PerfTestParams) (num_cores : Z)
        (name_suffix desc_suffix : string) (is_omp tune_inter_ops : bool).

Local Abbreviation make_probe :=
  (make_probe w build_name build_path test_params name_suffix desc_suffix
              is_omp tune_inter_ops).
Local Abbreviation with_probe :=
  (with_probe w build_name build_path test_params name_suffix desc_suffix
              is_omp tune_inter_ops).
Local Abbreviation probe :=
  (probe w build_name build_path test_params name_suffix desc_suffix
         is_omp tune_inter_ops).
Local Abbreviation loop_body :=
  (loop_body w build_name build_path test_params num_cores name_suffix
             desc_suffix is_omp tune_inter_ops).
Local Abbreviation while_loop :=
  (while_loop w build_name build_path test_params num_cores name_suffix
              desc_suffix is_omp tune_inter_ops).
Local Abbreviation run_perf_tuning_binary :=
  (run_perf_tuning_binary w build_name build_path test_params num_cores
                          name_suffix desc_suffix is_omp tune_inter_ops).
Local Abbreviation remaining := (remaining num_cores).

Lemma probe_Ok n st r param st1 :
  probe n st = Ok ((r, param), st1) <->
  r = length (heap st) /\
  run_perf_tuning w r false (with_probe n st) = Ok (tt, st1) /\
  heap st1 !! r = Some param.
Proof.
  unfold_probe. split.
  - intros H. invert_M H.
    unfold new in Hstep. injection Hstep as <- <-.
    apply deref_Ok in Hstep1 as [Hp ->].
    apply ret_Ok in H as [E ->]. injection E as -> ->.
    destruct a0. auto.
  - intros (-> & H & Hp). unfold bind, new, deref, ret.
    fold (with_probe n st). rewrite H. cbn. rewrite Hp. reflexivity.
Qed.

Lemma loop_body_eq s st :
  loop_body s st =
  if midpoint s =? 2 then Ok (Break s, st)
  else
    match probe (midpoint s) st with
    | Ok ((r, param), st1) =>
        match avg param with
        | Some a =>
            if truthy (Some a)
            then Ok (Continue (rerun_check num_cores (narrow s (midpoint s) r a)), st1)
            else Ok (Break (probe_failed s r), st1)
        | None => Ok (Break (probe_failed s r), st1)
        end
    | Raise e => Raise e
    | Stuck => Stuck
    end.
Proof.
  unfold_tuner. unfold_probe.
  destruct (midpoint s =? 2); [reflexivity|].
  unfold bind, new, deref, ret.
  destruct (run_perf_tuning w _ false _) as [[[] st2]| |]; try reflexivity.
  destruct (heap st2 !! _) as [p|]; [|reflexivity].
  destruct (avg p) as [a|]; [|reflexivity].
  destruct (truthy (Some a)); reflexivity.
Qed.

Lemma run_perf_tuning_binary_eq failed successful st :
  run_perf_tuning_binary failed successful st =
  if initial_upper num_cores is_omp <? 2 then Ok ((-1, failed, successful), st)
  else
    match probe 2 st with
    | Ok ((r, param), st1) =>
        if truthy (avg param) then
          match avg param with
          | Some a =>
              match while_loop (Z.to_nat (2 * num_cores))
                               (after_baseline num_cores is_omp failed successful r a) st1 with
              | Ok (s, st2) =>
                  Ok ((best_run s, failed_tests s, successful_tests s), st2)
              | Raise e => Raise e
              | Stuck => Stuck
              end
          | None => Ok ((-1, failed ++ [r], successful), st1)
          end
        else Ok ((-1, failed ++ [r], successful), st1)
    | Raise e => Raise e
    | Stuck => Stuck
    end.
Proof.
  unfold_tuner. unfold_probe.
  destruct (initial_upper num_cores is_omp <? 2); [reflexivity|].
  unfold bind, new, deref, ret.
  destruct (run_perf_tuning w _ false _) as [[[] st2]| |]; try reflexivity.
  destruct (heap st2 !! _) as [p|]; [|reflexivity].
  destruct (avg p) as [a|]; [|reflexivity].
  destruct (truthy (Some a)); [|reflexivity].
  match goal with |- context [match ?l with Ok _ => _ | Raise _ => _ | Stuck => _ end] =>
    destruct l as [[s st3]| |] end; reflexivity.
Qed.

(** C1 (amended).  A pass through the loop body whose floor-midpoint is 2
    leaves the loop without a probe.  Every other pass creates and runs
    the trial for the floor-midpoint [mid]; when that trial has a non-zero
    average [a], it joins the successful trials and, before the re-run
    check of lines 284-288, [upper] becomes [mid - 1] if [a] is strictly
    worse than the best latency, and otherwise [lower] becomes [mid + 1]
    with [a] and [mid] as the new best latency and thread count. *)
Theorem loop_body_probes_midpoint s st :
  let mid := midpoint s in
  let r := length (heap st) in
  (mid = 2 -> loop_body s st = Ok (Break s, st)) /\
  (mid <> 2 -> forall st1 p a,
     run_perf_tuning w r false (with_probe mid st) = Ok (tt, st1) ->
     heap st1 !! r = Some p -> avg p = Some a -> ~ (a == 0)%Q ->
     exists s1,
       loop_body s st = Ok (Continue (rerun_check num_cores s1), st1) /\
       successful_tests s1 = successful_tests s ++ [r] /\
       failed_tests s1 = failed_tests s /\
       rerun s1 = rerun s /\
       ((best_latency s < a)%Q ->
          upper s1 = mid - 1 /\ lower s1 = lower s /\
          best_latency s1 = best_latency s /\ best_run s1 = best_run s) /\
       ((a <= best_latency s)%Q ->
          lower s1 = mid + 1 /\ upper s1 = upper s /\
          best_latency s1 = a /\ best_run s1 = mid)).
Proof.
  cbv zeta. split.
  - intros E. rewrite loop_body_eq, E. reflexivity.
  - intros Hmid st1 p a Hrun Hp Ha Hnz.
    assert (Hprobe : probe (midpoint s) st = Ok ((length (heap st), p), st1)).
    { apply probe_Ok. auto. }
    assert (Ht : truthy (Some a) = true).
    { simpl. unfold Num.is_zero. destruct (Qeq_bool a 0) eqn:E; [|reflexivity].
      apply Qeq_bool_iff in E. contradiction. }
    exists (narrow s (midpoint s) (length (heap st)) a).
    split.
    { rewrite loop_body_eq, Hprobe, Ha, Ht.
      destruct (midpoint s =? 2) eqn:E; [|reflexivity].
      apply Z.eqb_eq in E. contradiction. }
    unfold narrow.
    destruct (Num.ltb (best_latency s) a) eqn:L; simpl;
      (split; [reflexivity|]); (split; [reflexivity|]); (split; [reflexivity|]).
    + split; [auto|]. intros Hle. apply ltb_lt in L.
      exfalso. exact (Qlt_not_le _ _ L Hle).
    + split; [|auto]. intros Hlt. apply ltb_ge in L.
      exfalso. exact (Qlt_not_le _ _ Hlt L).
Qed.

(** C8.  With a non-empty range, a baseline trial without a truthy
    average makes the search return -1; that trial is the one object
    created and the one trial run (the clock advances by its three
    interactions), it is appended to the failed trials, and the successful
    trials stay as they were. *)
Theorem baseline_failure failed successful st st1 p :
  2 <= initial_upper num_cores is_omp ->
  run_perf_tuning w (length (heap st)) false (with_probe 2 st) = Ok (tt, st1) ->
  heap st1 !! length (heap st) = Some p ->
  truthy (avg p) = false ->
  run_perf_tuning_binary failed successful st
    = Ok ((-1, failed ++ [length (heap st)], successful), st1) /\
  length (heap st1) = S (length (heap st)) /\
  clock st1 = (3 + clock st)%nat.
Proof.
  intros Hrange Hrun Hp Hf.
  assert (Hprobe : probe 2 st = Ok ((length (heap st), p), st1)).
  { apply probe_Ok. auto. }
  split.
  - rewrite run_perf_tuning_binary_eq, Hprobe, Hf.
    destruct (initial_upper num_cores is_omp <? 2) eqn:E; [|reflexivity].
    apply Z.ltb_lt in E. lia.
  - apply run_perf_tuning_Ok in Hrun
      as (p0 & cmd & l & p' & _ & _ & _ & Hh & _ & _ & _ & _ & _ & Hc & _).
    split.
    + rewrite Hh, length_insert. unfold_with_probe. simpl.
      rewrite length_app. simpl. lia.
    + rewrite (Hc eq_refl). reflexivity.
Qed.

(** An invariant of the search state holds when the loop is left. *)
Lemma while_loop_invariant (P : search -> Prop) :
  (forall s mid r a, P s -> P (rerun_check num_cores (narrow s mid r a))) ->
  (forall s r, P s -> P (probe_failed s r)) ->
  forall fuel s st s' st',
    P s -> while_loop fuel s st = Ok (s', st') -> P s'.
Proof.
  intros Hnarrow Hfail. induction fuel as [|fuel IH]; intros s st s' st' Hs H;
    simpl in H; destruct (lower s <=? upper s).
  - discriminate.
  - apply ret_Ok in H as [-> _]. exact Hs.
  - apply bind_Ok in H as (x & st1 & Hbody & H).
    rewrite loop_body_eq in Hbody.
    destruct (midpoint s =? 2).
    { injection Hbody as <- <-. apply ret_Ok in H as [-> _]. exact Hs. }
    destruct (probe (midpoint s) st) as [[[r p] st2]| |]; try discriminate.
    destruct (avg p) as [a|].
    + destruct (truthy (Some a)); injection Hbody as <- <-.
      * eapply IH; [|exact H]. apply Hnarrow. exact Hs.
      * apply ret_Ok in H as [-> _]. apply Hfail. exact Hs.
    + injection Hbody as <- <-. apply ret_Ok in H as [-> _]. apply Hfail. exact Hs.
  - apply ret_Ok in H as [-> _]. exact Hs.
Qed.

(** [(1 + num_cores) // 2] is the floor-midpoint of the probed range
    [2 .. upper] when one core is reserved, and for an odd [num_cores]
    when none is. *)
Lemma requested_midpoint :
  2 <= initial_upper num_cores is_omp ->
  is_omp = false \/ Z.odd num_cores = true ->
  (1 + num_cores) / 2 = 2 + (initial_upper num_cores is_omp - 2) / 2.
Proof.
  unfold initial_upper. intros Hr [-> | Hodd].
  - replace (1 + num_cores) with (num_cores - 1 - 2 + 2 * 2) by lia.
    rewrite Z.div_add by lia. lia.
  - destruct is_omp.
    + rewrite (Zodd_div2 num_cores) at 1 2 by (apply Zodd_bool_iff; exact Hodd).
      rewrite Z.div2_div.
      replace (1 + (2 * (num_cores / 2) + 1)) with ((num_cores / 2 + 1) * 2) by lia.
      rewrite Z.div_mul by lia.
      replace (2 * (num_cores / 2) + 1 - 2) with (1 + (num_cores / 2 - 1) * 2) by lia.
      rewrite Z.div_add by lia. change (1 / 2) with 0. lia.
    + replace (1 + num_cores) with (num_cores - 1 - 2 + 2 * 2) by lia.
      rewrite Z.div_add by lia. lia.
Qed.

(** C2 (amended).  At the end of a pass through the loop body in which the
    probe succeeded, the search restarts when [lower] exceeds [upper],
    [best_run] equals [(1 + num_cores) // 2] and no restart happened
    before: then [lower] becomes 2, [upper] becomes
    [(1 + num_cores) // 2 - 1] and the restart is recorded; in every other
    case nothing changes.  In a whole search the restart is taken at most
    once.  [(1 + num_cores) // 2] is the floor-midpoint of the probed
    range when one core is reserved, and for an odd [num_cores] when none
    is. *)
Theorem rerun_at_most_once :
  (forall s,
     upper s < lower s -> best_run s = (1 + num_cores) / 2 -> rerun s = false ->
     let s' := rerun_check num_cores s in
     lower s' = 2 /\ upper s' = (1 + num_cores) / 2 - 1 /\ rerun s' = true /\
     restarts s' = S (restarts s) /\
     best_run s' = best_run s /\ best_latency s' = best_latency s) /\
  (forall s,
     ~ (upper s < lower s /\ best_run s = (1 + num_cores) / 2 /\ rerun s = false) ->
     rerun_check num_cores s = s) /\
  (forall fuel failed successful r a st s st',
     while_loop fuel (after_baseline num_cores is_omp failed successful r a) st
       = Ok (s, st') ->
     (restarts s <= 1)%nat /\ (restarts s = 1%nat <-> rerun s = true)) /\
  (2 <= initial_upper num_cores is_omp ->
   is_omp = false \/ Z.odd num_cores = true ->
   (1 + num_cores) / 2 = 2 + (initial_upper num_cores is_omp - 2) / 2).
Proof.
  split; [|split; [|split; [|apply requested_midpoint]]].
  - intros s Hc Hb Hr. unfold rerun_check.
    apply Z.ltb_lt in Hc. apply Z.eqb_eq in Hb.
    rewrite Hc, Hb, Hr. simpl. repeat split.
  - intros s Hn. unfold rerun_check.
    destruct (upper s <? lower s) eqn:Hc; [|reflexivity].
    destruct (best_run s =? (1 + num_cores) / 2) eqn:Hb; [|reflexivity].
    destruct (rerun s) eqn:Hr; [reflexivity|].
    exfalso. apply Hn. apply Z.ltb_lt in Hc. apply Z.eqb_eq in Hb. auto.
  - intros fuel failed successful r a st s st' H.
    assert (I : restarts s = if rerun s then 1%nat else 0%nat).
    { refine (while_loop_invariant
                (fun s => restarts s = if rerun s then 1%nat else 0%nat)
                _ _ _ _ _ _ _ _ H); [| |reflexivity].
      - intros s0 mid r0 a0 I0. unfold rerun_check, narrow.
        destruct (Num.ltb (best_latency s0) a0); simpl;
          match goal with |- context [if ?c then _ else _] => destruct c eqn:C end;
          simpl; try exact I0;
          apply andb_prop in C as [_ C]; apply negb_true_iff in C;
          rewrite C in I0; rewrite I0; reflexivity.
      - intros s0 r0 I0. exact I0. }
    rewrite I. destruct (rerun s); split; try lia; split; congruence.
Qed.

(** *** Termination of the search *)

Lemma midpoint_in_window s :
  lower s <= upper s -> lower s <= midpoint s <= upper s.
Proof.
  intros H. unfold midpoint.
  assert (0 <= (upper s - lower s) / 2) by (apply Z.div_pos; lia).
  assert ((upper s - lower s) / 2 <= upper s - lower s)
    by (apply Z.div_le_upper_bound; lia).
  lia.
Qed.

Lemma remaining_rerun_check s : (remaining (rerun_check num_cores s) <= remaining s)%nat.
Proof.
  unfold rerun_check.
  destruct (upper s <? lower s) eqn:Hc; [|simpl; lia].
  destruct (best_run s =? (1 + num_cores) / 2); [|simpl; lia].
  destruct (rerun s) eqn:Hr; [simpl; lia|].
  apply Z.ltb_lt in Hc. unfold_remaining. simpl. rewrite Hr. lia.
Qed.

Lemma remaining_narrow s r a :
  lower s <= upper s ->
  (remaining (narrow s (midpoint s) r a) < remaining s)%nat.
Proof.
  intros H. pose proof (midpoint_in_window s H) as M.
  unfold narrow. unfold_remaining.
  destruct (Num.ltb (best_latency s) a); simpl; lia.
Qed.

Lemma probe_not_stuck n st : probe n st <> Stuck.
Proof.
  unfold_probe.
  apply bind_not_stuck; [discriminate|].
  intros r st1 H1. apply new_Ok in H1 as (-> & Hh & _).
  apply bind_not_stuck.
  { apply run_perf_tuning_not_stuck. rewrite Hh, length_app. simpl. lia. }
  intros u st2 H2.
  apply run_perf_tuning_Ok in H2 as (_ & _ & _ & p' & _ & _ & _ & _ & Hp' & _).
  apply bind_not_stuck; [|discriminate].
  apply deref_not_stuck. eapply lookup_lt_Some. exact Hp'.
Qed.

Lemma while_loop_not_stuck fuel s st :
  (remaining s <= fuel)%nat -> while_loop fuel s st <> Stuck.
Proof.
  revert s st. induction fuel as [|fuel IH]; intros s st Hfuel; simpl;
    destruct (lower s <=? upper s) eqn:Hw; try discriminate.
  - apply Z.leb_le in Hw. unfold_remaining_in Hfuel. lia.
  - apply Z.leb_le in Hw.
    apply bind_not_stuck.
    + rewrite loop_body_eq. destruct (midpoint s =? 2); [discriminate|].
      pose proof (probe_not_stuck (midpoint s) st) as N.
      destruct (probe (midpoint s) st) as [[[r p] st1]| |];
        [|discriminate|contradiction].
      destruct (avg p) as [a|]; [destruct (truthy (Some a))|]; discriminate.
    + intros x st1 Hbody. rewrite loop_body_eq in Hbody.
      destruct (midpoint s =? 2).
      { injection Hbody as <- <-. discriminate. }
      destruct (probe (midpoint s) st) as [[[r p] st2]| |]; try discriminate.
      destruct (avg p) as [a|]; [destruct (truthy (Some a))|];
        injection Hbody as <- <-; try discriminate.
      apply IH.
      pose proof (remaining_rerun_check (narrow s (midpoint s) r a)).
      pose proof (remaining_narrow s r a Hw). lia.
Qed.

(** The search always ends: with a return value or with an exception of
    the trial runner. *)
Lemma run_perf_tuning_binary_not_stuck failed successful st :
  run_perf_tuning_binary failed successful st <> Stuck.
Proof.
  rewrite run_perf_tuning_binary_eq.
  destruct (initial_upper num_cores is_omp <? 2) eqn:Hr; [discriminate|].
  apply Z.ltb_ge in Hr.
  pose proof (probe_not_stuck 2 st) as N.
  destruct (probe 2 st) as [[[r p] st1]| |]; [|discriminate|contradiction].
  destruct (truthy (avg p)); [|discriminate].
  destruct (avg p) as [a|]; [|discriminate].
  match goal with |- context [while_loop ?f ?s ?st] =>
    pose proof (while_loop_not_stuck f s st) as W;
    destruct (while_loop f s st) as [[s' st']| |] end;
    [discriminate | discriminate |].
  exfalso. apply W; [|reflexivity].
  unfold_remaining. unfold after_baseline. simpl.
  assert (initial_upper num_cores is_omp <= num_cores)
    by (unfold initial_upper; destruct is_omp; lia).
  assert ((1 + num_cores) / 2 <= num_cores)
    by (apply Z.div_le_upper_bound; lia).
  lia.
Qed.

End TunerFacts.

(** ** The script *)

Lemma deref_all_Ok l st ps st' :
  deref_all l st = Ok (ps, st') ->
  st' = st /\ List.map fst ps = l /\
  forall r p, (r, p) ∈ ps -> heap st !! r = Some p.
Proof.
  revert ps st'. induction l as [|r l IH]; intros ps st' H; simpl in H.
  - apply ret_Ok in H as [-> ->]. repeat split. intros r p Hin. inversion Hin.
  - invert_M H. apply deref_Ok in Hstep as [Hp ->].
    apply IH in Hstep0 as (-> & Hl & Hall).
    apply ret_Ok in H as [-> ->]. simpl. rewrite Hl. repeat split.
    intros r' p' Hin. apply elem_of_cons in Hin as [E | Hin].
    + injection E as -> ->. exact Hp.
    + apply Hall. exact Hin.
Qed.

(** The two list comprehensions over [x.avg] keep exactly the trials whose
    average has the wanted truth value, and change nothing. *)
Lemma select_avg_Ok want l st l' st' :
  select_avg want l st = Ok (l', st') ->
  st' = st /\
  forall r, r ∈ l' <->
            r ∈ l /\ exists p, heap st !! r = Some p /\ truthy (avg p) = want.
Proof.
  unfold select_avg. intros H. invert_M H.
  apply deref_all_Ok in Hstep as (-> & Hl & Hall).
  apply ret_Ok in H as [-> ->]. split; [reflexivity|].
  intros r. rewrite list_elem_of_In, in_map_iff. split.
  - intros ([r' p] & E & Hin). simpl in E. subst r'.
    apply filter_In in Hin as [Hin Hb]. simpl in Hb.
    apply list_elem_of_In in Hin. split.
    + rewrite <- Hl. apply list_elem_of_In, in_map_iff.
      exists (r, p). split; [reflexivity | apply list_elem_of_In; exact Hin].
    + exists p. split; [apply Hall; exact Hin|].
      apply Bool.eqb_prop in Hb. exact Hb.
  - intros [Hin (p & Hp & Ht)]. rewrite <- Hl in Hin.
    apply list_elem_of_In, in_map_iff in Hin as ([r' p'] & E & Hin).
    simpl in E. subst r'.
    assert (p' = p).
    { apply list_elem_of_In, Hall in Hin. congruence. }
    subst p'. exists (r, p). split; [reflexivity|].
    apply filter_In. split; [exact Hin|]. simpl. rewrite Ht.
    apply Bool.eqb_reflx.
Qed.

(** A sort that returns keeps the references it was given, each as often
    as it came, and changes nothing. *)
Lemma sorted_by_avg_Ok l st l' st' :
  sorted_by_avg l st = Ok (l', st') -> st' = st /\ l' ≡ₚ l.
Proof.
  unfold sorted_by_avg. intros H. invert_M H.
  apply deref_all_Ok in Hstep as (-> & Hl & _).
  destruct (_ && _); [discriminate|].
  apply ret_Ok in H as [-> ->]. split; [reflexivity|].
  rewrite <- Hl. apply Permutation_map, sort_by_Permutation.
Qed.

Lemma by_ep_get_set d k v : by_ep_get (by_ep_set d k v) k = Some v.
Proof.
  induction d as [|[k' v'] d IH]; simpl.
  - rewrite String.eqb_refl. reflexivity.
  - destruct (String.eqb k' k) eqn:E; simpl; rewrite E; [reflexivity | exact IH].
Qed.

Lemma slice_to_subset {A} (l : list A) n x : x ∈ slice_to l n -> x ∈ l.
Proof.
  unfold slice_to. destruct (0 <=? n); intros H;
    apply list_elem_of_lookup in H as [i H];
    apply lookup_take_Some in H as [H _];
    eapply list_elem_of_lookup_2; exact H.
Qed.

Lemma slice_to_all {A} (l : list A) n :
  Z.of_nat (length l) <= n -> slice_to l n = l.
Proof.
  intros H. unfold slice_to.
  destruct (0 <=? n) eqn:E; [|apply Z.leb_gt in E; lia].
  apply take_ge. lia.
Qed.

Lemma insert_by_ascending {A} (key : A -> Q) x l :
  ascending key l -> ascending key (Num.insert_by key x l).
Proof.
  unfold ascending. induction l as [|y l IH]; intros S; simpl.
  - repeat constructor.
  - apply StronglySorted_inv in S as [S F].
    destruct (Num.ltb (key y) (key x)) eqn:L.
    + constructor; [apply IH; exact S|].
      rewrite insert_by_Permutation. constructor; [|exact F].
      apply ltb_lt in L. apply Qlt_le_weak. exact L.
    + apply ltb_ge in L. constructor; [constructor; assumption|].
      constructor; [exact L|].
      eapply Forall_impl; [exact F|]. intros z Hz. simpl in Hz.
      eapply Qle_trans; eassumption.
Qed.

Lemma sort_by_ascending {A} (key : A -> Q) (l : list A) :
  ascending key (Num.sort_by key l).
Proof.
  induction l as [|x l IH]; [constructor|].
  unfold Num.sort_by in *. simpl. apply insert_by_ascending. exact IH.
Qed.

Lemma sorted_by_avg_ascending l st l' st' :
  sorted_by_avg l st = Ok (l', st') ->
  exists ps, l' = List.map fst ps /\ ascending key_of ps /\
             forall r p, (r, p) ∈ ps -> heap st !! r = Some p.
Proof.
  unfold sorted_by_avg. intros H. invert_M H.
  apply deref_all_Ok in Hstep as (-> & Hl & Hall).
  destruct (_ && _); [discriminate|].
  apply ret_Ok in H as [-> ->].
  exists (Num.sort_by key_of a). split; [reflexivity|].
  split; [apply sort_by_ascending|].
  intros r p Hin. apply Hall. rewrite <- (sort_by_Permutation key_of a). exact Hin.
Qed.

Section ScriptFacts.

Context (w : World) (bin_dir : string) (args : Args).
Context (build_name build_path : string) (test_args : list string).

(** The ranking step of a provider: every candidate without a truthy
    average joins the failures, and every candidate with a truthy average
    is in the provider's ranking, which is ascending in the average; the
    provider's successes are the first [top_n] trials of that ranking, so
    that a candidate is in neither collection only when it ranks behind
    them, and none is when the ranking has at most [top_n] trials. *)
Lemma rank_ranking tests successful s st s' st' :
  rank w args build_name tests successful s st = Ok (s', st') ->
  exists ranked n,
    st' = st /\
    int w (top_n args) = Some n /\
    ascending key_of ranked /\
    (forall r p, (r, p) ∈ ranked -> heap st !! r = Some p) /\
    (forall r p, r ∈ tests -> heap st !! r = Some p ->
       (truthy (avg p) = false -> r ∈ failed s') /\
       (truthy (avg p) = true -> r ∈ List.map fst ranked)) /\
    (forall r, r ∈ slice_to (List.map fst ranked) n ->
       by_ep_get (successful_by_ep s') build_name
         = Some (slice_to (List.map fst ranked) n)) /\
    (Z.of_nat (length ranked) <= n ->
       slice_to (List.map fst ranked) n = List.map fst ranked).
Proof.
  unfold rank. intros H. invert_M H.
  apply select_avg_Ok in Hstep as (-> & Hpassed).
  pose proof (sorted_by_avg_Ok _ _ _ _ Hstep0) as (-> & Hperm).
  apply sorted_by_avg_ascending in Hstep0 as (ranked & -> & Hasc & Hheap).
  apply lift_Ok in Hstep1 as [Hn ->].
  destruct (int w (top_n args)) as [n|] eqn:Hint; [|discriminate].
  injection Hn as <-.
  apply select_avg_Ok in Hstep2 as (-> & Hfailed).
  apply ret_Ok in H as [-> ->].
  exists ranked, n. split; [reflexivity|]. split; [reflexivity|].
  split; [exact Hasc|]. split; [exact Hheap|]. split; [|split].
  - intros r p Hin Hp. split; intros Ht.
    + simpl. apply elem_of_app. right. apply Hfailed. eauto.
    + rewrite Hperm. apply elem_of_app. right. apply Hpassed. eauto.
  - intros r Hin. simpl.
    destruct (slice_to (List.map fst ranked) n) as [|x l] eqn:E.
    + inversion Hin.
    + simpl. apply by_ep_get_set.
  - intros Hle. apply slice_to_all. rewrite length_map. exact Hle.
Qed.

End ScriptFacts.

Lemma dict_get_set d k v : Dict.get (Dict.set d k v) k = Some v.
Proof.
  induction d as [|[k' v'] d IH]; simpl.
  - rewrite String.eqb_refl. reflexivity.
  - destruct (String.eqb k' k) eqn:E; simpl; rewrite E; [reflexivity | exact IH].
Qed.

(** C9.  For one environment combination the candidates appended to
    [tests] are the combined configuration followed by the default one
    when both the best inter-op thread count and the best thread pool size
    exceed 1, and the default configuration alone otherwise.  The combined
    configuration runs in parallel mode ([-P]) with [-y] set to the best
    inter-op count and the best pool size given by [-x], or by
    [OMP_NUM_THREADS] with [-x 1] for an OpenMP provider. *)
Theorem combined_candidate_iff (w : World) (a : Args)
    (provider provider_path : string) (flags : list string)
    (e : dict) (env_option : string) (is_omp : bool)
    (name_suffix desc_suffix : string) (best_inter best_pool : Z)
    (tests : list ref) (st : state) :
  exists tests' st',
    add_candidates w a provider provider_path flags e env_option is_omp
      name_suffix desc_suffix best_inter best_pool tests st = Ok (tests', st') /\
    clock st' = clock st /\
    ((length tests' = 2 + length tests)%nat <-> 1 < best_inter /\ 1 < best_pool) /\
    let r := length (heap st) in
    let plain p :=
      test_args p = exe p :: flags /\ env_to_set p = e /\
      name p = (provider +:+ env_option)%string /\ avg p = None in
    (1 < best_inter /\ 1 < best_pool ->
       tests' = tests ++ [r; S r] /\
       exists combined default,
         heap st' = heap st ++ [combined; default] /\
         plain default /\
         test_args combined
           = exe combined :: flags
               ++ ["-P"; "-y"; Str.of_Z best_inter; "-x";
                   if is_omp then "1" else Str.of_Z best_pool]%string /\
         env_to_set combined
           = (if is_omp
              then Dict.set e "OMP_NUM_THREADS" (Str.of_Z best_pool)
              else e) /\
         name combined
           = (provider +:+ "_parallel_" +:+ Str.of_Z best_pool
                +:+ (name_suffix +:+ "_" +:+ Str.of_Z best_inter
                       +:+ "_inter_threads") +:+ env_option)%string) /\
    (~ (1 < best_inter /\ 1 < best_pool) ->
       tests' = tests ++ [r] /\
       exists default, heap st' = heap st ++ [default] /\ plain default).
Proof.
  unfold add_candidates.
  destruct (1 <? best_inter) eqn:Hi; [destruct (1 <? best_pool) eqn:Hp|];
    unfold bind, new, ret; simpl; eexists _, _; (split; [reflexivity|]);
    (split; [reflexivity|]).
  - apply Z.ltb_lt in Hi, Hp. split.
    { rewrite !length_app. simpl. split; [auto | lia]. }
    split; [|intros N; tauto].
    intros _. rewrite <- !app_assoc. simpl. rewrite length_app. simpl.
    rewrite Nat.add_1_r. split; [reflexivity|].
    eexists _, _. split; [reflexivity|].
    split; [repeat split|].
    destruct is_omp; simpl; rewrite <- !app_assoc; repeat split.
  - apply Z.ltb_lt in Hi. apply Z.ltb_ge in Hp. split.
    { rewrite !length_app. simpl. split; [lia | intros [_ ?]; lia]. }
    split; [intros [_ ?]; lia|].
    intros _. split; [reflexivity|].
    eexists. split; [reflexivity|]. repeat split.
  - apply Z.ltb_ge in Hi. split.
    { rewrite !length_app. simpl. split; [lia | intros [? _]; lia]. }
    split; [intros [? _]; lia|].
    intros _. split; [reflexivity|].
    eexists. split; [reflexivity|]. repeat split.
Qed.

(** The latencies that a completed trial holds are in ascending order. *)
Lemma run_perf_tuning_sorts (w : World) r percentiles st u st' :
  run_perf_tuning w r percentiles st = Ok (u, st') ->
  exists p', heap st' !! r = Some p' /\ ascending (fun x => x) (latencies p').
Proof.
  intros H. apply run_perf_tuning_Ok in H
    as (_ & _ & l & p' & _ & _ & _ & _ & Hp' & Hlat & _).
  exists p'. split; [exact Hp'|]. rewrite Hlat. apply sort_by_ascending.
Qed.

(** C7 (amended).  The record of a reported trial with [n] latencies has a
    [p90] exactly when [n >= 10], and it is the latency at index
    [floor(9n/10)], in milliseconds and rounded to five places; it has a
    [p95] exactly when [n >= 20], the latency at index [floor(95n/100)], in
    milliseconds and rounded to five places. *)
Theorem json_record_percentiles (test : PerfTestParams) :
  let n := Z.of_nat (length (latencies test)) in
  exists record,
    json_record test = Ok record /\
    (json_p90 record <> None <-> 10 <= n) /\
    (json_p95 record <> None <-> 20 <= n) /\
    (10 <= n ->
       exists x, latencies test !! Z.to_nat (n * 9 / 10) = Some x /\
                 json_p90 record = Some (Num.round (x * 1000) 5)) /\
    (20 <= n ->
       exists x, latencies test !! Z.to_nat (n * 95 / 100) = Some x /\
                 json_p95 record = Some (Num.round (x * 1000) 5)).
Proof.
  cbv zeta. unfold json_record.
  set (n := Z.of_nat (length (latencies test))).
  assert (I90 : 10 <= n ->
                exists x, latencies test !! Z.to_nat (n * 9 / 10) = Some x).
  { intros Hn. apply lookup_lt_is_Some_2.
    assert (n * 9 / 10 < n) by (apply Z.div_lt_upper_bound; lia).
    assert (0 <= n * 9 / 10) by (apply Z.div_pos; lia). lia. }
  assert (I95 : 20 <= n ->
                exists x, latencies test !! Z.to_nat (n * 95 / 100) = Some x).
  { intros Hn. apply lookup_lt_is_Some_2.
    assert (n * 95 / 100 < n) by (apply Z.div_lt_upper_bound; lia).
    assert (0 <= n * 95 / 100) by (apply Z.div_pos; lia). lia. }
  destruct (10 <=? n) eqn:H10; [apply Z.leb_le in H10 | apply Z.leb_gt in H10].
  - destruct (I90 H10) as [x Hx]. rewrite Hx. simpl.
    destruct (20 <=? n) eqn:H20; [apply Z.leb_le in H20 | apply Z.leb_gt in H20].
    + destruct (I95 H20) as [y Hy]. rewrite Hy. simpl.
      eexists. split; [reflexivity|]. simpl.
      split; [split; [auto | discriminate]|].
      split; [split; [auto | discriminate]|].
      split; intros _; eauto.
    + simpl. eexists. split; [reflexivity|]. simpl.
      split; [split; [auto | discriminate]|].
      split; [split; [congruence | lia]|].
      split; [eauto | lia].
  - assert (H20 : (20 <=? n) = false) by (apply Z.leb_gt; lia).
    rewrite H20. simpl. eexists. split; [reflexivity|]. simpl.
    split; [split; [congruence | lia]|].
    split; [split; [congruence | lia]|].
    split; lia.
Qed.

Lemma truthy_false x : truthy x = false <-> no_latency x.
Proof.
  unfold no_latency. destruct x as [q|]; simpl.
  - unfold Num.is_zero. rewrite negb_false_iff, Qeq_bool_iff. split.
    + intros E. right. exists q. auto.
    + intros [N | (q' & E & Z)]; [discriminate|]. injection E as ->. exact Z.
  - split; auto.
Qed.


(** *** The environment combinations *)

Lemma length_extend_combos all_combos options :
  all_combos <> [] ->
  length (extend_combos all_combos options)
  = (length all_combos * length options)%nat.
Proof.
  intros Hne. unfold extend_combos.
  destruct all_combos as [|c cs]; [contradiction|]. clear Hne.
  change (length (c :: cs) =? 0)%nat with false. cbv iota.
  induction (c :: cs) as [|x l IH]; simpl; [reflexivity|].
  rewrite length_app, length_map, IH. reflexivity.
Qed.

Lemma length_fold_extend options all_combos :
  all_combos <> [] -> Forall (fun o => o <> []) options ->
  length (fold_left extend_combos options all_combos)
  = (length all_combos * cardinality options)%nat.
Proof.
  revert all_combos. induction options as [|o options IH];
    intros all_combos Hne Hall; simpl.
  - lia.
  - apply Forall_cons in Hall as [Ho Hall].
    rewrite IH; [|idtac|exact Hall].
    + rewrite length_extend_combos by exact Hne. lia.
    + intros E. apply (f_equal length) in E.
      rewrite length_extend_combos in E by exact Hne. simpl in E.
      destruct all_combos; [contradiction|]. destruct o; [contradiction|].
      simpl in E. lia.
Qed.

(** For one or more variables, each with a non-empty list of candidate
    values, there are as many combinations as the product of the list
    sizes; for an absent mapping there is the one combination without
    overrides. *)
Lemma get_env_var_combos_count :
  (forall d, d <> [] -> Forall (fun kv => snd kv <> []) d ->
     length (get_env_var_combos (Some d)) = cardinality (List.map snd d)) /\
  (get_env_var_combos None = [[EmptyString]] /\
   gen_env_var_dict [] [EmptyString] = Ok []).
Proof.
  split; [|split; reflexivity].
  intros d Hne Hall. unfold get_env_var_combos.
  destruct d as [|[k o] d]; [contradiction|]. simpl.
  apply Forall_cons in Hall as [Ho Hall]. simpl in Ho.
  change (extend_combos [] o) with (List.map (fun x => [x]) o).
  rewrite length_fold_extend.
  - rewrite length_map. reflexivity.
  - destruct o; [contradiction | discriminate].
  - apply Forall_map. exact Hall.
Qed.

(** C3.  For the empty mapping the generator returns no combination at
    all, where the absent mapping gives the one combination without
    overrides. *)
Theorem get_env_var_combos_empty_mapping :
  get_env_var_combos (Some []) = [] /\
  get_env_var_combos None = [[EmptyString]].
Proof. split; reflexivity. Qed.

(** ** Concrete runs *)

(** C1 (as stated).  Fails in the search over 2..6 OpenMP threads with
    latencies of 10 ms for 2, 12 ms for 4 and 8 ms for 3 threads: the third
    pass through the loop body starts with the window [2, 2] that the
    restart left, its floor-midpoint is 2, and it ends the loop without a
    probe, leaving heap and clock as they were. *)
Lemma loop_pass_without_probe :
  let w := SearchExample.world_of SearchExample.valley in
  match SearchExample.heads w 6 (SearchExample.start 6 SearchExample.valley_latency)
                            SearchExample.valley_baseline with
  | [_; _; (s, st)] =>
      lower s <= upper s /\ midpoint s = 2 /\
      SearchExample.body w 6 s st = Ok (Break s, st)
  | _ => False
  end.
Proof. vm_compute. repeat split; discriminate. Qed.

(** C1 (amended), on the first pass of that search: the probe of 4 threads
    takes 12 ms against a best latency of 10 ms, so that [upper] becomes 3
    and the best thread count stays 2. *)
Lemma loop_body_probes_midpoint_witness :
  let w := SearchExample.world_of SearchExample.valley in
  let s := SearchExample.start 6 SearchExample.valley_latency in
  exists s1,
    SearchExample.body w 6 s SearchExample.valley_baseline
      = Ok (Continue (rerun_check 6 s1), SearchExample.valley_first) /\
    upper s1 = 3 /\ lower s1 = 3 /\ best_run s1 = 2.
Proof.
  cbv zeta.
  set (w := SearchExample.world_of SearchExample.valley).
  set (s := SearchExample.start 6 SearchExample.valley_latency).
  assert (Hmid : midpoint s <> 2) by (vm_compute; discriminate).
  assert (Hrun : run_perf_tuning w (length (heap SearchExample.valley_baseline))
                   false
                   (with_probe w "dnnl" "bin/all_eps" (SearchExample.template w)
                      "_OMP_threads" " OMP_NUM_THREADS, " true false
                      (midpoint s) SearchExample.valley_baseline)
                 = Ok (tt, SearchExample.valley_first))
    by (vm_compute; reflexivity).
  assert (Hp : heap SearchExample.valley_first
                 !! length (heap SearchExample.valley_baseline)
               = Some SearchExample.valley_probe)
    by (vm_compute; reflexivity).
  assert (Ha : avg SearchExample.valley_probe = Some (12000000000 # 1000000000))
    by (vm_compute; reflexivity).
  assert (Hnz : ~ (12000000000 # 1000000000 == 0)%Q)
    by (vm_compute; discriminate).
  assert (Hworse : (best_latency s < 12000000000 # 1000000000)%Q)
    by (vm_compute; reflexivity).
  destruct (proj2 (loop_body_probes_midpoint w "dnnl" "bin/all_eps"
                     (SearchExample.template w) 6 "_OMP_threads"
                     " OMP_NUM_THREADS, " true false s
                     SearchExample.valley_baseline)
              Hmid _ _ _ Hrun Hp Ha Hnz)
    as (s1 & Hbody & _ & _ & _ & Hup & _).
  destruct (Hup Hworse) as (Hu & Hl & _ & Hb).
  exists s1. split; [exact Hbody|].
  split; [rewrite Hu; reflexivity|].
  split; [rewrite Hl; reflexivity | rewrite Hb; reflexivity].
Defined.

(** C4 (as stated).  Fails for a trial that is re-profiled after a
    ranking run with an average of 12.5 ms: the measured execution of the
    percentile run exits with code 0 and writes a result file that holds
    a header line only, so that no latency is parsed, and the run raises
    [IndexError] instead of leaving [avg = None]; the script ends without
    a report. *)
Lemma reprofiling_without_sample_raises :
  run_perf_tuning HollowExample.sample_world 0%nat false RunnerExample.before
    = Ok (tt, HollowExample.ranked) /\
  match heap HollowExample.ranked !! 0%nat with
  | Some p =>
      (exists a, avg p = Some a /\ (a == 25 # 2)%Q) /\
      trial_command HollowExample.sample_world p true 3
        = Ok HollowExample.command /\
      subprocess_run HollowExample.sample_world 5 HollowExample.command (env p)
        = {| returncode := 0;
             result_file := Some ["name,latency,a,b,c,d"%string] |} /\
      parse_latencies HollowExample.sample_world ["name,latency,a,b,c,d"%string]
        = Ok [] /\
      run_perf_tuning HollowExample.sample_world 0%nat true HollowExample.ranked
        = Raise IndexError
  | None => False
  end /\
  main HollowExample.sample_world "bin" RunnerExample.sample_args initial_state
    = Raise IndexError.
Proof.
  vm_compute. repeat split. eexists. split; reflexivity.
Qed.

Lemma run_perf_tuning_avg_witness :
  run_perf_tuning RunnerExample.sample_world 0%nat false RunnerExample.before
    = Ok (tt, RunnerExample.after) /\
  trial_command RunnerExample.sample_world RunnerExample.trial false 0
    = Ok RunnerExample.command /\
  exists p',
    heap RunnerExample.after !! 0%nat = Some p' /\
    let measured :=
      subprocess_run RunnerExample.sample_world 2 RunnerExample.command
        (env RunnerExample.trial) in
    (avg p' = None <->
       returncode measured <> 0 \/ result_file measured = None \/
       exists lines, result_file measured = Some lines /\
                     parse_latencies RunnerExample.sample_world lines = Ok []) /\
    (forall a, avg p' = Some a ->
       exists lines l,
         returncode measured = 0 /\
         result_file measured = Some lines /\
         parse_latencies RunnerExample.sample_world lines = Ok l /\
         a = (Num.round (Num.sum l / Num.len l) 9 * 1000)%Q).
Proof.
  assert (E : run_perf_tuning RunnerExample.sample_world 0%nat false
                RunnerExample.before = Ok (tt, RunnerExample.after))
    by (vm_compute; reflexivity).
  assert (C : trial_command RunnerExample.sample_world RunnerExample.trial
                false 0 = Ok RunnerExample.command)
    by (vm_compute; reflexivity).
  split; [exact E|]. split; [exact C|].
  exact (proj1 (run_perf_tuning_avg RunnerExample.sample_world 0%nat false
                  RunnerExample.before RunnerExample.trial
                  RunnerExample.command eq_refl C)
           RunnerExample.after E).
Defined.

(** C2 (as stated).  Fails in the search over 2..4 OpenMP threads with
    latencies of 10 ms for 2, 5 ms for 3 and 7 ms for 4 threads: the loop
    ends converged with 3 as the best thread count, the floor-midpoint of
    the range 2..4, and no restart was made, since [(1 + 4) // 2] is 2. *)
Lemma converged_at_window_midpoint_without_restart :
  let w := SearchExample.world_of SearchExample.dip in
  match SearchExample.loop w 4 (SearchExample.start 4 SearchExample.dip_latency)
                           SearchExample.dip_baseline with
  | Ok (s, _) =>
      upper s < lower s /\
      best_run s = 2 + (initial_upper 4 true - 2) / 2 /\
      rerun s = false /\ restarts s = 0%nat
  | _ => False
  end.
Proof. vm_compute. repeat split. Qed.

(** C2 (amended), on the search through [valley] with 6 cores: the loop
    ends after one restart. *)
Lemma rerun_at_most_once_witness :
  let w := SearchExample.world_of SearchExample.valley in
  SearchExample.loop w 6 (SearchExample.start 6 SearchExample.valley_latency)
                     SearchExample.valley_baseline
    = Ok SearchExample.valley_end /\
  (restarts (fst SearchExample.valley_end) <= 1)%nat /\
  (restarts (fst SearchExample.valley_end) = 1%nat
   <-> rerun (fst SearchExample.valley_end) = true).
Proof.
  cbv zeta.
  set (w := SearchExample.world_of SearchExample.valley).
  assert (E : while_loop w "dnnl" "bin/all_eps" (SearchExample.template w) 6
                "_OMP_threads" " OMP_NUM_THREADS, " true false (Z.to_nat (2 * 6))
                (after_baseline 6 true [] [] 0%nat SearchExample.valley_latency)
                SearchExample.valley_baseline
              = Ok (fst SearchExample.valley_end, snd SearchExample.valley_end))
    by (vm_compute; reflexivity).
  split; [vm_compute; reflexivity|].
  exact (proj1 (proj2 (proj2 (rerun_at_most_once w "dnnl" "bin/all_eps"
                                (SearchExample.template w) 6 "_OMP_threads"
                                " OMP_NUM_THREADS, " true false)))
           _ _ _ _ _ _ _ _ E).
Defined.

(** C3 (in the script).  A provider whose table of environment variables
    is the empty mapping gets no candidate at all: no trial is created or
    run and the report is empty. *)
Lemma empty_mapping_skips_provider :
  main ReportExample.bare_world "bin" (ReportExample.sample_args "cpu")
       initial_state
  = Ok ([], initial_state).
Proof. vm_compute. reflexivity. Qed.


(** C6.  With the providers [cpu] and [dnnl], whose ranking runs both
    succeed, a failing re-profiling run of [cpu] leaves that trial with
    [avg = None]; sorting the two profile candidates then raises
    [TypeError] and no report is produced. *)
Theorem failed_reprofiling_aborts_report :
  main ReportExample.sample_world "bin" (ReportExample.sample_args "cpu,dnnl")
       initial_state
  = Raise TypeError.
Proof. vm_compute. reflexivity. Qed.

(** C6 (one provider).  When [cpu] is the only provider the report is
    written: the trial is still listed, but its average from the ranking
    run has been replaced by [None]. *)
Lemma failed_reprofiling_erases_average :
  match main ReportExample.sample_world "bin" (ReportExample.sample_args "cpu")
             initial_state with
  | Ok ([(provider, Successes [record])], _) =>
      provider = "cpu"%string /\ json_name record = "cpu"%string /\
      json_avg record = None /\ json_p90 record = None
  | _ => False
  end.
Proof. vm_compute. repeat split. Qed.

(** C7 (as stated).  Fails for a trial with ten latencies of
    12.3456789 ms: its [p90] is 12.34568, the latency at index 9 in
    milliseconds rounded to five places, and not that latency in
    milliseconds. *)
Lemma p90_is_rounded :
  match json_record ReportExample.measured,
        latencies ReportExample.measured !! 9%nat with
  | Ok record, Some x =>
      match json_p90 record with
      | Some v => ~ (v == x * 1000)%Q /\ (v == 1234568 # 100000)%Q
      | None => False
      end
  | _, _ => False
  end.
Proof. vm_compute. split; [discriminate | reflexivity]. Qed.

(** C8, on a search whose every run fails: the baseline for 2 threads is
    the only trial. *)
Lemma baseline_failure_witness :
  let w := SearchExample.world_of [] in
  SearchExample.tuner w 4 initial_state
    = Ok ((-1, [0%nat], []), SearchExample.failed_baseline) /\
  length (heap SearchExample.failed_baseline) = 1%nat /\
  clock SearchExample.failed_baseline = 3%nat.
Proof.
  cbv zeta. set (w := SearchExample.world_of []).
  assert (Hrange : 2 <= initial_upper 4 true) by (vm_compute; discriminate).
  assert (Hrun : run_perf_tuning w (length (heap initial_state)) false
                   (with_probe w "dnnl" "bin/all_eps" (SearchExample.template w)
                      "_OMP_threads" " OMP_NUM_THREADS, " true false 2
                      initial_state)
                 = Ok (tt, SearchExample.failed_baseline))
    by (vm_compute; reflexivity).
  assert (Hp : heap SearchExample.failed_baseline !! length (heap initial_state)
               = Some SearchExample.failed_trial)
    by (vm_compute; reflexivity).
  assert (Hf : truthy (avg SearchExample.failed_trial) = false)
    by (vm_compute; reflexivity).
  exact (baseline_failure w "dnnl" "bin/all_eps" (SearchExample.template w) 4
           "_OMP_threads" " OMP_NUM_THREADS, " true false [] []
           initial_state SearchExample.failed_baseline
           SearchExample.failed_trial Hrange Hrun Hp Hf).
Defined.


(** * Further properties *)

Section TunerLedgerFacts.

Context (w : World) (provider provider_path : string).
Context (template : PerfTestParams) (num_cores : Z)
        (name_suffix desc_suffix : string) (is_omp tune_inter_ops : bool).

Local Abbreviation tuner_probe :=
  (probe w provider provider_path template name_suffix desc_suffix
         is_omp tune_inter_ops).
Local Abbreviation tuner_loop :=
  (while_loop w provider provider_path template num_cores name_suffix
              desc_suffix is_omp tune_inter_ops).
Local Abbreviation tuner :=
  (run_perf_tuning_binary w provider provider_path template num_cores
                          name_suffix desc_suffix is_omp tune_inter_ops).
Local Abbreviation ledger' :=
  (ledger template num_cores name_suffix is_omp).
Local Abbreviation max_trials' := (max_trials num_cores is_omp).

Lemma span_halves z z' : 0 < z -> 2 * z' <= z -> (S (span z') <= span z)%nat.
Proof.
  intros Hz Hz'. unfold span.
  destruct (0 <? z) eqn:E; [|apply Z.ltb_ge in E; lia].
  destruct (0 <? z') eqn:E'; [|lia].
  apply Z.ltb_lt in E'.
  assert (Z.log2 (2 * z') <= Z.log2 z) by (apply Z.log2_le_mono; lia).
  rewrite Z.log2_double in H by lia.
  pose proof (Z.log2_nonneg z'). lia.
Qed.

Lemma span_narrow s r a :
  lower s <= upper s ->
  let s' := narrow s (midpoint s) r a in
  (S (span (upper s' - lower s' + 1)) <= span (upper s - lower s + 1))%nat /\
  rerun s' = rerun s.
Proof.
  intros Hw. cbv zeta. unfold narrow, midpoint.
  assert (D : 2 * ((upper s - lower s) / 2) <= upper s - lower s)
    by (apply Z.mul_div_le; lia).
  assert (D' : upper s - lower s < 2 * ((upper s - lower s) / 2) + 2).
  { pose proof (Z.mod_pos_bound (upper s - lower s) 2 ltac:(lia)).
    pose proof (Z.div_mod (upper s - lower s) 2 ltac:(lia)). lia. }
  destruct (Num.ltb (best_latency s) a); simpl;
    (split; [apply span_halves; lia | reflexivity]).
Qed.

Lemma make_probe_name n :
  name (make_probe w provider provider_path template name_suffix desc_suffix
                   is_omp tune_inter_ops n)
  = probe_name template name_suffix n.
Proof.
  unfold make_probe. destruct tune_inter_ops; [reflexivity|].
  destruct is_omp; reflexivity.
Qed.

(** A probe appends one object, the trial it ran, and takes three
    interactions with the world. *)
Lemma probe_appends n st r p st1 :
  tuner_probe n st = Ok ((r, p), st1) ->
  r = length (heap st) /\ heap st1 = heap st ++ [p] /\
  name p = probe_name template name_suffix n /\
  clock st1 = (3 + clock st)%nat.
Proof.
  intros H. apply probe_Ok in H as (-> & Hrun & Hp).
  apply run_perf_tuning_Ok in Hrun
    as (p0 & cmd & l & p' & Hp0 & _ & _ & Hh & Hp' & _ & _ & Hn & _ & Hc & _).
  rewrite Hp in Hp'. injection Hp' as <-.
  unfold with_probe in Hp0, Hh, Hc. simpl in Hp0, Hh, Hc.
  rewrite lookup_app_r in Hp0 by lia. rewrite Nat.sub_diag in Hp0.
  injection Hp0 as <-.
  split; [reflexivity|]. split.
  - rewrite Hh. replace (length (heap st)) with (length (heap st) + 0)%nat at 1 by lia.
    rewrite insert_app_r. reflexivity.
  - split; [rewrite Hn; apply make_probe_name | apply Hc; reflexivity].
Qed.

Lemma ledger_narrow failed successful st0 s st r p a st1 :
  ledger' failed successful st0 s st ->
  lower s <= upper s ->
  tuner_probe (midpoint s) st = Ok ((r, p), st1) ->
  avg p = Some a -> truthy (Some a) = true ->
  ledger' failed successful st0
    (rerun_check num_cores (narrow s (midpoint s) r a)) st1.
Proof.
  intros (passed & Hs & Hf & Hseq & Hlen & Htake & Hck & Hlo & Hup & Hbest
          & Hbud & Hall & Hmin) Hw Hprobe Ha Ht.
  pose proof (span_narrow s (length (heap st)) a Hw) as [Hspan Hrerun].
  cbv zeta in Hspan.
  apply probe_appends in Hprobe as (-> & Hh & Hn & Hc).
  pose proof (midpoint_in_window s Hw) as Hmid.
  assert (Hold : forall r' q, heap st !! r' = Some q -> heap st1 !! r' = Some q).
  { intros r' q Hq. rewrite Hh. apply lookup_app_l_Some. exact Hq. }
  assert (Hnew : heap st1 !! length (heap st) = Some p).
  { rewrite Hh, lookup_app_r by lia. rewrite Nat.sub_diag. reflexivity. }
  assert (Hcores : (1 + num_cores) / 2 - 1 <= initial_upper num_cores is_omp).
  { assert (initial_upper num_cores is_omp <= num_cores)
      by (unfold initial_upper; destruct is_omp; lia).
    assert ((1 + num_cores) / 2 <= num_cores)
      by (apply Z.div_le_upper_bound; lia).
    unfold initial_upper in *. destruct is_omp; lia. }
  assert (L : ledger' failed successful st0 (narrow s (midpoint s) (length (heap st)) a) st1).
  { exists (passed ++ [length (heap st)]).
    unfold narrow. destruct (Num.ltb (best_latency s) a) eqn:Hlt; simpl.
    - pose proof Hlt as Hlt'. apply ltb_lt in Hlt.
      split; [rewrite Hs, app_assoc; reflexivity|]. split; [exact Hf|].
      split.
      { rewrite length_app. simpl. rewrite seq_app. simpl.
        rewrite <- Hseq, <- Hlen. reflexivity. }
      split; [rewrite Hh, !length_app; simpl; lia|].
      split.
      { rewrite Hh, take_app_le by lia. exact Htake. }
      split; [rewrite length_app; simpl; lia|].
      split; [exact Hlo|]. split; [lia|]. split; [exact Hbest|].
      split.
      { unfold narrow in Hspan. rewrite Hlt' in Hspan. simpl in Hspan.
        rewrite length_app. simpl. lia. }
      split.
      + intros r Hr. apply elem_of_app in Hr as [Hr | Hr].
        * destruct (Hall r Hr) as (q & b & Hq & Hb & Htb & Hle).
          exists q, b. auto.
        * apply list_elem_of_singleton in Hr as ->.
          exists p, a. split; [exact Hnew|]. split; [exact Ha|].
          split; [exact Ht | apply Qlt_le_weak; exact Hlt].
      + destruct Hmin as (r & q & Hr & Hq & Hb & Hnm).
        exists r, q. split; [apply elem_of_app; left; exact Hr|]. auto.
    - pose proof Hlt as Hlt'. apply ltb_ge in Hlt.
      split; [rewrite Hs, app_assoc; reflexivity|]. split; [exact Hf|].
      split.
      { rewrite length_app. simpl. rewrite seq_app. simpl.
        rewrite <- Hseq, <- Hlen. reflexivity. }
      split; [rewrite Hh, !length_app; simpl; lia|].
      split.
      { rewrite Hh, take_app_le by lia. exact Htake. }
      split; [rewrite length_app; simpl; lia|].
      split; [lia|]. split; [exact Hup|]. split; [lia|].
      split.
      { unfold narrow in Hspan. rewrite Hlt' in Hspan. simpl in Hspan.
        rewrite length_app. simpl. lia. }
      split.
      + intros r Hr. apply elem_of_app in Hr as [Hr | Hr].
        * destruct (Hall r Hr) as (q & b & Hq & Hb & Htb & Hle).
          exists q, b. split; [auto|]. split; [exact Hb|]. split; [exact Htb|].
          eapply Qle_trans; eassumption.
        * apply list_elem_of_singleton in Hr as ->.
          exists p, a. split; [exact Hnew|]. split; [exact Ha|].
          split; [exact Ht | apply Qle_refl].
      + exists (length (heap st)), p.
        split; [apply elem_of_app; right; apply list_elem_of_singleton; reflexivity|].
        auto. }
  unfold rerun_check.
  destruct (_ && _ && _) eqn:C; [|exact L].
  apply andb_prop in C as [C Hr]. apply andb_prop in C as [C _].
  apply Z.ltb_lt in C. apply negb_true_iff in Hr.
  destruct L as (passed' & ? & ? & ? & ? & ? & ? & Hlo' & Hup' & Hbest' & Hbud'
                 & Hall' & Hmin').
  exists passed'. simpl. repeat (split; [assumption|]).
  split; [lia|]. split; [lia|]. split; [exact Hbest'|].
  split; [|auto].
  rewrite Hr in Hbud'.
  replace ((1 + num_cores) / 2 - 1 - 2 + 1) with ((1 + num_cores) / 2 - 2) by lia.
  lia.
Qed.

(** The loop ends at a loop head, or in a pass whose probe failed. *)
Lemma while_loop_ledger failed successful st0 fuel :
  forall s st s' st',
    ledger' failed successful st0 s st ->
    tuner_loop fuel s st = Ok (s', st') ->
    ledger' failed successful st0 s' st' \/
    exists s1 st1 p,
      ledger' failed successful st0 s1 st1 /\
      lower s1 <= upper s1 /\
      s' = probe_failed s1 (length (heap st1)) /\
      heap st' = heap st1 ++ [p] /\ clock st' = (3 + clock st1)%nat /\
      truthy (avg p) = false.
Proof.
  induction fuel as [|fuel IH]; intros s st s' st' L H; simpl in H;
    destruct (lower s <=? upper s) eqn:Hw.
  - discriminate.
  - apply ret_Ok in H as [-> ->]. left. exact L.
  - apply Z.leb_le in Hw.
    apply bind_Ok in H as (x & st1 & Hbody & H).
    rewrite loop_body_eq in Hbody.
    destruct (midpoint s =? 2).
    { injection Hbody as <- <-. apply ret_Ok in H as [-> ->]. left. exact L. }
    destruct (tuner_probe (midpoint s) st) as [[[r p] st2]| |] eqn:Hprobe;
      try discriminate.
    assert (Hfail : truthy (avg p) = false ->
                    x = Break (probe_failed s r) -> st1 = st2 ->
                    exists s1 st1 p,
                      ledger' failed successful st0 s1 st1 /\
                      lower s1 <= upper s1 /\
                      s' = probe_failed s1 (length (heap st1)) /\
                      heap st' = heap st1 ++ [p] /\
                      clock st' = (3 + clock st1)%nat /\
                      truthy (avg p) = false).
    { intros Hf -> ->. apply ret_Ok in H as [-> ->].
      apply probe_appends in Hprobe as (-> & Hh & _ & Hc).
      exists s, st, p. auto 10. }
    destruct (avg p) as [a|] eqn:Ha.
    + destruct (truthy (Some a)) eqn:Ht; injection Hbody as <- <-.
      * eapply IH; [|exact H]. eapply ledger_narrow; eassumption.
      * right. apply Hfail; reflexivity.
    + injection Hbody as <- <-. right. apply Hfail; reflexivity.
  - apply ret_Ok in H as [-> ->]. left. exact L.
Qed.

(** What a search that returned has done. *)
Lemma search_outcome failed successful st best failed' successful' st' :
  tuner failed successful st = Ok ((best, failed', successful'), st') ->
  outcome template num_cores name_suffix is_omp
          failed successful st best failed' successful' st'.
Proof.
  rewrite run_perf_tuning_binary_eq. unfold outcome.
  destruct (initial_upper num_cores is_omp <? 2) eqn:Hrange.
  { intros H. injection H as <- <- <- <-. exists [], [].
    rewrite !app_nil_r. simpl. rewrite Nat.add_0_r, take_ge by lia.
    repeat split; try reflexivity; try lia.
    - intros r Hr. inversion Hr.
    - intros r Hr. inversion Hr.
    - contradiction.
    - contradiction.
    - contradiction. }
  apply Z.ltb_ge in Hrange.
  destruct (tuner_probe 2 st) as [[[r p] st1]| |] eqn:Hprobe; try discriminate.
  pose proof Hprobe as Hprobe'.
  apply probe_appends in Hprobe' as (-> & Hh & Hn & Hc).
  assert (Hnew : heap st1 !! length (heap st) = Some p).
  { rewrite Hh, lookup_app_r by lia. rewrite Nat.sub_diag. reflexivity. }
  destruct (truthy (avg p)) eqn:Ht.
  2:{ intros H.
      assert (E : Ok ((-1, failed ++ [length (heap st)], successful), st1)
                  = Ok ((best, failed', successful'), st'))
        by (destruct (avg p); exact H).
      clear H. injection E as <- <- <- <-.
      exists [], [length (heap st)]. rewrite app_nil_r. simpl.
      split; [reflexivity|]. split; [reflexivity|]. split; [reflexivity|].
      split; [lia|]. split; [unfold max_trials; lia|].
      split; [rewrite Hh, length_app; reflexivity|].
      split; [rewrite Hh, take_app_le, take_ge by lia; reflexivity|].
      split; [lia|].
      split.
      { intros r Hr. apply list_elem_of_singleton in Hr as ->. eauto. }
      split; [intros r Hr; inversion Hr|].
      split; [reflexivity | contradiction]. }
  destruct (avg p) as [a|] eqn:Ha; [|discriminate Ht].
  destruct (tuner_loop _ _ st1) as [[s st2]| |] eqn:Hloop; try discriminate.
  intros H. injection H as <- <- <- <-.
  assert (L0 : ledger' failed successful st
                 (after_baseline num_cores is_omp failed successful
                    (length (heap st)) a) st1).
  { exists [length (heap st)]. simpl.
    split; [reflexivity|]. split; [reflexivity|]. split; [reflexivity|].
    split; [rewrite Hh, length_app; reflexivity|].
    split; [rewrite Hh, take_app_le, take_ge by lia; reflexivity|].
    split; [lia|]. split; [lia|]. split; [lia|]. split; [lia|].
    split.
    { unfold max_trials.
      replace (initial_upper num_cores is_omp - (2 + 1) + 1)
        with (initial_upper num_cores is_omp - 2) by lia.
      lia. }
    split.
    - intros r Hr. apply list_elem_of_singleton in Hr as ->.
      exists p, a. split; [exact Hnew|]. split; [exact Ha|].
      split; [exact Ht | apply Qle_refl].
    - exists (length (heap st)), p.
      split; [apply list_elem_of_singleton; reflexivity|]. auto. }
  apply (while_loop_ledger _ _ _ _ _ _ _ _ L0) in Hloop.
  destruct Hloop as [L | (s1 & st3 & q & L & Hw & -> & Hh2 & Hc2 & Hq)].
  - destruct L as (passed & Hs & Hf & Hseq & Hlen & Htake & Hck & Hlo & Hup
                   & Hbest & Hbud & Hall & Hmin).
    exists passed, []. rewrite !app_nil_r. simpl. rewrite Nat.add_0_r.
    split; [exact Hs|]. split; [exact Hf|]. split; [exact Hseq|].
    split; [lia|]. split; [lia|]. split; [exact Hlen|]. split; [exact Htake|].
    split; [exact Hck|].
    split; [intros r Hr; inversion Hr|].
    split.
    { intros r Hr. destruct (Hall r Hr) as (p' & a' & Hp' & Ha' & Ht' & _).
      exists p'. rewrite Ha'. auto. }
    split.
    { intros ->. destruct Hmin as (r & _ & Hr & _). inversion Hr. }
    intros _. split; [exact Hbest|].
    destruct Hmin as (r & p' & Hr & Hp' & Ha' & Hn').
    exists r, p', (best_latency s). repeat (split; [assumption|]).
    intros r' Hr'. destruct (Hall r' Hr') as (p'' & a'' & ? & ? & ? & ?).
    exists p'', a''. auto.
  - destruct L as (passed & Hs & Hf & Hseq & Hlen & Htake & Hck & Hlo & Hup
                   & Hbest & Hbud & Hall & Hmin).
    assert (Hold : forall r' q', heap st3 !! r' = Some q' ->
                                 heap st2 !! r' = Some q').
    { intros r' q' Hq'. rewrite Hh2. apply lookup_app_l_Some. exact Hq'. }
    assert (Hspan : (1 <= span (upper s1 - lower s1 + 1))%nat).
    { unfold span. destruct (0 <? upper s1 - lower s1 + 1) eqn:E; [lia|].
      apply Z.ltb_ge in E. lia. }
    exists passed, [length (heap st3)]. simpl.
    split; [exact Hs|]. split; [rewrite Hf; reflexivity|].
    split.
    { rewrite seq_app. simpl. rewrite <- Hseq, <- Hlen. reflexivity. }
    split; [lia|]. split; [lia|].
    split; [rewrite Hh2, length_app; simpl; lia|].
    split; [rewrite Hh2, take_app_le by lia; exact Htake|].
    split; [lia|].
    split.
    { intros r Hr. apply list_elem_of_singleton in Hr as ->.
      exists q. split; [|exact Hq].
      rewrite Hh2, lookup_app_r by lia. rewrite Nat.sub_diag. reflexivity. }
    split.
    { intros r Hr. destruct (Hall r Hr) as (p' & a' & Hp' & Ha' & Ht' & _).
      exists p'. rewrite Ha'. auto. }
    split.
    { intros ->. destruct Hmin as (r & _ & Hr & _). inversion Hr. }
    intros _. split; [exact Hbest|].
    destruct Hmin as (r & p' & Hr & Hp' & Ha' & Hn').
    exists r, p', (best_latency s1). split; [exact Hr|]. split; [auto|].
    split; [exact Ha'|]. split; [exact Hn'|].
    intros r' Hr'. destruct (Hall r' Hr') as (p'' & a'' & ? & ? & ? & ?).
    exists p'', a''. auto.
Qed.

(** X1.  A search that returns a thread count other than -1 returns the
    count of one of the trials it appended to the successful ones, and no
    trial it appended has a smaller average: the result is the fastest
    thread count among those probed. *)
Theorem search_returns_fastest failed successful st best failed' successful' st' :
  tuner failed successful st = Ok ((best, failed', successful'), st') ->
  best <> -1 ->
  exists passed r p a,
    successful' = successful ++ passed /\
    r ∈ passed /\ heap st' !! r = Some p /\
    name p = probe_name template name_suffix best /\ avg p = Some a /\
    forall r', r' ∈ passed ->
      exists p' a', heap st' !! r' = Some p' /\ avg p' = Some a' /\ (a <= a')%Q.
Proof.
  intros H Hbest.
  apply search_outcome in H
    as (passed & not_passed & Hs & _ & _ & _ & _ & _ & _ & _ & _ & _ & Hnone
        & Hsome).
  destruct passed as [|r0 passed]; [specialize (Hnone eq_refl); contradiction|].
  destruct (Hsome ltac:(discriminate)) as (_ & r & p & a & Hr & Hp & Ha & Hn & Hmin).
  exists (r0 :: passed), r, p, a. auto 10.
Qed.

(** X2.  A search that returns has appended every trial it created to
    exactly one of the two lists, in the order of creation: the trials with
    a truthy average to the successful ones and the trial without one, of
    which there is at most one and which is the last trial created, to the
    failed ones.  The objects that existed before are unchanged, and every
    trial took three interactions with the world. *)
Theorem search_records_every_trial failed successful st best failed' successful' st' :
  tuner failed successful st = Ok ((best, failed', successful'), st') ->
  exists passed not_passed,
    successful' = successful ++ passed /\
    failed' = failed ++ not_passed /\
    passed ++ not_passed
      = seq (length (heap st)) (length (heap st') - length (heap st)) /\
    (length not_passed <= 1)%nat /\
    take (length (heap st)) (heap st') = heap st /\
    clock st' = (clock st + 3 * (length (heap st') - length (heap st)))%nat /\
    (forall r, r ∈ passed ->
       exists p, heap st' !! r = Some p /\ truthy (avg p) = true) /\
    (forall r, r ∈ not_passed ->
       exists p, heap st' !! r = Some p /\ truthy (avg p) = false).
Proof.
  intros H.
  apply search_outcome in H
    as (passed & not_passed & Hs & Hf & Hseq & Hone & _ & Hlen & Htake & Hc
        & Hno & Hyes & _).
  exists passed, not_passed.
  replace (length (heap st') - length (heap st))%nat
    with (length passed + length not_passed)%nat by lia.
  auto 10.
Qed.

(** X3.  The thread count a search returns is -1 or lies in the range
    [2 .. upper] that line 210 fixes, and it is -1 exactly when the search
    appended no trial to the successful ones. *)
Theorem search_result_range failed successful st best failed' successful' st' :
  tuner failed successful st = Ok ((best, failed', successful'), st') ->
  (best = -1 \/ 2 <= best <= initial_upper num_cores is_omp) /\
  (best = -1 <-> successful' = successful).
Proof.
  intros H.
  apply search_outcome in H
    as (passed & not_passed & Hs & _ & _ & _ & _ & _ & _ & _ & _ & _ & Hnone
        & Hsome).
  destruct passed as [|r passed].
  - specialize (Hnone eq_refl). rewrite app_nil_r in Hs.
    split; [left; exact Hnone | split; auto].
  - destruct (Hsome ltac:(discriminate)) as (Hrange & _).
    split; [right; exact Hrange|]. split; [lia|].
    intros E. rewrite E in Hs. apply (f_equal length) in Hs.
    rewrite length_app in Hs. simpl in Hs. lia.
Qed.

(** X4.  A search that returns has made at most
    [2 * log2 num_cores + 3] trials: the baseline and two binary searches,
    one through the range above it and one through the first half. *)
Theorem search_trials_logarithmic failed successful st best failed' successful' st' :
  tuner failed successful st = Ok ((best, failed', successful'), st') ->
  Z.of_nat (length (heap st') - length (heap st)) <= 2 * Z.log2 num_cores + 3.
Proof.
  intros H.
  apply search_outcome in H
    as (passed & not_passed & _ & _ & _ & _ & Hbud & Hlen & _).
  replace (length (heap st') - length (heap st))%nat
    with (length passed + length not_passed)%nat by lia.
  assert (Hspan : forall z, z <= num_cores ->
                        Z.of_nat (span z) <= Z.log2 num_cores + 1).
  { intros z Hz. unfold span. destruct (0 <? z) eqn:E.
    - apply Z.ltb_lt in E.
      pose proof (Z.log2_le_mono z num_cores Hz). pose proof (Z.log2_nonneg z).
      lia.
    - pose proof (Z.log2_nonneg num_cores). lia. }
  unfold max_trials in Hbud.
  destruct (Z.le_gt_cases num_cores 0) as [Hn | Hn].
  - assert (E1 : span (initial_upper num_cores is_omp - 2) = 0%nat).
    { unfold span, initial_upper.
      destruct (0 <? _) eqn:E; [apply Z.ltb_lt in E; destruct is_omp; lia|].
      reflexivity. }
    assert (E2 : span ((1 + num_cores) / 2 - 2) = 0%nat).
    { unfold span. destruct (0 <? _) eqn:E; [|reflexivity].
      apply Z.ltb_lt in E.
      assert ((1 + num_cores) / 2 < 1)
        by (apply Z.div_lt_upper_bound; lia). lia. }
    rewrite E1, E2 in Hbud. pose proof (Z.log2_nonneg num_cores). lia.
  - assert (H1 : initial_upper num_cores is_omp - 2 <= num_cores)
      by (unfold initial_upper; destruct is_omp; lia).
    assert (H2 : (1 + num_cores) / 2 - 2 <= num_cores).
    { assert ((1 + num_cores) / 2 <= num_cores)
        by (apply Z.div_le_upper_bound; lia). lia. }
    pose proof (Hspan _ H1). pose proof (Hspan _ H2). lia.
Qed.

End TunerLedgerFacts.

(** ** The trial runner, continued *)

Section RunnerObject.

Context (w : World).

Lemma modify_at r f st0 st q u st' :
  heap st = <[r := q]> (heap st0) -> heap st !! r = Some q ->
  modify r f st = Ok (u, st') ->
  heap st' = <[r := f q]> (heap st0) /\ heap st' !! r = Some (f q) /\
  clock st' = clock st.
Proof.
  intros Hh Hq H. apply modify_Ok in H as (q' & Hq' & Hh' & Hc).
  rewrite Hq in Hq'. injection Hq' as <-.
  assert (Hlt : (r < length (heap st))%nat) by (eapply lookup_lt_Some; eauto).
  split; [rewrite Hh', Hh; apply list_insert_insert_eq|].
  split; [rewrite Hh'; apply list_lookup_insert_eq; exact Hlt | exact Hc].
Qed.

(** The object a completed run leaves: the trial with its command, the
    usage figures in case of a profiled run, and the result. *)
Lemma run_perf_tuning_object r percentiles st u st' :
  run_perf_tuning w r percentiles st = Ok (u, st') ->
  exists p cmd l q,
    heap st !! r = Some p /\
    trial_command w p percentiles (clock st) = Ok cmd /\
    measured_latencies w (subprocess_run w (2 + clock st) cmd (env p)) = Ok l /\
    (q = with_command p cmd \/
     percentiles = true /\ l <> [] /\
     exists g c m, q = set_usage (with_command p cmd) g c m) /\
    heap st' = <[r := set_result q (Num.sort_by (fun x => x) l)
                                   (average (Num.sort_by (fun x => x) l))]>
                 (heap st).
Proof.
  unfold run_perf_tuning. intros H. invert_M H.
  apply deref_Ok in Hstep as [Hp ->].
  apply tick_Ok in Hstep0 as (-> & Hh & Hc).
  apply lift_Ok in Hstep1 as [Hcmd ->].
  apply tick_Ok in Hstep2 as (-> & Hh1 & Hc1).
  assert (T4 : heap st4 = <[r := with_command a a1]> (heap st) /\
               heap st4 !! r = Some (with_command a a1) /\
               clock st4 = clock st3).
  { unfold with_command.
    destruct (match command a with Some c => Str.is_empty c | None => true end).
    - eapply modify_at in Hstep3; [exact Hstep3| |].
      + rewrite Hh1, Hh. symmetry. apply list_insert_id. exact Hp.
      + rewrite Hh1, Hh. exact Hp.
    - apply ret_Ok in Hstep3 as [_ ->]. rewrite Hh1, Hh.
      split; [symmetry; apply list_insert_id; exact Hp|]. auto. }
  destruct T4 as (Hh4 & Hq4 & Hc4).
  apply tick_Ok in Hstep4 as (-> & Hh5 & Hc5).
  assert (E : clock st4 = (2 + clock st)%nat) by lia.
  rewrite E in Hstep5.
  set (cp := subprocess_run w (2 + clock st) a1 (env a)) in *.
  assert (L : measured_latencies w cp = Ok a5 /\
              exists q, (q = with_command a a1 \/
                         percentiles = true /\ a5 <> [] /\
                         exists g c m, q = set_usage (with_command a a1) g c m) /\
                        heap st6 = <[r := q]> (heap st) /\
                        heap st6 !! r = Some q).
  { unfold measured_latencies.
    assert (T5 : heap st5 = <[r := with_command a a1]> (heap st) /\
                 heap st5 !! r = Some (with_command a a1))
      by (rewrite Hh5; auto).
    destruct (returncode cp =? 0);
      [destruct (result_file cp) as [lines|]|].
    - invert_M Hstep5. apply lift_Ok in Hstep as [Hl ->].
      apply ret_Ok in Hstep5 as [-> ->].
      split; [exact Hl|].
      destruct percentiles.
      + unfold profile in Hstep0. invert_M Hstep0.
        apply deref_Ok in Hstep as [_ ->].
        apply tick_Ok in Hstep1 as (_ & Hh7 & _).
        match type of Hstep0 with
        | match ?l with [] => _ | _ :: _ => _ end _ = _ =>
            destruct l as [|hint rest]; [discriminate|]
        end.
        invert_M Hstep0.
        apply tick_Ok in Hstep as (_ & Hh8 & _).
        apply lift_Ok in Hstep1 as [_ ->].
        apply tick_Ok in Hstep2 as (_ & Hh9 & _).
        eapply modify_at in Hstep0 as (Hh10 & Hq10 & _).
        * eexists. split; [right; split; [reflexivity|]; split;
                            [discriminate | eauto]|].
          split; [exact Hh10 | exact Hq10].
        * rewrite Hh9, Hh8, Hh7. apply T5.
        * rewrite Hh9, Hh8, Hh7. apply T5.
      + apply ret_Ok in Hstep0 as [_ ->].
        exists (with_command a a1). split; [left; reflexivity | exact T5].
    - apply ret_Ok in Hstep5 as [-> ->].
      split; [reflexivity|].
      exists (with_command a a1). split; [left; reflexivity | exact T5].
    - apply ret_Ok in Hstep5 as [-> ->].
      split; [reflexivity|].
      exists (with_command a a1). split; [left; reflexivity | exact T5]. }
  destruct L as (Hl & q & Hq & Hh6 & Hq6).
  eapply modify_at in H as (Hh7 & _); [|exact Hh6 | exact Hq6].
  exists a, a1, a5, q. auto.
Qed.

Lemma same_setup_with_command p cmd : same_setup p (with_command p cmd).
Proof.
  unfold with_command, same_setup.
  destruct (match command p with Some c => _ | None => _ end); simpl; auto 10.
Qed.

(** X5.  A run that returns changes one object, the trial
    it was given, and of that trial only the fields that hold results: the
    name, the description, the path, the executable, the environment, the
    arguments and the provider stay as they were. *)
Theorem run_perf_tuning_frame r percentiles st st' p :
  run_perf_tuning w r percentiles st = Ok (tt, st') ->
  heap st !! r = Some p ->
  length (heap st') = length (heap st) /\
  (forall r', r' <> r -> heap st' !! r' = heap st !! r') /\
  exists p', heap st' !! r = Some p' /\ same_setup p p'.
Proof.
  intros H Hp.
  apply run_perf_tuning_object in H as (p0 & cmd & l & q & Hp0 & _ & _ & Hq & Hh).
  rewrite Hp in Hp0. injection Hp0 as <-.
  assert (Hlt : (r < length (heap st))%nat) by (eapply lookup_lt_Some; eauto).
  rewrite Hh. split; [apply length_insert|]. split.
  - intros r' Hne. apply list_lookup_insert_ne. congruence.
  - eexists. split; [apply list_lookup_insert_eq; exact Hlt|].
    pose proof (same_setup_with_command p cmd) as S.
    destruct Hq as [-> | (_ & _ & g & c & m & ->)]; exact S.
Qed.

Lemma trial_command_length p percentiles k cmd :
  trial_command w p percentiles k = Ok cmd -> (2 <= length cmd)%nat.
Proof.
  unfold trial_command. destruct percentiles.
  - intros H. injection H as <-. unfold get_percentiles_args.
    rewrite length_app. simpl. lia.
  - unfold get_args. destruct (get_common_args p); try discriminate. simpl.
    intros H. injection H as <-. rewrite !length_app. simpl. lia.
Qed.

Lemma join_nonempty sep l :
  (2 <= length l)%nat -> Str.is_empty sep = false ->
  Str.is_empty (Str.join sep l) = false.
Proof.
  destruct l as [|a [|b l]]; simpl; try lia. intros _ Hsep.
  destruct a; [|reflexivity]. simpl. destruct sep; [discriminate | reflexivity].
Qed.

(** X6.  The command of a trial is written once: the first
    run of a trial without a command records the command line it executes,
    and a later run of the trial, such as the re-profiling run with its
    200 repetitions, leaves that record as it is. *)
Theorem command_written_once r first second st st1 st2 p cmd :
  heap st !! r = Some p -> command p = None ->
  trial_command w p first (clock st) = Ok cmd ->
  run_perf_tuning w r first st = Ok (tt, st1) ->
  run_perf_tuning w r second st1 = Ok (tt, st2) ->
  exists p1 p2,
    heap st1 !! r = Some p1 /\ heap st2 !! r = Some p2 /\
    command p1 = Some (Str.join " " cmd) /\
    command p2 = Some (Str.join " " cmd).
Proof.
  intros Hp Hnone Hcmd H1 H2.
  assert (Hlt : (r < length (heap st))%nat) by (eapply lookup_lt_Some; eauto).
  apply run_perf_tuning_object in H1
    as (p0 & cmd0 & l & q & Hp0 & Hcmd0 & _ & Hq & Hh).
  rewrite Hp in Hp0. injection Hp0 as <-.
  rewrite Hcmd in Hcmd0. injection Hcmd0 as <-.
  set (p1 := set_result q _ _) in Hh.
  assert (Hp1 : heap st1 !! r = Some p1).
  { rewrite Hh. apply list_lookup_insert_eq. exact Hlt. }
  assert (C1 : command p1 = Some (Str.join " " cmd)).
  { assert (C : command (with_command p cmd) = Some (Str.join " " cmd))
      by (unfold with_command; rewrite Hnone; reflexivity).
    destruct Hq as [-> | (_ & _ & g & c & m & ->)]; exact C. }
  apply run_perf_tuning_object in H2
    as (p1' & cmd2 & l2 & q2 & Hp1' & Hcmd2 & _ & Hq2 & Hh2).
  rewrite Hp1 in Hp1'. injection Hp1' as <-.
  exists p1, (set_result q2 (Num.sort_by (fun x => x) l2)
                         (average (Num.sort_by (fun x => x) l2))).
  split; [exact Hp1|]. split.
  { rewrite Hh2. apply list_lookup_insert_eq. rewrite Hh, length_insert. exact Hlt. }
  split; [exact C1|].
  assert (C : command (with_command p1 cmd2) = Some (Str.join " " cmd)).
  { unfold with_command. rewrite C1.
    rewrite join_nonempty; [exact C1 | | reflexivity].
    eapply trial_command_length. exact Hcmd. }
  destruct Hq2 as [-> | (_ & _ & g & c & m & ->)]; exact C.
Qed.

(** X7.  A run whose measured execution
    exits with a non-zero code or leaves no result file does not raise: it
    returns after its three interactions with the world and leaves the
    trial without an average and without latencies. *)
Theorem failed_run_returns_without_average r percentiles st p cmd :
  heap st !! r = Some p ->
  trial_command w p percentiles (clock st) = Ok cmd ->
  returncode (subprocess_run w (2 + clock st) cmd (env p)) <> 0 \/
  result_file (subprocess_run w (2 + clock st) cmd (env p)) = None ->
  exists st' p',
    run_perf_tuning w r percentiles st = Ok (tt, st') /\
    heap st' !! r = Some p' /\ avg p' = None /\ latencies p' = [] /\
    clock st' = (3 + clock st)%nat.
Proof.
  intros Hp Hcmd Hfail.
  assert (Hr : (r < length (heap st))%nat) by (eapply lookup_lt_Some; exact Hp).
  unfold run_perf_tuning, trial_command in *.
  unfold bind at 1. unfold deref. rewrite Hp.
  unfold bind at 1. unfold tick at 1. cbn [clock heap].
  unfold bind at 1. unfold lift at 1. rewrite Hcmd.
  unfold bind at 1. unfold tick at 1. cbn [clock heap].
  set (h1 := if match command p with Some c => Str.is_empty c | None => true end
             then <[r := set_command p (Some (Str.join " " cmd))]> (heap st)
             else heap st).
  assert (Hh1 : (r < length h1)%nat).
  { unfold h1. destruct (match command p with Some c => _ | None => _ end);
      [rewrite length_insert|]; exact Hr. }
  unfold bind at 1.
  replace ((if match command p with Some c => Str.is_empty c | None => true end
            then modify r (fun p0 => set_command p0 (Some (Str.join " " cmd)))
            else ret ()) {| heap := heap st; clock := S (S (clock st)) |})
    with (Ok (tt, {| heap := h1; clock := S (S (clock st)) |})).
  2:{ unfold h1. destruct (match command p with Some c => _ | None => _ end);
        [unfold modify; cbn [heap clock]; rewrite Hp|]; reflexivity. }
  unfold bind at 1. unfold tick at 1. cbn [clock heap].
  change (2 + clock st)%nat with (S (S (clock st))) in Hfail.
  destruct (lookup_lt_is_Some_2 _ _ Hh1) as [q Hq].
  unfold bind at 1.
  assert (E : (match returncode (subprocess_run w (S (S (clock st))) cmd (env p)) =? 0,
                     result_file (subprocess_run w (S (S (clock st))) cmd (env p)) with
               | true, Some lines =>
                   let* latencies := lift (parse_latencies w lines)
                   in do (if percentiles
                          then profile w r
                                 (path_join w (result (args p)) (uuid4 w (clock st)))
                                 latencies
                          else ret ())
                      then ret latencies
               | _, _ => ret []
               end) = ret []).
  { destruct Hfail as [Hrc | Hno].
    - apply Z.eqb_neq in Hrc. rewrite Hrc. reflexivity.
    - rewrite Hno. destruct (_ =? 0); reflexivity. }
  rewrite E. unfold ret, modify. cbn [heap clock]. rewrite Hq.
  eexists _, _. split; [reflexivity|]. cbn [heap clock].
  split; [apply list_lookup_insert_eq; exact Hh1|]. repeat split.
Qed.

(** X8.  In a mode other than [times], a ranking run of a
    trial whose arguments came from the command line, and so have no
    attribute [duration_time], raises [AttributeError] before any process
    is started. *)
Theorem duration_mode_raises r st p :
  heap st !! r = Some p ->
  test_mode (args p) <> "times"%string ->
  duration_time (args p) = None ->
  run_perf_tuning w r false st = Raise AttributeError.
Proof.
  intros Hp Hmode Hno.
  unfold run_perf_tuning.
  unfold bind at 1. unfold deref. rewrite Hp.
  unfold bind at 1. unfold tick at 1. cbn [clock heap].
  unfold bind at 1. unfold lift at 1.
  unfold get_args, get_common_args.
  apply String.eqb_neq in Hmode. rewrite Hmode, Hno. reflexivity.
Qed.

Lemma mapM_cons {A B} (f : A -> option B) x l :
  mapM f (x :: l)
  = match f x with
    | Some y => match mapM f l with
                | Some k => Some (y :: k)
                | None => None
                end
    | None => None
    end.
Proof. simpl. destruct (f x); simpl; [destruct (mapM f l)|]; reflexivity. Qed.

(** X9.  The latencies read from a result file are the
    second fields of its lines of five comma-separated fields, in the order
    of the file and converted by [float]; all other lines are skipped.  The
    only exception the loop raises is the [ValueError] of [float]. *)
Theorem parse_latencies_spec lines :
  parse_latencies w lines
  = match mapM (latency_of w) (List.filter is_record lines) with
    | Some l => Ok l
    | None => Raise ValueError
    end.
Proof.
  induction lines as [|line rest IH]; [reflexivity|].
  cbn [parse_latencies List.filter].
  change (Str.split_comma (Str.strip line)) with (fields line).
  change (length (fields line) =? 5)%nat with (is_record line).
  destruct (is_record line) eqn:E; [|exact IH].
  rewrite mapM_cons. unfold latency_of at 1.
  destruct (fields line !! 1%nat) as [t|] eqn:Ht.
  - destruct (float w t) as [x|]; [|reflexivity].
    rewrite IH.
    destruct (mapM (latency_of w) (List.filter is_record rest)); reflexivity.
  - apply Nat.eqb_eq in E. apply lookup_ge_None in Ht. lia.
Qed.

Lemma bind_cong {A B} (m1 m2 : M A) (k1 k2 : A -> M B) st :
  m1 st = m2 st ->
  (forall a st', m2 st = Ok (a, st') -> k1 a st' = k2 a st') ->
  bind m1 k1 st = bind m2 k2 st.
Proof.
  intros Hm Hk. unfold bind. rewrite Hm.
  destruct (m2 st) as [[a st']| |]; [apply Hk|..]; reflexivity.
Qed.

Lemma parse_latencies_with_subprocess_run run lines :
  parse_latencies (with_subprocess_run w run) lines = parse_latencies w lines.
Proof.
  induction lines as [|line rest IH]; [reflexivity|].
  simpl. rewrite IH. reflexivity.
Qed.

(** X10.  The outcome of the warm-up execution has no
    influence: a run in a world that differs only in what the child process
    started second (the warm-up, at time [1 + clock]) does or leaves
    behind ends in the same way and in the same state. *)
Theorem warmup_is_discarded run r percentiles st :
  (forall k cmd e, k <> S (clock st) -> run k cmd e = subprocess_run w k cmd e) ->
  run_perf_tuning (with_subprocess_run w run) r percentiles st
  = run_perf_tuning w r percentiles st.
Proof.
  intros Hrun. unfold run_perf_tuning.
  apply bind_cong; [reflexivity|]. intros p st1 H1.
  apply deref_Ok in H1 as [_ ->].
  apply bind_cong; [reflexivity|]. intros k st2 H2.
  apply tick_Ok in H2 as (-> & _ & Hc2).
  apply bind_cong; [reflexivity|]. intros cmd st3 H3.
  apply lift_Ok in H3 as [_ ->].
  apply bind_cong; [reflexivity|]. intros k st4 H4.
  apply tick_Ok in H4 as (-> & _ & Hc4).
  cbv zeta.
  apply bind_cong; [reflexivity|]. intros u st5 H5.
  assert (Hc5 : clock st5 = clock st4).
  { destruct (match command p with Some c => _ | None => _ end).
    - apply modify_Ok in H5 as (_ & _ & _ & Hc). exact Hc.
    - apply ret_Ok in H5 as [_ ->]. reflexivity. }
  apply bind_cong; [reflexivity|]. intros k st6 H6.
  apply tick_Ok in H6 as (-> & _ & _).
  change (subprocess_run (with_subprocess_run w run)) with run.
  rewrite Hrun by lia.
  apply bind_cong; [|reflexivity].
  destruct (returncode _ =? 0); [|reflexivity].
  destruct (result_file _) as [lines|]; [|reflexivity].
  apply bind_cong; [rewrite parse_latencies_with_subprocess_run; reflexivity|].
  intros l st7 H7.
  apply bind_cong; [|reflexivity].
  destruct percentiles; [|reflexivity].
  unfold profile.
  apply bind_cong; [reflexivity|]. intros q st8 H8.
  apply bind_cong; [reflexivity|]. intros k st9 H9.
  destruct l as [|hint l]; reflexivity.
Qed.

(** X11.  The latencies a completed run leaves in the trial are
    those it read from the result file, each as often as it was read, in
    ascending order. *)
Theorem latencies_sorted r percentiles st st' :
  run_perf_tuning w r percentiles st = Ok (tt, st') ->
  exists p cmd l p',
    heap st !! r = Some p /\
    trial_command w p percentiles (clock st) = Ok cmd /\
    measured_latencies w (subprocess_run w (2 + clock st) cmd (env p)) = Ok l /\
    heap st' !! r = Some p' /\
    latencies p' ≡ₚ l /\ ascending (fun x => x) (latencies p').
Proof.
  intros H. apply run_perf_tuning_Ok in H
    as (p & cmd & l & p' & Hp & Hcmd & Hl & _ & Hp' & Hlat & _).
  exists p, cmd, l, p'. repeat (split; [assumption|]).
  rewrite Hlat. split; [apply sort_by_Permutation | apply sort_by_ascending].
Qed.

End RunnerObject.

(** ** Numbers, continued *)

Section RoundingFacts.

Open Scope Q_scope.

Lemma round_half_even_error x :
  x - (1 # 2) <= inject_Z (Num.round_half_even x) <= x + (1 # 2).
Proof.
  unfold Num.round_half_even.
  pose proof (Qfloor_le x) as Hlo. pose proof (Qlt_floor x) as Hhi.
  rewrite inject_Z_plus in Hhi. change (inject_Z 1) with 1 in Hhi.
  destruct (Qcompare_spec (x - inject_Z (Qfloor x)) (1 # 2)) as [E | L | G].
  - destruct (Z.even (Qfloor x)); [|rewrite inject_Z_plus; change (inject_Z 1) with 1]; lra.
  - lra.
  - rewrite inject_Z_plus. change (inject_Z 1) with 1. lra.
Qed.

Lemma round_half_even_mono x y :
  x <= y -> (Num.round_half_even x <= Num.round_half_even y)%Z.
Proof.
  intros Hxy.
  pose proof (Qfloor_resp_le _ _ Hxy) as Hf.
  destruct (Z.eq_dec (Qfloor x) (Qfloor y)) as [E | N].
  - unfold Num.round_half_even. rewrite E.
    destruct (Qcompare_spec (x - inject_Z (Qfloor y)) (1 # 2)) as [Ex | Lx | Gx];
      destruct (Qcompare_spec (y - inject_Z (Qfloor y)) (1 # 2)) as [Ey | Ly | Gy];
      try destruct (Z.even (Qfloor y)); try lia; lra.
  - assert (Hx : (Num.round_half_even x <= Qfloor x + 1)%Z).
    { unfold Num.round_half_even.
      destruct (Qcompare _ _); [destruct (Z.even _)| |]; lia. }
    assert (Hy : (Qfloor y <= Num.round_half_even y)%Z).
    { unfold Num.round_half_even.
      destruct (Qcompare _ _); [destruct (Z.even _)| |]; lia. }
    lia.
Qed.

Lemma pow10_pos n : 0 < Num.pow10 n.
Proof.
  unfold Num.pow10. change 0 with (inject_Z 0). rewrite <- Zlt_Qlt.
  apply Z.pow_pos_nonneg; lia.
Qed.

Lemma round_mono x y n : x <= y -> Num.round x n <= Num.round y n.
Proof.
  intros Hxy. unfold Num.round. pose proof (pow10_pos n) as P.
  apply Qle_shift_div_l; [exact P|].
  unfold Qdiv. rewrite <- Qmult_assoc, (Qmult_comm (/ _)), Qmult_inv_r, Qmult_1_r
    by (intros E; rewrite E in P; discriminate).
  rewrite <- Zle_Qle. apply round_half_even_mono.
  apply Qmult_le_compat_r; [exact Hxy | apply Qlt_le_weak; exact P].
Qed.

(** Rounding to [n] places moves a number by at most half a unit of the
    last place. *)
Lemma round_error x n :
  x - (1 # 2) / Num.pow10 n <= Num.round x n <= x + (1 # 2) / Num.pow10 n.
Proof.
  unfold Num.round. pose proof (pow10_pos n) as P.
  pose proof (round_half_even_error (x * Num.pow10 n)) as [Hlo Hhi].
  assert (Hne : ~ Num.pow10 n == 0) by (intros E; rewrite E in P; discriminate).
  split.
  - apply Qle_shift_div_l; [exact P|].
    assert (E : (x - (1 # 2) / Num.pow10 n) * Num.pow10 n
                == x * Num.pow10 n - (1 # 2)) by (field; exact Hne).
    rewrite E. exact Hlo.
  - apply Qle_shift_div_r; [exact P|].
    assert (E : (x + (1 # 2) / Num.pow10 n) * Num.pow10 n
                == x * Num.pow10 n + (1 # 2)) by (field; exact Hne).
    rewrite E. exact Hhi.
Qed.

(** X12.  The average of a trial, which is in milliseconds,
    differs from the mean of its latencies, which are in seconds, times
    1000 by at most half a millionth of a millisecond.  Numbers are exact
    rationals here; the error of floating-point arithmetic comes on top. *)
Theorem average_error l a :
  average l = Some a ->
  let mean := Num.sum l / Num.len l in
  mean * 1000 - (1 # 2000000) <= a <= mean * 1000 + (1 # 2000000).
Proof.
  unfold average. destruct (0 <? length l)%nat; [|discriminate].
  intros H. injection H as <-. cbv zeta.
  pose proof (round_error (Num.sum l / Num.len l) 9) as [Hlo Hhi].
  change ((1 # 2) / Num.pow10 9) with (1 # 2000000000) in Hlo, Hhi.
  lra.
Qed.

End RoundingFacts.

Lemma ascending_lookup (l : list Q) i j x y :
  ascending (fun x => x) l -> (i <= j)%nat ->
  l !! i = Some x -> l !! j = Some y -> (x <= y)%Q.
Proof.
  unfold ascending. intros S. revert i j x y.
  induction S as [|z l S IH F]; intros i j x y Hij Hi Hj; [discriminate|].
  destruct i as [|i], j as [|j]; simpl in Hi, Hj; try lia.
  - injection Hi as <-. injection Hj as <-. apply Qle_refl.
  - injection Hi as <-. rewrite Forall_forall in F. apply F.
    eapply list_elem_of_lookup_2. exact Hj.
  - eapply IH; [|exact Hi | exact Hj]. lia.
Qed.

(** X13.  In the record of a trial that a run completed, the
    90th percentile is at most the 95th. *)
Theorem percentiles_ordered (w : World) r percentiles st st' p' record a b :
  run_perf_tuning w r percentiles st = Ok (tt, st') ->
  heap st' !! r = Some p' ->
  json_record p' = Ok record ->
  json_p90 record = Some a -> json_p95 record = Some b ->
  (a <= b)%Q.
Proof.
  intros H Hp' Hrec Ha Hb.
  apply run_perf_tuning_sorts in H as (q & Hq & Hasc).
  rewrite Hp' in Hq. injection Hq as <-.
  unfold json_record in Hrec.
  set (n := Z.of_nat (length (latencies p'))) in *.
  destruct (10 <=? n) eqn:N90.
  2:{ simpl in Hrec. destruct (if 20 <=? n then _ else _); try discriminate.
      simpl in Hrec. injection Hrec as <-. discriminate Ha. }
  destruct (latencies p' !! Z.to_nat (n * 9 / 10)) as [x|] eqn:Hx;
    [|discriminate].
  simpl in Hrec.
  destruct (20 <=? n) eqn:N95.
  2:{ simpl in Hrec. injection Hrec as <-. discriminate Hb. }
  destruct (latencies p' !! Z.to_nat (n * 95 / 100)) as [y|] eqn:Hy;
    [|discriminate].
  simpl in Hrec. injection Hrec as <-. simpl in Ha, Hb.
  injection Ha as <-. injection Hb as <-.
  apply Z.leb_le in N90, N95.
  apply round_mono. apply Qmult_le_compat_r; [|discriminate].
  eapply ascending_lookup; [exact Hasc| |exact Hx|exact Hy].
  apply Z2Nat.inj_le; try (apply Z.div_pos; lia).
  replace (n * 9 / 10) with (n * 90 / 100).
  - apply Z.div_le_mono; lia.
  - replace (n * 90) with (n * 9 * 10) by lia.
    change 100 with (10 * 10). apply Z.div_mul_cancel_r; lia.
Qed.

(** ** Dictionaries *)

Lemma dict_get_set_ne d k v k' :
  k <> k' -> Dict.get (Dict.set d k v) k' = Dict.get d k'.
Proof.
  intros Hne. induction d as [|[k0 v0] d IH]; simpl.
  - apply String.eqb_neq in Hne. rewrite Hne. reflexivity.
  - destruct (String.eqb k0 k) eqn:E; simpl.
    + apply String.eqb_eq in E. subst k0.
      apply String.eqb_neq in Hne. rewrite Hne. reflexivity.
    + destruct (String.eqb k0 k'); [reflexivity | exact IH].
Qed.

Lemma dict_get_pop d k k' :
  Dict.get (Dict.pop d k) k'
  = if String.eqb k k' then None else Dict.get d k'.
Proof.
  unfold Dict.pop. induction d as [|[k0 v0] d IH]; simpl.
  - destruct (String.eqb k k'); reflexivity.
  - destruct (String.eqb k0 k) eqn:E; simpl.
    + apply String.eqb_eq in E. subst k0. rewrite IH.
      destruct (String.eqb k k'); reflexivity.
    + rewrite IH. destruct (String.eqb k0 k') eqn:E'; [|reflexivity].
      apply String.eqb_eq in E'. subst k0. rewrite String.eqb_sym, E. reflexivity.
Qed.

Lemma dict_get_None d k : Dict.get d k = None <-> k ∉ Dict.keys d.
Proof.
  unfold Dict.keys. induction d as [|[k0 v0] d IH]; simpl.
  - split; [intros _ H; inversion H | reflexivity].
  - rewrite not_elem_of_cons. destruct (String.eqb k0 k) eqn:E.
    + apply String.eqb_eq in E. subst k0. split; [discriminate | intros [N _]; contradiction].
    + apply String.eqb_neq in E. rewrite IH. split; [auto | intros [_ H]; exact H].
Qed.

(** [update] with a dictionary gives every key of it the value it has
    there and leaves the other keys alone. *)
Lemma dict_get_update d e k :
  NoDup (Dict.keys e) ->
  Dict.get (Dict.update d e) k
  = match Dict.get e k with
    | Some v => Some v
    | None => Dict.get d k
    end.
Proof.
  unfold Dict.update. revert d. induction e as [|[k0 v0] e IH]; intros d Hnd;
    simpl; [reflexivity|].
  apply NoDup_cons in Hnd as [Hk0 Hnd]. simpl in Hk0. rewrite IH by exact Hnd.
  destruct (String.eqb k0 k) eqn:E.
  - apply String.eqb_eq in E. subst k0.
    apply dict_get_None in Hk0. rewrite Hk0. apply dict_get_set.
  - apply String.eqb_neq in E.
    destruct (Dict.get e k); [reflexivity|]. apply dict_get_set_ne. exact E.
Qed.

(** ** The trial specification *)

(** Lines 39-40: the two OpenMP variables are removed. *)
Lemma dict_get_cleared d k :
  Dict.get (Dict.pop (Dict.pop d "OMP_WAIT_POLICY") "OMP_NUM_THREADS") k
  = if String.eqb "OMP_NUM_THREADS" k || String.eqb "OMP_WAIT_POLICY" k
    then None else Dict.get d k.
Proof.
  rewrite !dict_get_pop.
  destruct (String.eqb "OMP_NUM_THREADS" k); [reflexivity|].
  destruct (String.eqb "OMP_WAIT_POLICY" k); reflexivity.
Qed.

(** X14.  The environment of a new trial is the ambient one
    with the overrides on top: a variable that the overrides give has
    their value; of the others, [OMP_WAIT_POLICY] and [OMP_NUM_THREADS]
    are unset whatever the ambient environment says, [LD_LIBRARY_PATH] is
    the build path off Windows, and the rest is inherited. *)
Theorem init_environment (w : World) (provider_path name desc path : string)
    (flags : list string) (e : dict) (a : Args) (provider k : string) :
  NoDup (Dict.keys e) ->
  Dict.get (env (PerfTestParams_init w provider_path name desc path flags e a
                   provider)) k
  = match Dict.get e k with
    | Some v => Some v
    | None =>
        if String.eqb "OMP_NUM_THREADS" k || String.eqb "OMP_WAIT_POLICY" k
        then None
        else if negb (is_windows w) && String.eqb "LD_LIBRARY_PATH" k
        then Some provider_path
        else Dict.get (environ w) k
    end.
Proof.
  intros Hnd. unfold PerfTestParams_init. cbn [env].
  rewrite dict_get_update by exact Hnd.
  destruct (Dict.get e k); [reflexivity|].
  rewrite dict_get_cleared.
  destruct (String.eqb "OMP_NUM_THREADS" k || String.eqb "OMP_WAIT_POLICY" k);
    [reflexivity|].
  destruct (is_windows w); cbn [negb andb]; [reflexivity|].
  destruct (String.eqb "LD_LIBRARY_PATH" k) eqn:E.
  - apply String.eqb_eq in E. subst k. apply dict_get_set.
  - apply String.eqb_neq in E. apply dict_get_set_ne. exact E.
Qed.

(** X15.  The trial of a search for [n] threads takes the
    arguments of the template and sets the thread count in one of three
    ways: by [-y n] when the inter-op threads are tuned, by [-x n] for a
    provider without OpenMP, and by [OMP_NUM_THREADS=n] next to [-x 1] for
    one with OpenMP.  Only in the last case does the trial run with
    [OMP_NUM_THREADS] set, unless the template asks for it. *)
Theorem probe_thread_setting (w : World) (provider provider_path : string)
    (template : PerfTestParams) (name_suffix desc_suffix : string)
    (is_omp tune_inter_ops : bool) (n : Z) :
  NoDup (Dict.keys (env_to_set template)) ->
  let p := make_probe w provider provider_path template name_suffix
                      desc_suffix is_omp tune_inter_ops n in
  test_args p
  = test_args template
      ++ (if tune_inter_ops then ["-y"; Str.of_Z n]
          else if is_omp then ["-x"; "1"] else ["-x"; Str.of_Z n])%string /\
  env_to_set p
  = (if negb tune_inter_ops && is_omp
     then Dict.set (env_to_set template) "OMP_NUM_THREADS" (Str.of_Z n)
     else env_to_set template) /\
  Dict.get (env p) "OMP_NUM_THREADS"
  = (if negb tune_inter_ops && is_omp then Some (Str.of_Z n)
     else Dict.get (env_to_set template) "OMP_NUM_THREADS").
Proof.
  intros Hnd. cbv zeta. unfold make_probe.
  assert (E : forall flags,
             Dict.get (env (PerfTestParams_init w provider_path
                              (name template +:+ Str.of_Z n +:+ name_suffix)
                              (desc template +:+ Str.of_Z n +:+ desc_suffix)
                              (path template) flags (env_to_set template)
                              (args template) provider)) "OMP_NUM_THREADS"
             = Dict.get (env_to_set template) "OMP_NUM_THREADS").
  { intros flags. unfold PerfTestParams_init. cbn [env].
    rewrite dict_get_update by exact Hnd.
    destruct (Dict.get (env_to_set template) "OMP_NUM_THREADS"); [reflexivity|].
    rewrite dict_get_cleared. reflexivity. }
  destruct tune_inter_ops; [|destruct is_omp]; cbn [negb andb];
    (split; [reflexivity|]); (split; [reflexivity|]).
  - apply E.
  - cbn [set_test_args updateEnv env Dict.update fold_left fst snd].
    apply dict_get_set.
  - apply E.
Qed.

(** ** The environment combinations, continued *)

Lemma flat_map_singleton {A} (l : list A) : List.flat_map (fun x => [x]) l = l.
Proof. induction l as [|x l IH]; simpl; [|rewrite IH]; reflexivity. Qed.

Lemma flat_map_flat_map {A B C} (f : B -> list C) (g : A -> list B) l :
  List.flat_map f (List.flat_map g l)
  = List.flat_map (fun x => List.flat_map f (g x)) l.
Proof.
  induction l as [|x l IH]; simpl; [reflexivity|].
  rewrite flat_map_app, IH. reflexivity.
Qed.

Lemma flat_map_map {A B C} (f : B -> list C) (g : A -> B) l :
  List.flat_map f (List.map g l) = List.flat_map (fun x => f (g x)) l.
Proof. induction l as [|x l IH]; simpl; [|rewrite IH]; reflexivity. Qed.

Lemma map_flat_map {A B C} (f : B -> C) (g : A -> list B) l :
  List.map f (List.flat_map g l) = List.flat_map (fun x => List.map f (g x)) l.
Proof.
  induction l as [|x l IH]; simpl; [reflexivity|].
  rewrite List.map_app, IH. reflexivity.
Qed.

Lemma flat_map_nil {A B} (l : list A) :
  List.flat_map (fun _ => @nil B) l = [].
Proof. induction l as [|x l IH]; simpl; [|rewrite IH]; reflexivity. Qed.

Lemma extend_combos_nonempty all_combos o :
  all_combos <> [] -> o <> [] -> extend_combos all_combos o <> [].
Proof.
  intros Ha Ho E. apply (f_equal length) in E.
  rewrite length_extend_combos in E by exact Ha.
  destruct all_combos; [contradiction|]. destruct o; [contradiction|].
  simpl in E. lia.
Qed.

Lemma fold_extend_product options : forall all_combos,
  all_combos <> [] -> Forall (fun o => o <> []) options ->
  fold_left extend_combos options all_combos
  = List.flat_map (fun c => List.map (app c) (product options)) all_combos.
Proof.
  induction options as [|o options IH]; intros all_combos Hne Hall; simpl.
  - rewrite <- (flat_map_singleton all_combos) at 1.
    apply flat_map_ext. intros c. rewrite app_nil_r. reflexivity.
  - apply Forall_cons in Hall as [Ho Hall].
    rewrite IH; [|apply extend_combos_nonempty; assumption | exact Hall].
    unfold extend_combos. destruct all_combos as [|c0 cs]; [contradiction|].
    change (length (c0 :: cs) =? 0)%nat with false. cbv iota.
    rewrite flat_map_flat_map. apply flat_map_ext. intros c.
    rewrite flat_map_map, map_flat_map. apply flat_map_ext. intros x.
    rewrite List.map_map. apply List.map_ext. intros t.
    rewrite <- app_assoc. reflexivity.
Qed.

Lemma product_Forall2 options combo :
  combo ∈ product options <-> Forall2 (fun o v => v ∈ o) options combo.
Proof.
  revert combo. induction options as [|o options IH]; intros combo; simpl.
  - rewrite list_elem_of_singleton. split.
    + intros ->. constructor.
    + intros H. inversion H. reflexivity.
  - rewrite list_elem_of_In, in_flat_map. split.
    + intros (x & Hx & Hin). apply in_map_iff in Hin as (t & <- & Ht).
      constructor; [apply list_elem_of_In; exact Hx|].
      apply IH, list_elem_of_In. exact Ht.
    + intros H. inversion H as [|? x ? t Hx Ht]; subst.
      exists x. split; [apply list_elem_of_In; exact Hx|].
      apply in_map_iff. exists t. split; [reflexivity|].
      apply list_elem_of_In, IH. exact Ht.
Qed.

Lemma combos_product (d : list (string * list string)) :
  d <> [] -> Forall (fun kv => snd kv <> []) d ->
  get_env_var_combos (Some d) = product (List.map snd d).
Proof.
  intros Hne Hall. unfold get_env_var_combos.
  destruct d as [|[k o] d]; [contradiction|]. simpl.
  apply Forall_cons in Hall as [Ho Hall]. simpl in Ho.
  change (extend_combos [] o) with (List.map (fun x => [x]) o).
  rewrite fold_extend_product.
  - rewrite flat_map_map. reflexivity.
  - destruct o; [contradiction | discriminate].
  - apply Forall_map. exact Hall.
Qed.

Lemma combos_length (d : list (string * list string)) combo :
  d <> [] -> Forall (fun kv => snd kv <> []) d ->
  combo ∈ get_env_var_combos (Some d) -> length combo = length d.
Proof.
  intros Hne Hall Hin. rewrite combos_product in Hin by assumption.
  apply product_Forall2, Forall2_length in Hin.
  rewrite length_map in Hin. symmetry. exact Hin.
Qed.

Lemma combos_skip_empty (d1 d2 : list (string * list string)) (k : string) :
  get_env_var_combos (Some (d1 ++ (k, []) :: d2)) = get_env_var_combos (Some d2).
Proof.
  unfold get_env_var_combos. rewrite List.map_app. simpl.
  rewrite fold_left_app. simpl. f_equal.
  unfold extend_combos. destruct (length _ =? 0)%nat; [reflexivity|].
  apply flat_map_nil.
Qed.

(** X16.  For one or more variables, each with a non-empty
    list of candidate values, the combinations are the Cartesian product of
    the lists in lexicographic order: a list of values is a combination
    exactly when it has one value for every variable, taken from the list
    of that variable. *)
Theorem combos_are_product (d : list (string * list string)) :
  d <> [] -> Forall (fun kv => snd kv <> []) d ->
  get_env_var_combos (Some d) = product (List.map snd d) /\
  forall combo,
    combo ∈ get_env_var_combos (Some d) <->
    Forall2 (fun kv v => v ∈ snd kv) d combo.
Proof.
  intros Hne Hall.
  pose proof (combos_product d Hne Hall) as E.
  split; [exact E|].
  intros combo. rewrite E, product_Forall2.
  rewrite Forall2_fmap_l. reflexivity.
Qed.



Lemma dict_set_fresh d k v :
  k ∉ Dict.keys d -> Dict.set d k v = d ++ [(k, v)].
Proof.
  unfold Dict.keys. induction d as [|[k0 v0] d IH]; simpl; intros H; [reflexivity|].
  apply not_elem_of_cons in H as [Hne H].
  destruct (String.eqb k0 k) eqn:E.
  - apply String.eqb_eq in E. congruence.
  - rewrite IH by exact H. reflexivity.
Qed.

Lemma nonempty_length (o : string) :
  (0 <? String.length o)%nat = negb (Str.is_empty o).
Proof. destruct o; reflexivity. Qed.

(** The loop of [gen_env_var_dict] from the index [i] on, when there is a
    value for every name. *)
Lemma gen_fold (env_names env_option : list string) k : forall i acc,
  (i + k = length env_names)%nat ->
  (length env_names <= length env_option)%nat ->
  fold_left
    (fun (acc : res dict) (i : nat) =>
       res_bind acc (fun env_var_dict =>
         match env_names !! i, env_option !! i with
         | Some n, Some o =>
             if (0 <? String.length o)%nat
             then Ok (Dict.set env_var_dict n o)
             else Ok env_var_dict
         | _, _ => Raise IndexError
         end))
    (seq i k) (Ok acc)
  = Ok (fold_left
          (fun d kv => if negb (Str.is_empty (snd kv))
                       then Dict.set d (fst kv) (snd kv) else d)
          (zip (drop i env_names) (drop i env_option)) acc).
Proof.
  induction k as [|k IH]; intros i acc Hi Hle.
  - simpl. rewrite drop_ge by lia. reflexivity.
  - destruct (lookup_lt_is_Some_2 env_names i ltac:(lia)) as [n Hn].
    destruct (lookup_lt_is_Some_2 env_option i ltac:(lia)) as [o Ho].
    rewrite (drop_S _ _ _ Hn), (drop_S _ _ _ Ho).
    cbn [seq fold_left zip zip_with res_bind fst snd]. rewrite Hn, Ho.
    rewrite nonempty_length.
    destruct (negb (Str.is_empty o)); apply IH; lia.
Qed.

(** The same loop when the values may run out: it does not fail before
    they do. *)
Lemma gen_fold_Ok (env_names env_option : list string) k : forall i acc,
  (i + k <= length env_names)%nat -> (i + k <= length env_option)%nat ->
  exists d,
    fold_left
      (fun (acc : res dict) (i : nat) =>
         res_bind acc (fun env_var_dict =>
           match env_names !! i, env_option !! i with
           | Some n, Some o =>
               if (0 <? String.length o)%nat
               then Ok (Dict.set env_var_dict n o)
               else Ok env_var_dict
           | _, _ => Raise IndexError
           end))
      (seq i k) (Ok acc)
    = Ok d.
Proof.
  induction k as [|k IH]; intros i acc Hi Hle.
  - exists acc. reflexivity.
  - destruct (lookup_lt_is_Some_2 env_names i ltac:(lia)) as [n Hn].
    destruct (lookup_lt_is_Some_2 env_option i ltac:(lia)) as [o Ho].
    cbn [seq fold_left res_bind]. rewrite Hn, Ho.
    destruct (0 <? String.length o)%nat; apply IH; lia.
Qed.

Lemma fold_overrides (l : list (string * string)) : forall acc,
  NoDup (List.map fst l) ->
  (forall k, k ∈ List.map fst l -> k ∉ Dict.keys acc) ->
  fold_left
    (fun d kv => if negb (Str.is_empty (snd kv))
                 then Dict.set d (fst kv) (snd kv) else d)
    l acc
  = acc ++ List.filter (fun kv => negb (Str.is_empty (snd kv))) l.
Proof.
  induction l as [|[n o] l IH]; intros acc Hnd Hfresh; simpl.
  - rewrite app_nil_r. reflexivity.
  - simpl in Hnd. apply NoDup_cons in Hnd as [Hn Hnd].
    destruct (negb (Str.is_empty o)).
    + rewrite dict_set_fresh by (apply Hfresh; simpl; left).
      rewrite IH; [rewrite <- app_assoc; reflexivity | exact Hnd |].
      intros k Hk. unfold Dict.keys. rewrite List.map_app. simpl.
      intros Hin. apply elem_of_app in Hin as [Hin | Hin].
      * revert Hin. apply Hfresh. simpl. right. exact Hk.
      * apply list_elem_of_singleton in Hin. congruence.
    + apply IH; [exact Hnd|]. intros k Hk. apply Hfresh. simpl. right. exact Hk.
Qed.

Lemma gen_env_var_dict_short (env_names env_option : list string) :
  (0 < length env_option < length env_names)%nat ->
  gen_env_var_dict env_names env_option = Raise IndexError.
Proof.
  intros [Hpos Hlt]. unfold gen_env_var_dict.
  destruct env_names as [|n0 names]; [simpl in Hlt; lia|].
  destruct env_option as [|o0 options]; [simpl in Hpos; lia|].
  change ((length (n0 :: names) =? 0)%nat || (length (o0 :: options) =? 0)%nat)
    with false. cbv iota.
  set (env_names := n0 :: names) in *. set (env_option := o0 :: options) in *.
  replace (length env_names)
    with (length env_option + S (length env_names - S (length env_option)))%nat
    by lia.
  rewrite seq_app, fold_left_app.
  destruct (gen_fold_Ok env_names env_option (length env_option) 0 [])
    as [d Hd]; [lia | lia |].
  match goal with
  | |- fold_left _ _ ?inner = _ =>
      replace inner with (@Ok dict d) by (symmetry; exact Hd)
  end.
  cbn [seq fold_left res_bind]. change (0 + length env_option)%nat
    with (length env_option).
  destruct (lookup_lt_is_Some_2 env_names (length env_option) Hlt) as [n ->].
  rewrite (proj2 (lookup_ge_None env_option (length env_option))) by lia.
  clear Hd.
  generalize (seq (S (length env_option))
                  (length env_names - S (length env_option))).
  intros l. induction l as [|x l IH]; [reflexivity | exact IH].
Qed.

Lemma gen_env_var_dict_long (env_names env_option : list string) :
  (length env_names <= length env_option)%nat ->
  gen_env_var_dict env_names env_option
  = Ok (fold_left
          (fun d kv => if negb (Str.is_empty (snd kv))
                       then Dict.set d (fst kv) (snd kv) else d)
          (zip env_names env_option) []).
Proof.
  intros Hle. unfold gen_env_var_dict.
  destruct env_names as [|n0 names]; [reflexivity|].
  destruct env_option as [|o0 options]; [simpl in Hle; lia|].
  change ((length (n0 :: names) =? 0)%nat || (length (o0 :: options) =? 0)%nat)
    with false. cbv iota.
  apply (gen_fold (n0 :: names) (o0 :: options) (length (n0 :: names)) 0 []);
    [reflexivity | exact Hle].
Qed.

Lemma gen_env_var_dict_overrides (env_names env_option : list string) :
  NoDup env_names ->
  env_option = [] \/ (length env_names <= length env_option)%nat ->
  gen_env_var_dict env_names env_option = Ok (overrides env_names env_option).
Proof.
  intros Hnd [-> | Hle].
  - unfold gen_env_var_dict, overrides. rewrite orb_true_r.
    destruct env_names; reflexivity.
  - rewrite (gen_env_var_dict_long _ _ Hle). f_equal. unfold overrides.
    apply (fold_overrides (zip env_names env_option) []).
    + rewrite fst_zip by exact Hle. exact Hnd.
    + intros k _ H. inversion H.
Qed.

(** X17.  [gen_env_var_dict] raises [IndexError] exactly
    when there are values but fewer of them than names.  With no value at
    all, or with a value for every one of the distinct names, it returns
    the overrides: every name with its value, in the order of the names,
    where a name with the empty value is left out. *)
Theorem gen_env_var_dict_spec (env_names env_option : list string) :
  (gen_env_var_dict env_names env_option = Raise IndexError <->
   (0 < length env_option < length env_names)%nat) /\
  (NoDup env_names ->
   env_option = [] \/ (length env_names <= length env_option)%nat ->
   gen_env_var_dict env_names env_option = Ok (overrides env_names env_option)).
Proof.
  split; [split; [|apply gen_env_var_dict_short]|apply gen_env_var_dict_overrides].
  intros H.
  destruct (Nat.le_gt_cases (length env_names) (length env_option)) as [Hle | Hgt].
  { rewrite (gen_env_var_dict_long _ _ Hle) in H. discriminate. }
  split; [|exact Hgt].
  destruct env_option; [|simpl; lia].
  unfold gen_env_var_dict in H. rewrite orb_true_r in H. discriminate.
Qed.

(** X18.  For a table of one or more distinct variables,
    each with a non-empty list of candidate values, every combination has
    one value per variable, and [gen_env_var_dict] turns it into the
    overrides without raising. *)
Theorem combos_give_overrides (d : list (string * list string)) combo :
  d <> [] -> Forall (fun kv => snd kv <> []) d -> NoDup (List.map fst d) ->
  combo ∈ get_env_var_combos (Some d) ->
  length combo = length d /\
  gen_env_var_dict (List.map fst d) combo
  = Ok (overrides (List.map fst d) combo).
Proof.
  intros Hne Hall Hnd Hin.
  pose proof (combos_length d combo Hne Hall Hin) as Hlen.
  split; [exact Hlen|].
  apply gen_env_var_dict_overrides; [exact Hnd|].
  right. rewrite length_map. lia.
Qed.

(** X19.  A variable without candidate values erases the
    variables before it: the combinations are those of the variables after
    it alone.  When these have candidate values, every combination is
    shorter than the list of names, and [gen_env_var_dict] raises
    [IndexError] on it. *)
Theorem empty_list_erases (d1 d2 : list (string * list string)) (k : string) :
  get_env_var_combos (Some (d1 ++ (k, []) :: d2)) = get_env_var_combos (Some d2) /\
  (d2 <> [] -> Forall (fun kv => snd kv <> []) d2 ->
   forall combo,
     combo ∈ get_env_var_combos (Some (d1 ++ (k, []) :: d2)) ->
     gen_env_var_dict (List.map fst (d1 ++ (k, []) :: d2)) combo
     = Raise IndexError).
Proof.
  split; [apply combos_skip_empty|].
  intros Hne Hall combo Hin. rewrite combos_skip_empty in Hin.
  pose proof (combos_length d2 combo Hne Hall Hin) as Hlen.
  apply gen_env_var_dict_short.
  rewrite length_map, length_app. simpl.
  destruct d2; [contradiction|]. simpl in *. lia.
Qed.

(** ** The script, continued *)

Lemma sorted_by_avg_keys l st l' st' :
  sorted_by_avg l st = Ok (l', st') ->
  exists ps, l' = List.map fst ps /\ ascending key_of ps /\
             (forall r p, (r, p) ∈ ps -> heap st !! r = Some p) /\
             ((2 <= length ps)%nat ->
              forall r p, (r, p) ∈ ps -> avg p <> None).
Proof.
  unfold sorted_by_avg. intros H. invert_M H.
  apply deref_all_Ok in Hstep as (-> & Hl & Hall).
  destruct (2 <=? length a)%nat eqn:Hlen; simpl in H.
  - destruct (existsb _ a) eqn:Hex; [discriminate|].
    apply ret_Ok in H as [-> ->].
    exists (Num.sort_by key_of a). split; [reflexivity|].
    split; [apply sort_by_ascending|]. split.
    + intros r p Hin. apply Hall.
      rewrite <- (sort_by_Permutation key_of a). exact Hin.
    + intros _ r p Hin Hnone.
      rewrite (sort_by_Permutation key_of a) in Hin.
      assert (E : existsb (fun rp => match avg (snd rp) with
                                     | None => true | _ => false end) a = true).
      { apply existsb_exists. exists (r, p).
        split; [apply list_elem_of_In; exact Hin|]. simpl. rewrite Hnone.
        reflexivity. }
      congruence.
  - apply ret_Ok in H as [-> ->].
    exists (Num.sort_by key_of a). split; [reflexivity|].
    split; [apply sort_by_ascending|]. split.
    + intros r p Hin. apply Hall.
      rewrite <- (sort_by_Permutation key_of a). exact Hin.
    + rewrite length_sort_by. apply Nat.leb_gt in Hlen. lia.
Qed.

Lemma slice_to_take {A} (l : list A) n : exists m, slice_to l n = take m l.
Proof. unfold slice_to. destruct (0 <=? n); eauto. Qed.

(** X20.  When the ranking step of a provider returns
    with at least one trial kept, the first of the provider's successes,
    which becomes its profile candidate, is its fastest: no other success
    of the provider has a smaller average.  When no trial is kept, the
    provider gets no entry and no profile candidate. *)
Theorem rank_profiles_fastest (w : World) (a : Args) (provider : string)
    (tests successful : list ref) (s : script) (st : state)
    (s' : script) (st' : state) :
  rank w a provider tests successful s st = Ok (s', st') ->
  (exists best rest p,
     by_ep_get (successful_by_ep s') provider = Some (best :: rest) /\
     profile_candidates s' = profile_candidates s ++ [best] /\
     heap st !! best = Some p /\
     forall r q, r ∈ rest -> heap st !! r = Some q ->
       exists x y, avg p = Some x /\ avg q = Some y /\ (x <= y)%Q) \/
  (successful_by_ep s' = successful_by_ep s /\
   profile_candidates s' = profile_candidates s).
Proof.
  unfold rank. intros H. invert_M H.
  apply select_avg_Ok in Hstep as (-> & _).
  apply sorted_by_avg_keys in Hstep0 as (ranked & -> & Hasc & Hheap & Hsome).
  clear Hstep1 Hstep2. apply ret_Ok in H as [-> _].
  destruct (slice_to_take (List.map fst ranked) a2) as [m Hm].
  rewrite Hm. cbn [successful_by_ep profile_candidates].
  destruct ranked as [|[best p] ranked]; [right; simpl; rewrite take_nil; auto|].
  destruct m as [|m]; [right; auto|].
  left. simpl. exists best, (take m (List.map fst ranked)), p.
  split; [apply by_ep_get_set|]. split; [reflexivity|].
  split; [apply Hheap; left|].
  intros r q Hr Hq.
  apply list_elem_of_lookup in Hr as [i Hr].
  apply lookup_take_Some in Hr as [Hr _].
  apply list_lookup_fmap_Some in Hr as ([r' q'] & E & Hin). simpl in E. subst r'.
  apply list_elem_of_lookup_2 in Hin.
  assert (q' = q).
  { pose proof (Hheap r q' ltac:(right; exact Hin)). congruence. }
  subst q'.
  unfold ascending in Hasc. apply StronglySorted_inv in Hasc as [_ F].
  rewrite Forall_forall in F. specialize (F (r, q) Hin).
  unfold key_of in F. simpl in F.
  assert (Hlen : (2 <= length ((best, p) :: ranked))%nat).
  { destruct ranked; [inversion Hin | simpl; lia]. }
  pose proof (Hsome Hlen best p ltac:(left)) as Np.
  pose proof (Hsome Hlen r q ltac:(right; exact Hin)) as Nq.
  destruct (avg p) as [x|]; [|contradiction].
  destruct (avg q) as [y|]; [|contradiction].
  exists x, y. auto.
Qed.

Lemma drop_gpu_failures_Ok l st l' st' :
  drop_gpu_failures l st = Ok (l', st') ->
  st' = st /\
  forall r, r ∈ l' ->
    r ∈ l /\ exists p, heap st !! r = Some p /\ names_gpu (name p) = false.
Proof.
  unfold drop_gpu_failures. intros H. invert_M H.
  apply deref_all_Ok in Hstep as (-> & Hl & Hall).
  apply ret_Ok in H as [-> ->]. split; [reflexivity|].
  intros r Hr. apply list_elem_of_In, in_map_iff in Hr as ([r' p] & E & Hin).
  simpl in E. subst r'. apply filter_In in Hin as [Hin Hb]. simpl in Hb.
  apply list_elem_of_In in Hin. split.
  - rewrite <- Hl. apply list_elem_of_In, in_map_iff.
    exists (r, p). split; [reflexivity | apply list_elem_of_In; exact Hin].
  - exists p. split; [apply Hall; exact Hin|].
    unfold names_gpu. apply andb_prop in Hb as [H1 H2].
    apply negb_true_iff in H1, H2. rewrite H1, H2. reflexivity.
Qed.

Lemma report_set_elem (d : report) k v k' v' :
  (k', v') ∈ report_set d k v -> (k', v') ∈ d \/ v' = v.
Proof.
  induction d as [|[k0 v0] d IH]; simpl; intros H.
  - apply list_elem_of_singleton in H. injection H as _ ->. right. reflexivity.
  - destruct (String.eqb k0 k).
    + apply elem_of_cons in H as [H | H].
      * injection H as _ ->. right. reflexivity.
      * left. right. exact H.
    + apply elem_of_cons in H as [H | H].
      * left. rewrite H. left.
      * destruct (IH H) as [H' | H']; [left; right; exact H' | right; exact H'].
Qed.

Lemma fold_report_set_elem {A} (key : A -> string) v (l : list A) :
  forall (d : report) k' v',
    (k', v') ∈ fold_left (fun out x => report_set out (key x) v) l d ->
    (k', v') ∈ d \/ v' = v.
Proof.
  induction l as [|x l IH]; intros d k' v' H; simpl in H; [left; exact H|].
  apply IH in H as [H | H]; [|right; exact H].
  apply report_set_elem in H. exact H.
Qed.

Lemma report_ep_Ok successes r out st out' st' :
  report_ep successes r out st = Ok (out', st') ->
  st' = st /\
  forall k v, (k, v) ∈ out' -> (k, v) ∈ out \/ exists l, v = Successes l.
Proof.
  unfold report_ep. intros H. invert_M H.
  apply deref_Ok in Hstep as [_ ->].
  destruct (by_ep_get successes (build_name a)) as [tests|]; [|discriminate].
  invert_M H. apply deref_all_Ok in Hstep as (-> & _ & _).
  apply lift_Ok in Hstep0 as [_ ->].
  apply ret_Ok in H as [-> ->]. split; [reflexivity|].
  intros k v Hin.
  apply (fold_report_set_elem (fun test => build_name (snd test))) in Hin
    as [Hin | ->]; eauto.
Qed.

Lemma for_each_report_ep successes l : forall out st out' st',
  for_each l (report_ep successes) out st = Ok (out', st') ->
  st' = st /\
  forall k v, (k, v) ∈ out' -> (k, v) ∈ out \/ exists l, v = Successes l.
Proof.
  induction l as [|r l IH]; intros out st out' st' H; simpl in H.
  - apply ret_Ok in H as [-> ->]. auto.
  - invert_M H. apply report_ep_Ok in Hstep as (-> & Hstep).
    apply IH in H as (-> & H). split; [reflexivity|].
    intros k v Hin. destruct (H k v Hin) as [Hin' | Hs]; [|right; exact Hs].
    apply Hstep. exact Hin'.
Qed.

(** X21.  On a machine without a GPU, the report
    that the script returns lists no failed trial whose name contains
    [cuda] or [tensorrt]. *)
Theorem no_gpu_failures_without_gpu (w : World) (bin_dir : string) (a : Args)
    (st : state) (out : report) (st' : state) :
  main w bin_dir a st = Ok (out, st') ->
  getGPUs w = 0%nat ->
  forall k l record,
    (k, Failures l) ∈ out -> record ∈ l ->
    names_gpu (json_failed_name record) = false.
Proof.
  unfold main, aggregate. intros H Hgpu k l record Hin Hrec.
  apply bind_Ok in H as (s & st1 & _ & H).
  apply bind_Ok in H as (u & st2 & _ & H).
  apply bind_Ok in H as (kept & st3 & Hdrop & H).
  apply bind_Ok in H as (candidates & st4 & Hsort & H).
  apply bind_Ok in H as (out_json & st5 & Hep & H).
  rewrite Hgpu in Hdrop. change (0 =? 0)%nat with true in Hdrop.
  cbv iota in Hdrop.
  apply drop_gpu_failures_Ok in Hdrop as (-> & Hkept).
  apply sorted_by_avg_Ok in Hsort as (-> & _).
  apply for_each_report_ep in Hep as (-> & Hout).
  unfold report_failed in H.
  apply bind_Ok in H as (ps & st6 & Hps & H).
  apply deref_all_Ok in Hps as (-> & Hl & Hall).
  apply ret_Ok in H as [-> _].
  assert (Hfail : l = List.map (fun test => {| json_failed_name := name (snd test);
                                               json_failed_command := command (snd test) |})
                               ps).
  { destruct ps as [|x ps].
    - apply Hout in Hin as [Hin | [l' E]]; [inversion Hin | discriminate E].
    - apply report_set_elem in Hin as [Hin | E]; [|injection E as ->; reflexivity].
      apply Hout in Hin as [Hin | [l' E]]; [inversion Hin | discriminate E]. }
  subst l. apply list_elem_of_In, in_map_iff in Hrec as ([r p] & <- & Hrp).
  simpl. apply list_elem_of_In in Hrp.
  assert (Hr : r ∈ kept).
  { rewrite <- Hl. apply list_elem_of_In, in_map_iff. exists (r, p).
    split; [reflexivity | apply list_elem_of_In; exact Hrp]. }
  destruct (Hkept r Hr) as (_ & p' & Hp' & Hgpu').
  rewrite (Hall r p Hrp) in Hp'. injection Hp' as <-. exact Hgpu'.
Qed.

Lemma for_each_Ok {A S} (body : A -> S -> M S) (l : list A) :
  forall s st s' st',
    for_each l body s st = Ok (s', st') ->
    forall x, x ∈ l -> exists s0 st0 s1 st1, body x s0 st0 = Ok (s1, st1).
Proof.
  induction l as [|y l IH]; intros s st s' st' H x Hx; [inversion Hx|].
  simpl in H. invert_M H.
  apply elem_of_cons in Hx as [-> | Hx]; [eauto|].
  eapply IH; eassumption.
Qed.


(** X23.  When neither build directory exists, a run of the script that
    returns has created and run no trial and has had no interaction with
    the outside, and its report is empty. *)
Theorem nothing_runs_without_builds (w : World) (bin_dir : string) (a : Args)
    (st : state) (out_json : report) (st' : state) :
  isdir w (path_join w bin_dir "mklml") = false ->
  isdir w (path_join w bin_dir "all_eps") = false ->
  main w bin_dir a st = Ok (out_json, st') ->
  out_json = [] /\ st' = st.
Proof.
  intros Hmklml Hall H. unfold main in H.
  apply bind_Ok in H as (s & st1 & Hloop & H).
  assert (E : forall l s0 s1 st2,
                for_each l (tune_provider w bin_dir a) s0 st = Ok (s1, st2) ->
                s1 = s0 /\ st2 = st).
  { induction l as [|b l IH]; intros s0 s1 st2 F; simpl in F.
    - apply ret_Ok in F as [-> ->]. split; reflexivity.
    - apply bind_Ok in F as (s2 & st3 & Hb & F).
      assert (T : s2 = s0 /\ st3 = st).
      { unfold tune_provider in Hb.
        apply bind_Ok in Hb as (build_path & st4 & Hpath & Hb).
        destruct (Str.contains "mklml" b || Str.contains "nuphar" b).
        - apply ret_Ok in Hpath as [-> ->]. rewrite Hmklml in Hb.
          apply ret_Ok in Hb as [-> ->]. split; reflexivity.
        - destruct (mem b allProviders); [|discriminate Hpath].
          apply ret_Ok in Hpath as [-> ->]. rewrite Hall in Hb.
          apply ret_Ok in Hb as [-> ->]. split; reflexivity. }
      destruct T as [-> ->]. exact (IH _ _ _ F). }
  apply E in Hloop as [-> ->].
  unfold aggregate in H. simpl in H.
  destruct (getGPUs w =? 0)%nat; injection H as <- <-; split; reflexivity.
Qed.

Lemma contains_comma c r :
  Str.contains "," (String c r) = Ascii.eqb c "," || Str.contains "," r.
Proof.
  change (Str.contains "," (String c r))
    with (String.prefix "," (String c r) || Str.contains "," r).
  f_equal. cbn [String.prefix].
  destruct (ascii_dec "," c) as [E | N].
  - subst c. rewrite Ascii.eqb_refl. destruct r; reflexivity.
  - symmetry. apply Ascii.eqb_neq. congruence.
Qed.

Lemma split_comma_free s :
  Str.contains "," s = false -> Str.split_comma s = [s].
Proof.
  induction s as [|c r IH]; [reflexivity|].
  rewrite contains_comma. intros H. apply orb_false_elim in H as [Hc Hr].
  simpl. rewrite Hc, (IH Hr). reflexivity.
Qed.

Lemma split_comma_append s rest :
  Str.contains "," s = false ->
  Str.split_comma (s +:+ "," +:+ rest) = s :: Str.split_comma rest.
Proof.
  induction s as [|c r IH]; [reflexivity|].
  rewrite contains_comma. intros H. apply orb_false_elim in H as [Hc Hr].
  simpl. rewrite Hc. simpl in IH. rewrite (IH Hr). reflexivity.
Qed.

Lemma split_comma_join names :
  names <> [] -> Forall (fun n => Str.contains "," n = false) names ->
  Str.split_comma (Str.join "," names) = names.
Proof.
  induction names as [|n names IH]; [contradiction|]. intros _ F.
  apply Forall_cons in F as [Hn F].
  destruct names as [|m names].
  - simpl. apply split_comma_free. exact Hn.
  - change (Str.join "," (n :: m :: names))
      with (n +:+ "," +:+ Str.join "," (m :: names))%string.
    rewrite split_comma_append by exact Hn.
    rewrite IH; [reflexivity | discriminate | exact F].
Qed.

(** X24.  The providers to tune are the names between the commas
    of [--execution_provider]: a list of one or more non-empty names
    without commas, joined by commas, is read back as it is.  Empty names
    are dropped, and the empty string stands for all eight providers. *)
Theorem providers_split (a : Args) :
  (forall names,
     names <> [] ->
     Forall (fun n => n <> EmptyString /\ Str.contains "," n = false) names ->
     execution_provider a = Str.join "," names ->
     providers a = names) /\
  (execution_provider a = EmptyString -> providers a = allProviders) /\
  (forall provider, provider ∈ providers a -> provider <> EmptyString).
Proof.
  unfold providers. split; [|split].
  - intros names Hne F E. rewrite E.
    assert (Hlen : (0 <? String.length (Str.join "," names))%nat = true).
    { destruct names as [|n names]; [contradiction|].
      apply Forall_cons in F as [[Hn _] _].
      destruct n; [contradiction|]. destruct names; reflexivity. }
    rewrite Hlen, split_comma_join; [|exact Hne|].
    + apply forallb_filter_id. apply forallb_forall. intros n Hin.
      rewrite Forall_forall in F. apply list_elem_of_In, F in Hin as [Hn _].
      apply negb_true_iff, String.eqb_neq. exact Hn.
    + eapply Forall_impl; [exact F|]. intros n [_ H]. exact H.
  - intros ->. reflexivity.
  - intros provider Hin.
    destruct (0 <? String.length (execution_provider a))%nat.
    + apply list_elem_of_In, filter_In in Hin as [_ H].
      apply negb_true_iff, String.eqb_neq in H. exact H.
    + unfold allProviders in Hin.
      repeat (apply elem_of_cons in Hin as [-> | Hin]; [discriminate|]).
      inversion Hin.
Qed.

Lemma by_ep_set_elem (d : by_ep) k v k' v' :
  (k', v') ∈ by_ep_set d k v -> (k', v') ∈ d \/ v' = v.
Proof.
  induction d as [|[k0 v0] d IH]; simpl; intros H.
  - apply list_elem_of_singleton in H. injection H as _ ->. right. reflexivity.
  - destruct (String.eqb k0 k).
    + apply elem_of_cons in H as [H | H].
      * injection H as _ ->. right. reflexivity.
      * left. right. exact H.
    + apply elem_of_cons in H as [H | H].
      * left. rewrite H. left.
      * destruct (IH H) as [H' | H']; [left; right; exact H' | right; exact H'].
Qed.

Lemma by_ep_get_elem (d : by_ep) k v : by_ep_get d k = Some v -> exists k', (k', v) ∈ d.
Proof.
  induction d as [|[k0 v0] d IH]; simpl; [discriminate|].
  destruct (String.eqb k0 k).
  - intros H. injection H as ->. exists k0. left.
  - intros H. destruct (IH H) as [k' Hk']. exists k'. right. exact Hk'.
Qed.

Lemma length_slice_to {A} (l : list A) n :
  0 <= n -> Z.of_nat (length (slice_to l n)) <= n.
Proof.
  intros Hn. unfold slice_to.
  destruct (0 <=? n) eqn:E; [|apply Z.leb_gt in E; lia].
  rewrite length_take. lia.
Qed.

Lemma rank_bounded (w : World) (a : Args) provider tests successful s st s' st' n :
  rank w a provider tests successful s st = Ok (s', st') ->
  int w (top_n a) = Some n -> 0 <= n ->
  bounded n (successful_by_ep s) -> bounded n (successful_by_ep s').
Proof.
  unfold rank. intros H Hint Hn B.
  apply bind_Ok in H as (passed & st1 & _ & H).
  apply bind_Ok in H as (ranked & st2 & _ & H).
  apply bind_Ok in H as (m & st3 & Hm & H).
  apply bind_Ok in H as (not_passed & st4 & _ & H).
  apply lift_Ok in Hm as [Hm _]. rewrite Hint in Hm. injection Hm as <-.
  apply ret_Ok in H as [-> _]. cbn [successful_by_ep].
  destruct (0 <? length (slice_to ranked n))%nat; [|exact B].
  intros k v Hin. apply by_ep_set_elem in Hin as [Hin | ->].
  - eapply B. exact Hin.
  - apply length_slice_to. exact Hn.
Qed.

Lemma tune_bounded (w : World) (a : Args) provider provider_path flags
    s st s' st' n :
  tune w a provider provider_path flags s st = Ok (s', st') ->
  int w (top_n a) = Some n -> 0 <= n ->
  bounded n (successful_by_ep s) -> bounded n (successful_by_ep s').
Proof.
  unfold tune. intros H Hint Hn B.
  apply bind_Ok in H as ([[best failed] successful] & st1 & _ & H).
  apply bind_Ok in H as ([[tests failed'] successful'] & st2 & _ & H).
  apply bind_Ok in H as (u & st3 & _ & H).
  eapply rank_bounded in H; [exact H | exact Hint | exact Hn | exact B].
Qed.

Lemma tune_provider_bounded (w : World) bin_dir (a : Args) provider
    s st s' st' n :
  tune_provider w bin_dir a provider s st = Ok (s', st') ->
  int w (top_n a) = Some n -> 0 <= n ->
  bounded n (successful_by_ep s) -> bounded n (successful_by_ep s').
Proof.
  unfold tune_provider. intros H Hint Hn B.
  apply bind_Ok in H as (provider_path & st1 & _ & H).
  destruct (isdir w provider_path).
  - eapply tune_bounded; eassumption.
  - apply ret_Ok in H as [-> _]. exact B.
Qed.

Lemma json_records_length tests records :
  json_records tests = Ok records -> length records = length tests.
Proof.
  revert records. induction tests as [|t tests IH]; intros records H; simpl in H.
  - injection H as <-. reflexivity.
  - destruct (json_record t) as [r| |]; try discriminate. simpl in H.
    destruct (json_records tests) as [rs| |]; try discriminate. simpl in H.
    injection H as <-. simpl. rewrite (IH rs eq_refl). reflexivity.
Qed.

(** X25.  In the report that the script returns, no provider
    has more than [top_n] successful trials, for a [top_n] that is not
    negative. *)
Theorem report_keeps_top_n (w : World) (bin_dir : string) (a : Args)
    (st : state) (out : report) (st' : state) (n : Z) :
  main w bin_dir a st = Ok (out, st') ->
  int w (top_n a) = Some n -> 0 <= n ->
  forall k l, (k, Successes l) ∈ out -> Z.of_nat (length l) <= n.
Proof.
  unfold main. intros H Hint Hn.
  apply bind_Ok in H as (s & st1 & Hloop & H).
  assert (B : bounded n (successful_by_ep s)).
  { assert (G : forall l s0 st0 s1 st1,
               for_each l (tune_provider w bin_dir a) s0 st0 = Ok (s1, st1) ->
               bounded n (successful_by_ep s0) -> bounded n (successful_by_ep s1)).
    { induction l as [|b l IH]; intros s0 st0 s1 st2 E B0; simpl in E.
      - apply ret_Ok in E as [-> _]. exact B0.
      - apply bind_Ok in E as (s2 & st3 & Hb & E).
        eapply IH; [exact E|]. eapply tune_provider_bounded; eassumption. }
    eapply G; [exact Hloop|]. intros k v Hin. inversion Hin. }
  unfold aggregate in H.
  apply bind_Ok in H as (u & st2 & _ & H).
  apply bind_Ok in H as (kept & st3 & _ & H).
  apply bind_Ok in H as (candidates & st4 & _ & H).
  apply bind_Ok in H as (out_json & st5 & Hep & H).
  assert (R : forall l out0 st0 out1 st6,
             for_each l (report_ep (successful_by_ep s)) out0 st0 = Ok (out1, st6) ->
             (forall k v, (k, Successes v) ∈ out0 -> Z.of_nat (length v) <= n) ->
             forall k v, (k, Successes v) ∈ out1 -> Z.of_nat (length v) <= n).
  { induction l as [|r l IH]; intros out0 st0 out1 st6 E B0; simpl in E.
    - apply ret_Ok in E as [-> _]. exact B0.
    - apply bind_Ok in E as (out2 & st7 & Hr & E).
      eapply IH; [exact E|]. clear E IH.
      unfold report_ep in Hr.
      apply bind_Ok in Hr as (candidate & st8 & _ & Hr).
      destruct (by_ep_get (successful_by_ep s) (build_name candidate))
        as [tests|] eqn:Hget; [|discriminate].
      apply bind_Ok in Hr as (ps & st9 & Hps & Hr).
      apply bind_Ok in Hr as (records & st10 & Hrec & Hr).
      apply deref_all_Ok in Hps as (_ & Hps & _).
      apply lift_Ok in Hrec as [Hrec _].
      apply json_records_length in Hrec. rewrite length_map in Hrec.
      apply ret_Ok in Hr as [-> _].
      intros k v Hin.
      apply (fold_report_set_elem (fun test => build_name (snd test))) in Hin
        as [Hin | E]; [eapply B0; exact Hin|].
      injection E as ->. rewrite Hrec.
      apply by_ep_get_elem in Hget as [k' Hk'].
      rewrite <- Hps in Hk'. apply B in Hk'. rewrite length_map in Hk'. exact Hk'. }
  assert (O : forall k v, (k, Successes v) ∈ out_json -> Z.of_nat (length v) <= n).
  { eapply R; [exact Hep|]. intros k v Hin. inversion Hin. }
  unfold report_failed in H.
  apply bind_Ok in H as (ps & st6 & _ & H).
  apply ret_Ok in H as [-> _].
  intros k l Hin. destruct ps as [|x ps]; [eapply O; exact Hin|].
  apply report_set_elem in Hin as [Hin | E]; [eapply O; exact Hin | discriminate E].
Qed.

(** ** The code snippet of a report record *)

Lemma index_first x pre post :
  x ∉ pre -> index x (pre ++ x :: post) = Some (length pre).
Proof.
  induction pre as [|y pre IH]; simpl; intros H.
  - rewrite String.eqb_refl. reflexivity.
  - apply not_elem_of_cons in H as [Hne H].
    destruct (String.eqb y x) eqn:E; [apply String.eqb_eq in E; congruence|].
    rewrite IH by exact H. reflexivity.
Qed.

Lemma index_None x l : x ∉ l -> index x l = None.
Proof.
  induction l as [|y l IH]; simpl; intros H; [reflexivity|].
  apply not_elem_of_cons in H as [Hne H].
  destruct (String.eqb y x) eqn:E; [apply String.eqb_eq in E; congruence|].
  rewrite IH by exact H. reflexivity.
Qed.

Lemma flag_found flag v (pre post l : list string) :
  flag ∉ pre -> l = pre ++ flag :: v :: post ->
  index flag l = Some (length pre) /\
  (length l <=? length pre + 1)%nat = false /\
  l !! (length pre + 1)%nat = Some v.
Proof.
  intros Hpre ->. split; [apply index_first; exact Hpre|]. split.
  - apply Nat.leb_gt. rewrite length_app. simpl. lia.
  - rewrite lookup_app_r by lia.
    replace (length pre + 1 - length pre)%nat with 1%nat by lia. reflexivity.
Qed.

Lemma flag_last flag (pre l : list string) :
  flag ∉ pre -> l = pre ++ [flag] ->
  index flag l = Some (length pre) /\
  (length l <=? length pre + 1)%nat = true.
Proof.
  intros Hpre ->. split; [apply index_first; exact Hpre|].
  apply Nat.leb_le. rewrite length_app. simpl. lia.
Qed.

(** X26.  The three snippet methods read the argument
    that follows the first occurrence of their flag ([-y], [-x], [-e]) in
    the trial's arguments.  Without the flag the thread snippets are empty
    and the provider is [CPUExecutionProvider]; a flag that stands last
    gives the empty string. *)
Theorem snippets_read_first_flag (upper : string -> string)
    (p : PerfTestParams) (pre : list string) :
  (forall v post,
     ("-y"%string ∉ pre -> test_args p = pre ++ "-y"%string :: v :: post ->
      get_inter_threads_code_snippet p = ("so.inter_op_num_threads = " +:+ v)%string) /\
     ("-x"%string ∉ pre -> test_args p = pre ++ "-x"%string :: v :: post ->
      get_intra_threads_code_snippet p = ("so.intra_op_num_threads = " +:+ v)%string) /\
     ("-e"%string ∉ pre -> test_args p = pre ++ "-e"%string :: v :: post ->
      get_execution_provider_name upper p
      = (upper v +:+ "ExecutionProvider")%string)) /\
  (("-y"%string ∉ test_args p -> get_inter_threads_code_snippet p = EmptyString) /\
   ("-x"%string ∉ test_args p -> get_intra_threads_code_snippet p = EmptyString) /\
   ("-e"%string ∉ test_args p ->
    get_execution_provider_name upper p = "CPUExecutionProvider"%string)) /\
  (("-y"%string ∉ pre -> test_args p = pre ++ ["-y"%string] ->
    get_inter_threads_code_snippet p = EmptyString) /\
   ("-x"%string ∉ pre -> test_args p = pre ++ ["-x"%string] ->
    get_intra_threads_code_snippet p = EmptyString) /\
   ("-e"%string ∉ pre -> test_args p = pre ++ ["-e"%string] ->
    get_execution_provider_name upper p = EmptyString)).
Proof.
  split; [|split].
  - intros v post. repeat split; intros Hpre E;
      destruct (flag_found _ v pre post _ Hpre E) as (Hi & Hlen & Hv);
      [unfold get_inter_threads_code_snippet
      |unfold get_intra_threads_code_snippet
      |unfold get_execution_provider_name];
      rewrite Hi, Hlen, Hv; reflexivity.
  - repeat split; intros H;
      [unfold get_inter_threads_code_snippet
      |unfold get_intra_threads_code_snippet
      |unfold get_execution_provider_name];
      rewrite (index_None _ _ H); reflexivity.
  - repeat split; intros Hpre E;
      destruct (flag_last _ pre _ Hpre E) as (Hi & Hlen);
      [unfold get_inter_threads_code_snippet
      |unfold get_intra_threads_code_snippet
      |unfold get_execution_provider_name];
      rewrite Hi, Hlen; reflexivity.
Qed.

(** ** Arguments from a JSON file *)

Lemma of_Z_nonempty z : Str.is_empty (Str.of_Z z) = false.
Proof.
  unfold Str.of_Z.
  assert (U : forall p, Str.is_empty (NilZero.string_of_uint (Pos.to_uint p)) = false).
  { intros p. destruct (Pos.to_uint p); reflexivity. }
  destruct z; [reflexivity | apply U | reflexivity].
Qed.

Lemma choose_truthy d k default :
  json_truthy default = true ->
  json_truthy (ConverterParamsFromJson.choose d k default) = true.
Proof.
  intros H. unfold ConverterParamsFromJson.choose.
  destruct (json_truthy (json_get d k)) eqn:E; [exact E | exact H].
Qed.

(** X27.  Arguments read from a JSON file never switch the
    parallel executor off: a [parallel] that is false, like every other
    falsy value of an optional key, is replaced by the default, which is
    [true].  Of the optional attributes only [execution_provider] can be
    falsy. *)
Theorem json_cannot_disable (cpu_count : Z) (loaded_json : list (string * json))
    (a : ConverterParamsFromJson.t) :
  ConverterParamsFromJson.init cpu_count loaded_json = Ok a ->
  (json_truthy (json_get loaded_json "parallel") = false ->
   ConverterParamsFromJson.parallel a = JBool true) /\
  Forall (fun x => json_truthy x = true)
    [ConverterParamsFromJson.parallel a;
     ConverterParamsFromJson.config a;
     ConverterParamsFromJson.test_mode a;
     ConverterParamsFromJson.repeated_times a;
     ConverterParamsFromJson.duration_time a;
     ConverterParamsFromJson.intra_op_num_threads a;
     ConverterParamsFromJson.inter_op_num_threads a;
     ConverterParamsFromJson.top_n a;
     ConverterParamsFromJson.optimization_level a].
Proof.
  unfold ConverterParamsFromJson.init.
  destruct (json_is_none (json_get loaded_json "model")); [discriminate|].
  destruct (json_is_none (json_get loaded_json "result")); [discriminate|].
  destruct (_ && _); [discriminate|].
  destruct (_ && _); [discriminate|].
  intros H. injection H as <-.
  cbn [ConverterParamsFromJson.parallel ConverterParamsFromJson.config
       ConverterParamsFromJson.test_mode ConverterParamsFromJson.repeated_times
       ConverterParamsFromJson.duration_time
       ConverterParamsFromJson.intra_op_num_threads
       ConverterParamsFromJson.inter_op_num_threads
       ConverterParamsFromJson.top_n
       ConverterParamsFromJson.optimization_level].
  split.
  - intros E. unfold ConverterParamsFromJson.choose. rewrite E. reflexivity.
  - repeat (apply Forall_cons; split;
            [apply choose_truthy; try reflexivity;
             simpl; rewrite of_Z_nonempty; reflexivity|]).
    apply Forall_nil. exact I.
Qed.

(** ** The build script *)

Section BuildFacts.

Import Build.

Variable w : World.

Lemma bind_Done {A C} (m : B A) (k : A -> B C) h c h' :
  bind m k h = Done c h' ->
  exists a h1, m h = Done a h1 /\ k a h1 = Done c h'.
Proof.
  unfold bind. destruct (m h) as [a h1|e h1]; [|discriminate].
  intros H. exists a, h1. split; [reflexivity | exact H].
Qed.

Lemma runs_app h t : runs (h ++ t) = runs h ++ runs t.
Proof. apply List.flat_map_app. Qed.

Lemma made_app h t : made (h ++ t) = made h ++ made t.
Proof. apply List.flat_map_app. Qed.

Lemma quiet_ret {A} (a : A) : quiet (ret a).
Proof. intros h a' h' H. injection H as _ <-. split; reflexivity. Qed.

Lemma quiet_raise {A} e : quiet (@raise A e).
Proof. intros h a' h' H. discriminate H. Qed.

Lemma quiet_bind {A C} (m : B A) (k : A -> B C) :
  quiet m -> (forall a, quiet (k a)) -> quiet (bind m k).
Proof.
  intros Hm Hk h c h' H. apply bind_Done in H as (a & h1 & H1 & H2).
  apply Hm in H1 as [<- <-]. exact (Hk a _ _ _ H2).
Qed.

Lemma quiet_exists path : quiet (exists_ w path).
Proof. intros h a h' H. injection H as _ <-. split; reflexivity. Qed.

Lemma quiet_act a :
  match a with Run _ _ _ | Makedirs _ => False | _ => True end ->
  quiet (act a).
Proof.
  intros Ha h u h' H. injection H as _ <-.
  rewrite runs_app, made_app.
  destruct a; try contradiction; simpl; rewrite !app_nil_r; split; reflexivity.
Qed.

Lemma quiet_when c m : quiet m -> quiet (when c m).
Proof. intros Hm. destruct c; [exact Hm | apply quiet_ret]. Qed.

Lemma quiet_copy_from home rest dest : quiet (copy_from w home rest dest).
Proof.
  unfold copy_from, join_home. apply quiet_bind.
  - destruct home; [apply quiet_ret | apply quiet_raise].
  - intros p. apply quiet_act. exact I.
Qed.

Ltac quiet_step :=
  first
    [ apply quiet_ret
    | apply quiet_raise
    | apply quiet_exists
    | apply quiet_copy_from
    | apply quiet_when
    | apply quiet_act; exact I
    | apply quiet_bind; [|intros ?]
    | match goal with
      | |- quiet (if ?c then _ else _) => destruct c
      end ].

(** What [build_onnxruntime] does after [os.makedirs] runs no process
    and makes no directory. *)
Lemma run_Done cmd cwd env h u h' :
  run w cmd cwd env h = Done u h' -> h' = h ++ [Run cmd cwd env].
Proof.
  unfold run. destruct (exits_zero w h cmd); [|discriminate].
  intros H. injection H as _ <-. reflexivity.
Qed.

Lemma prebuilt_after found args :
  (if negb found && prebuilt args then false else prebuilt args)
  = prebuilt args && found.
Proof. destruct found, (prebuilt args); reflexivity. Qed.

(** On Windows a build that is made and returns has run the build command
    once and made its directory under [bin]. *)
Lemma build_windows_trace dir config build_args name args h p h' :
  is_windows w = true ->
  takes_prebuilt w dir config args h = false ->
  build_windows w dir config build_args name args h = Done p h' ->
  p = false /\
  runs h' = runs h ++ [command w dir config build_args] /\
  made h' = made h ++ [join w ["bin"; config; name]%string].
Proof.
  intros Hw Hp H. unfold takes_prebuilt, perf_test_exe in Hp.
  rewrite Hw in Hp. unfold build_windows in H.
  apply bind_Done in H as (found & h0 & H0 & H). injection H0 as <- <-.
  rewrite prebuilt_after, Hp in H. cbn [negb] in H.
  apply bind_Done in H as (target & h1 & H1 & H).
  apply bind_Done in H1 as (cached & h2 & H2 & H1). injection H2 as _ <-.
  apply bind_Done in H1 as ([] & h3 & H3 & H1).
  assert (Q3 : runs h3 = runs h /\ made h3 = made h).
  { revert H3. apply quiet_when. apply quiet_act. exact I. }
  apply bind_Done in H1 as ([] & h4 & H4 & H1).
  apply run_Done in H4. injection H1 as <- <-.
  apply bind_Done in H as (old & h5 & H5 & H). injection H5 as _ <-.
  apply bind_Done in H as ([] & h6 & H6 & H).
  assert (Q6 : runs h6 = runs h4 /\ made h6 = made h4).
  { revert H6. apply quiet_when. apply quiet_act. exact I. }
  apply bind_Done in H as ([] & h7 & H7 & H). injection H7 as <-.
  match type of H with
  | ?m _ = _ => assert (Q : quiet m) by (repeat quiet_step)
  end.
  pose proof H as H'. apply Q in H' as [R M].
  split.
  - repeat (apply bind_Done in H as ([] & ? & _ & H)).
    injection H as <- _. reflexivity.
  - rewrite R, M, runs_app, made_app. destruct Q6 as [-> ->].
    rewrite H4, runs_app, made_app. destruct Q3 as [-> ->].
    unfold command. rewrite Hw. simpl. rewrite !app_nil_r.
    split; reflexivity.
Qed.

(** On Windows a call that takes the tree as it is reads [target_dir]
    before any assignment to it. *)
Lemma build_windows_unbound dir config build_args name args h :
  is_windows w = true ->
  takes_prebuilt w dir config args h = true ->
  build_windows w dir config build_args name args h
  = Raised UnboundLocalError h.
Proof.
  intros Hw Hp. unfold takes_prebuilt, perf_test_exe in Hp.
  rewrite Hw in Hp. unfold build_windows, bind, exists_.
  rewrite prebuilt_after, Hp. reflexivity.
Qed.

(** Elsewhere a call that returns has made its directory under [bin],
    and has run the build command once unless it took the tree as it
    is. *)
Lemma build_linux_trace dir config build_args name args h p h' :
  is_windows w = false ->
  build_linux w dir config build_args name args h = Done p h' ->
  p = takes_prebuilt w dir config args h /\
  runs h' = runs h ++ (if takes_prebuilt w dir config args h then []
                       else [command w dir config build_args]) /\
  made h' = made h ++ [join w ["bin"; config; name]%string].
Proof.
  intros Hw H. unfold takes_prebuilt, perf_test_exe.
  rewrite Hw. unfold build_linux in H.
  apply bind_Done in H as (found & h0 & H0 & H). injection H0 as <- <-.
  rewrite prebuilt_after in H.
  set (pb := prebuilt args && _) in *. clearbody pb.
  apply bind_Done in H as ([] & h1 & H1 & H).
  assert (Q1 : runs h1 = runs h ++ (if pb then []
                                    else [command w dir config build_args]) /\
               made h1 = made h).
  { destruct pb; cbn [negb] in H1.
    - injection H1 as <-. rewrite app_nil_r. split; reflexivity.
    - apply bind_Done in H1 as (cached & h2 & H2 & H1). injection H2 as _ <-.
      apply bind_Done in H1 as ([] & h3 & H3 & H1).
      assert (Q3 : runs h3 = runs h /\ made h3 = made h).
      { revert H3. apply quiet_when. apply quiet_act. exact I. }
      apply bind_Done in H1 as (env & h4 & H4 & H1).
      assert (Q4 : runs h4 = runs h3 /\ made h4 = made h3).
      { match type of H4 with
        | ?m _ = _ => assert (Q : quiet m)
        end.
        { destruct (use_tensorrt args); [|apply quiet_ret].
          destruct (Dict.get _ _); [destruct (tensorrt_home args)|];
            repeat quiet_step. }
        exact (Q _ _ _ H4). }
      apply run_Done in H1. rewrite H1, runs_app, made_app.
      destruct Q4 as [-> ->]. destruct Q3 as [-> ->].
      unfold command. rewrite Hw. simpl. rewrite !app_nil_r.
      split; reflexivity. }
  apply bind_Done in H as (old & h5 & H5 & H). injection H5 as _ <-.
  apply bind_Done in H as ([] & h6 & H6 & H).
  assert (Q6 : runs h6 = runs h1 /\ made h6 = made h1).
  { revert H6. apply quiet_when. apply quiet_act. exact I. }
  apply bind_Done in H as ([] & h7 & H7 & H). injection H7 as <-.
  match type of H with
  | ?m _ = _ => assert (Q : quiet m) by (repeat quiet_step)
  end.
  pose proof H as H'. apply Q in H' as [R M].
  split.
  - repeat (apply bind_Done in H as ([] & ? & _ & H)).
    injection H as <- _. reflexivity.
  - rewrite R, M, runs_app, made_app. destruct Q6 as [-> ->].
    destruct Q1 as [-> ->]. simpl. rewrite !app_nil_r.
    split; reflexivity.
Qed.

(** A call for a run from source leaves [args.prebuilt] false and, when
    it returns, has made the build unless [args.variants] leaves it out. *)
Lemma build_trace dir config build_args name args h p h' :
  prebuilt args = false ->
  build_onnxruntime w dir config build_args name args h = Done p h' ->
  set_prebuilt args p = args /\
  runs h' = runs h ++ (if skipped name args then []
                       else [command w dir config build_args]) /\
  made h' = made h ++ (if skipped name args then []
                       else [join w ["bin"; config; name]%string]).
Proof.
  intros Hp H. unfold build_onnxruntime in H.
  assert (Hset : set_prebuilt args false = args).
  { unfold set_prebuilt. rewrite <- Hp. destruct args; reflexivity. }
  assert (Ht : takes_prebuilt w dir config args h = false).
  { unfold takes_prebuilt. rewrite Hp. reflexivity. }
  destruct (skipped name args).
  - injection H as <- <-. rewrite Hp, !app_nil_r. repeat split. exact Hset.
  - destruct (is_windows w) eqn:Hw.
    + destruct (build_windows_trace _ _ _ _ _ _ _ _ Hw Ht H) as (-> & R & M).
      repeat split; assumption.
    + destruct (build_linux_trace _ _ _ _ _ _ _ _ Hw H) as (-> & R & M).
      rewrite Ht in *. repeat split; assumption.
Qed.

(** X28  In a run from source that returns, the build
    commands run are those of the builds that [--variants] lets through,
    in the order [mlas_eps], [mklml], [ngraph], [omp_eps], each once and
    with the flags of [plan]: the CUDA and TensorRT flags go to
    [mlas_eps] only and [omp_eps] is built with [--use_dnnl --use_openmp].
    The directories made are [bin/<config>/<name>] for the same builds. *)
Theorem from_source_builds (args : Args) (h h' : list action) :
  prebuilt args = false ->
  main w args h = Done tt h' ->
  runs h' = runs h
            ++ List.map (fun b => command w (onnxruntime_home args)
                                    (config args) (snd b))
                        (chosen args) /\
  made h' = made h
            ++ List.map (fun b => join w ["bin"%string; config args; fst b])
                        (chosen args).
Proof.
  intros Hp H. unfold main in H. rewrite Hp in H.
  apply bind_Done in H as (p1 & h1 & H1 & H).
  apply (build_trace _ _ _ _ _ _ _ _ Hp) in H1 as (E1 & R1 & M1).
  cbv beta zeta in H. rewrite E1 in H.
  apply bind_Done in H as (args2 & h2 & H2 & H).
  assert (S2 : args2 = args /\
               runs h2 = runs h1
                 ++ (if use_mklml args
                     then if skipped "mklml" args then []
                          else [command w (onnxruntime_home args) (config args)
                                  ("--use_mklml"%string :: nuphar_args args)]
                     else []) /\
               made h2 = made h1
                 ++ (if use_mklml args
                     then if skipped "mklml" args then []
                          else [join w ["bin"%string; config args; "mklml"%string]]
                     else [])).
  { destruct (use_mklml args).
    - apply bind_Done in H2 as (p2 & h2' & H2' & H2).
      apply (build_trace _ _ _ _ _ _ _ _ Hp) in H2' as (E & R & M).
      injection H2 as <- <-. rewrite E. repeat split; assumption.
    - destruct (use_nuphar args); [discriminate H2|].
      injection H2 as <- <-. rewrite !app_nil_r. repeat split. }
  destruct S2 as (-> & R2 & M2).
  apply bind_Done in H as (args3 & h3 & H3 & H).
  assert (S3 : args3 = args /\
               runs h3 = runs h2
                 ++ (if use_ngraph args
                     then if skipped "ngraph" args then []
                          else [command w (onnxruntime_home args) (config args)
                                  ["--use_openmp"; "--use_ngraph"]%string]
                     else []) /\
               made h3 = made h2
                 ++ (if use_ngraph args
                     then if skipped "ngraph" args then []
                          else [join w ["bin"%string; config args; "ngraph"%string]]
                     else [])).
  { destruct (use_ngraph args).
    - apply bind_Done in H3 as (p3 & h3' & H3' & H3).
      apply (build_trace _ _ _ _ _ _ _ _ Hp) in H3' as (E & R & M).
      injection H3 as <- <-. rewrite E. repeat split; assumption.
    - injection H3 as <- <-. rewrite !app_nil_r. repeat split. }
  destruct S3 as (-> & R3 & M3).
  apply bind_Done in H as (p4 & h4 & H4 & H). injection H as <-.
  apply (build_trace _ _ _ _ _ _ _ _ Hp) in H4 as (_ & R4 & M4).
  rewrite R4, M4, R3, M3, R2, M2, R1, M1.
  unfold chosen, plan. rewrite !List.filter_app, !List.map_app.
  rewrite <- !app_assoc.
  destruct (use_mklml args), (use_ngraph args); cbn [List.filter List.map fst snd negb app];
    destruct (skipped "mlas_eps" args), (skipped "omp_eps" args);
    try destruct (skipped "mklml" args); try destruct (skipped "ngraph" args);
    cbn [negb List.map fst snd app]; split; reflexivity.
Qed.

(** X29  A run from source with [--use_nuphar] and
    without [--use_mklml] never returns, and the request is refused only
    after the first build: once the [mlas_eps] build has returned, with
    its build command run unless [--variants] leaves it out, the script
    raises [ValueError] and does nothing more. *)
Theorem nuphar_needs_mklml (args : Args) (h : list action) :
  prebuilt args = false ->
  use_nuphar args = true ->
  use_mklml args = false ->
  (forall h', main w args h <> Done tt h') /\
  forall p h1,
    build_onnxruntime w (onnxruntime_home args) (config args)
      (first_build_args args) "mlas_eps" args h = Done p h1 ->
    main w args h = Raised ValueError h1 /\
    runs h1 = runs h
              ++ (if skipped "mlas_eps" args then []
                  else [command w (onnxruntime_home args) (config args)
                          (first_build_args args)]).
Proof.
  intros Hp Hn Hm.
  assert (Hmain : forall p h1,
             build_onnxruntime w (onnxruntime_home args) (config args)
               (first_build_args args) "mlas_eps" args h = Done p h1 ->
             main w args h = Raised ValueError h1).
  { intros p h1 H1. unfold main. rewrite Hp. unfold bind at 1. rewrite H1.
    destruct (build_trace _ _ _ _ _ _ _ _ Hp H1) as (E1 & _).
    cbv beta zeta. rewrite E1, Hm, Hn. reflexivity. }
  split.
  - intros h' H. pose proof H as H'. unfold main in H'. rewrite Hp in H'.
    apply bind_Done in H' as (p & h1 & H1 & _).
    rewrite (Hmain _ _ H1) in H. discriminate H.
  - intros p h1 H1. split; [exact (Hmain _ _ H1)|].
    exact (proj1 (proj2 (build_trace _ _ _ _ _ _ _ _ Hp H1))).
Qed.

(** X30  With [--prebuilt], a build that [--variants] lets
    through and a built tree in place, the script on Windows raises
    [UnboundLocalError] before it does anything; elsewhere a run that
    returns has run no process and made the one directory
    [bin/<config>/<name>], where the name is [ngraph], [mklml] or
    [all_eps]. *)
Theorem prebuilt_tree (args : Args) (h : list action) :
  prebuilt args = true ->
  skipped (prebuilt_name args) args = false ->
  path_exists w h (perf_test_exe w (onnxruntime_home args) (config args)) = true ->
  if is_windows w then main w args h = Raised UnboundLocalError h
  else forall h', main w args h = Done tt h' ->
         runs h' = runs h /\
         made h' = made h ++ [join w ["bin"%string; config args;
                                      prebuilt_name args]].
Proof.
  intros Hp Hs He.
  assert (Ht : takes_prebuilt w (onnxruntime_home args) (config args) args h
               = true).
  { unfold takes_prebuilt. rewrite Hp, He. reflexivity. }
  unfold main, build_onnxruntime. rewrite Hp, Hs.
  destruct (is_windows w) eqn:Hw.
  - unfold bind. rewrite (build_windows_unbound _ _ _ _ _ _ Hw Ht). reflexivity.
  - intros h' H. apply bind_Done in H as (p & h1 & H1 & H). injection H as <-.
    destruct (build_linux_trace _ _ _ _ _ _ _ _ Hw H1) as (_ & R & M).
    rewrite Ht, app_nil_r in R. split; assumption.
Qed.

End BuildFacts.

(** ** The report accounts for the trials *)

Section HeapFacts.

Context (w : World).

Lemma stamped_new b h p st r st' :
  stamped b h st -> build_name p = b ->
  new p st = Ok (r, st') -> stamped b h st'.
Proof.
  intros S Hb H. apply new_Ok in H as (-> & Hh & _).
  intros r q Hr Hq. rewrite Hh in Hq.
  apply lookup_app_Some in Hq as [Hq | [_ Hq]]; [exact (S _ _ Hr Hq)|].
  apply list_lookup_singleton_Some in Hq as [_ <-]. exact Hb.
Qed.

Lemma stamped_run b h r percentiles st u st' :
  stamped b h st ->
  run_perf_tuning w r percentiles st = Ok (u, st') -> stamped b h st'.
Proof.
  intros S H. apply run_perf_tuning_Ok in H
    as (p & cmd & l & p' & Hp & _ & _ & Hh & Hp' & _ & _ & _ & Hb & _).
  intros r0 q Hr Hq. rewrite Hh in Hq.
  destruct (decide (r0 = r)) as [-> | N].
  - rewrite list_lookup_insert_eq in Hq by (eapply lookup_lt_Some; exact Hp).
    injection Hq as <-. rewrite Hb. exact (S _ _ Hr Hp).
  - rewrite list_lookup_insert_ne in Hq by congruence. exact (S _ _ Hr Hq).
Qed.

(** A run keeps the length of the heap, the objects other than its own,
    and the name and provider of its own. *)
Lemma run_perf_tuning_heap r percentiles st u st' :
  run_perf_tuning w r percentiles st = Ok (u, st') ->
  length (heap st') = length (heap st) /\
  (forall r', r' <> r -> heap st' !! r' = heap st !! r') /\
  exists p p', heap st !! r = Some p /\ heap st' !! r = Some p' /\
               name p' = name p /\ build_name p' = build_name p.
Proof.
  intros H. apply run_perf_tuning_Ok in H
    as (p & cmd & l & p' & Hp & _ & _ & Hh & Hp' & _ & _ & Hn & Hb & _).
  split; [rewrite Hh; apply length_insert|].
  split; [intros r' N; rewrite Hh; apply list_lookup_insert_ne; congruence|].
  exists p, p'. auto.
Qed.

Lemma run_perf_tuning_take h r percentiles st u st' :
  (h <= r)%nat ->
  run_perf_tuning w r percentiles st = Ok (u, st') ->
  take h (heap st') = take h (heap st).
Proof.
  intros Hr H. apply run_perf_tuning_Ok in H
    as (p & cmd & l & p' & Hp & _ & _ & Hh & _).
  rewrite Hh. apply take_insert_ge. exact Hr.
Qed.

End HeapFacts.

Section TunerTrials.

Context (w : World) (b build_path : string).
Context (test_params : PerfTestParams) (num_cores : Z)
        (name_suffix desc_suffix : string) (is_omp tune_inter_ops : bool).

Lemma make_probe_build_name n :
  build_name (make_probe w b build_path test_params name_suffix desc_suffix
                         is_omp tune_inter_ops n) = b.
Proof.
  unfold make_probe. destruct tune_inter_ops; [reflexivity|].
  destruct is_omp; reflexivity.
Qed.

Lemma stamped_probe h n st r param st1 :
  stamped b h st ->
  probe w b build_path test_params name_suffix desc_suffix is_omp
        tune_inter_ops n st = Ok ((r, param), st1) ->
  stamped b h st1.
Proof.
  intros S H. apply probe_Ok in H as (_ & H & _).
  eapply stamped_run; [|exact H].
  intros r0 q Hr Hq. unfold with_probe in Hq. cbn [heap] in Hq.
  apply lookup_app_Some in Hq as [Hq | [_ Hq]]; [exact (S _ _ Hr Hq)|].
  apply list_lookup_singleton_Some in Hq as [_ <-].
  apply make_probe_build_name.
Qed.

Lemma stamped_while_loop h fuel : forall s st s' st',
  stamped b h st ->
  while_loop w b build_path test_params num_cores name_suffix desc_suffix
             is_omp tune_inter_ops fuel s st = Ok (s', st') ->
  stamped b h st'.
Proof.
  induction fuel as [|fuel IH]; intros s st s' st' S H; cbn [while_loop] in H.
  - destruct (lower s <=? upper s); [discriminate|].
    apply ret_Ok in H as [_ ->]. exact S.
  - destruct (lower s <=? upper s); [|apply ret_Ok in H as [_ ->]; exact S].
    apply bind_Ok in H as (step & st1 & Hbody & H).
    assert (S1 : stamped b h st1).
    { rewrite loop_body_eq in Hbody.
      destruct (midpoint s =? 2); [injection Hbody as _ <-; exact S|].
      destruct (probe _ _ _ _ _ _ _ _ _ _) as [[[r param] st2]| |] eqn:P;
        try discriminate.
      apply (stamped_probe h) in P; [|exact S].
      destruct (avg param) as [a|]; [destruct (truthy (Some a))|];
        injection Hbody as _ <-; exact P. }
    destruct step as [s1 | s1].
    + exact (IH _ _ _ _ S1 H).
    + apply ret_Ok in H as [_ ->]. exact S1.
Qed.

Lemma stamped_tuner h failed successful st x st' :
  stamped b h st ->
  run_perf_tuning_binary w b build_path test_params num_cores name_suffix
    desc_suffix is_omp tune_inter_ops failed successful st = Ok (x, st') ->
  stamped b h st'.
Proof.
  intros S H. rewrite run_perf_tuning_binary_eq in H.
  destruct (initial_upper num_cores is_omp <? 2);
    [injection H as _ <-; exact S|].
  destruct (probe _ _ _ _ _ _ _ _ _ _) as [[[r param] st1]| |] eqn:P;
    try discriminate.
  apply (stamped_probe h) in P; [|exact S].
  destruct (truthy (avg param)); [|injection H as _ <-; exact P].
  destruct (avg param) as [a|]; [|injection H as _ <-; exact P].
  destruct (while_loop _ _ _ _ _ _ _ _ _ _ _ _) as [[s st2]| |] eqn:L;
    try discriminate.
  injection H as _ <-. exact (stamped_while_loop h _ _ _ _ _ P L).
Qed.

(** What a search adds: its trials are the new objects, each in one of
    the two lists according to the truth value of its average; the
    objects that were there stay as they were. *)
Lemma tuner_trials failed successful st best failed' successful' st' :
  run_perf_tuning_binary w b build_path test_params num_cores name_suffix
    desc_suffix is_omp tune_inter_ops failed successful st
  = Ok ((best, failed', successful'), st') ->
  take (length (heap st)) (heap st') = heap st /\
  (length (heap st) <= length (heap st'))%nat /\
  exists passed not_passed,
    successful' = successful ++ passed /\
    failed' = failed ++ not_passed /\
    (forall r, r ∈ passed ->
       (length (heap st) <= r < length (heap st'))%nat /\
       exists p, heap st' !! r = Some p /\ truthy (avg p) = true) /\
    (forall r, r ∈ not_passed ->
       (length (heap st) <= r < length (heap st'))%nat /\
       exists p, heap st' !! r = Some p /\ truthy (avg p) = false) /\
    (forall r, (length (heap st) <= r < length (heap st'))%nat ->
       r ∈ passed \/ r ∈ not_passed) /\
    NoDup passed.
Proof.
  intros H. apply search_outcome in H
    as (passed & not_passed & Hs & Hf & Hseq & _ & _ & Hlen & Htake & _
        & Hnp & Hp & _).
  split; [exact Htake|]. split; [lia|].
  exists passed, not_passed. split; [exact Hs|]. split; [exact Hf|].
  assert (Hnd : NoDup passed).
  { assert (N : NoDup (passed ++ not_passed)) by (rewrite Hseq; apply NoDup_seq).
    apply NoDup_app in N as (N & _). exact N. }
  assert (Hin : forall r, r ∈ passed ++ not_passed <->
                          (length (heap st) <= r < length (heap st'))%nat).
  { intros r. rewrite Hseq, list_elem_of_In, in_seq. lia. }
  split; [|split; [|split; [|exact Hnd]]].
  - intros r Hr. split; [apply Hin, elem_of_app; left; exact Hr|].
    exact (Hp r Hr).
  - intros r Hr. split; [apply Hin, elem_of_app; right; exact Hr|].
    exact (Hnp r Hr).
  - intros r Hr. apply Hin, elem_of_app in Hr. exact Hr.
Qed.

End TunerTrials.

Section RoundFacts.

Context (w : World) (bin_dir : string) (a : Args).
Context (b build_path : string) (flags : list string).
Context (h : nat) (heap0 : list PerfTestParams) (failed0 : list ref).

Local Abbreviation round := (provider_round b h heap0 failed0).

Lemma round_tuner test_params num_cores name_suffix desc_suffix is_omp
    tune_inter_ops tests failed successful st best failed' successful' st' :
  round tests failed successful st ->
  run_perf_tuning_binary w b build_path test_params num_cores name_suffix
    desc_suffix is_omp tune_inter_ops failed successful st
  = Ok ((best, failed', successful'), st') ->
  round tests failed' successful' st'.
Proof.
  intros (Htake & Hh & S & F0 & Hsucc & Htests & Hnds & Hndt & Hall) H.
  pose proof (stamped_tuner _ _ _ _ _ _ _ _ _ h _ _ _ _ _ S H) as S'.
  apply tuner_trials in H
    as (Hframe & Hlen & passed & not_passed & -> & -> & Hp & Hnp & Hnew
        & Hndp).
  assert (Hold : forall r, (r < length (heap st))%nat ->
                           heap st' !! r = heap st !! r).
  { intros r Hr.
    transitivity (take (length (heap st)) (heap st') !! r);
      [symmetry; apply lookup_take_lt; exact Hr | rewrite Hframe; reflexivity]. }
  split; [|split; [lia|split; [exact S'|split; [|split; [|split;
    [|split; [|split; [exact Hndt|]]]]]]]].
  - rewrite <- Htake, <- Hframe, take_take. f_equal. lia.
  - intros r Hr. apply elem_of_app. left. exact (F0 r Hr).
  - intros r Hr. apply elem_of_app in Hr as [Hr | Hr].
    + destruct (Hsucc r Hr) as (Hhr & Hnt & p & Hlook & Ht).
      split; [exact Hhr|]. split; [exact Hnt|]. exists p.
      split; [|exact Ht]. rewrite Hold; [exact Hlook|].
      eapply lookup_lt_Some; exact Hlook.
    + destruct (Hp r Hr) as (Hr' & p & Hlook & Ht).
      split; [lia|]. split; [|eauto].
      intros Hin. apply Htests in Hin. lia.
  - intros r Hr. apply Htests in Hr. lia.
  - apply NoDup_app. split; [exact Hnds|]. split; [|exact Hndp].
    intros r Hr Hr'. destruct (Hsucc r Hr) as (_ & _ & p & Hlook & _).
    apply lookup_lt_Some in Hlook. apply Hp in Hr' as [Hr' _]. lia.
  - intros r p Hr Hlook.
    destruct (decide (r < length (heap st))%nat) as [Hlt | Hge].
    + rewrite (Hold r Hlt) in Hlook.
      destruct (Hall r p Hr Hlook) as [[Hf Ht] | [Hs | Ht]].
      * left. split; [apply elem_of_app; left; exact Hf | exact Ht].
      * right. left. apply elem_of_app. left. exact Hs.
      * right. right. exact Ht.
    + assert (Hin : (length (heap st) <= r < length (heap st'))%nat).
      { split; [lia|]. eapply lookup_lt_Some; exact Hlook. }
      destruct (Hnew r Hin) as [Hr' | Hr'].
      * right. left. apply elem_of_app. right. exact Hr'.
      * left. destruct (Hnp r Hr') as (_ & p' & Hlook' & Ht).
        rewrite Hlook in Hlook'. injection Hlook' as <-.
        split; [apply elem_of_app; right; exact Hr' | exact Ht].
Qed.

Lemma round_new tests failed successful p st r st' :
  round tests failed successful st -> build_name p = b ->
  new p st = Ok (r, st') ->
  round (tests ++ [r]) failed successful st'.
Proof.
  intros (Htake & Hh & S & F0 & Hsucc & Htests & Hnds & Hndt & Hall) Hb H.
  pose proof (stamped_new b h p st r st' S Hb H) as S'.
  apply new_Ok in H as (-> & Hheap & _).
  assert (Hlen : length (heap st') = Datatypes.S (length (heap st))).
  { rewrite Hheap, length_app. simpl. lia. }
  split; [|split; [lia|split; [exact S'|split; [exact F0|split; [|split;
    [|split; [exact Hnds|split]]]]]]].
  - rewrite Hheap, take_app_le by lia. exact Htake.
  - intros r Hr. destruct (Hsucc r Hr) as (Hhr & Hnt & q & Hlook & Ht).
    split; [exact Hhr|]. split.
    + intros Hin. apply elem_of_app in Hin as [Hin | Hin]; [exact (Hnt Hin)|].
      apply list_elem_of_singleton in Hin. subst r.
      apply lookup_lt_Some in Hlook. lia.
    + exists q. split; [|exact Ht]. rewrite Hheap.
      apply lookup_app_l_Some. exact Hlook.
  - intros r Hr. apply elem_of_app in Hr as [Hr | Hr].
    + apply Htests in Hr. lia.
    + apply list_elem_of_singleton in Hr. subst r. lia.
  - apply NoDup_app. split; [exact Hndt|]. split; [|apply NoDup_singleton].
    intros r Hr Hr'. apply list_elem_of_singleton in Hr'. subst r.
    apply Htests in Hr. lia.
  - intros r q Hr Hlook. rewrite Hheap in Hlook.
    apply lookup_app_Some in Hlook as [Hlook | [Hge Hlook]].
    + destruct (Hall r q Hr Hlook) as [Hf | [Hs | Ht]]; [auto | auto |].
      right. right. apply elem_of_app. left. exact Ht.
    + apply list_lookup_singleton_Some in Hlook as [E _].
      right. right. apply elem_of_app. right.
      apply list_elem_of_singleton. lia.
Qed.

Lemma round_add_candidates e env_option is_omp name_suffix desc_suffix
    best_inter best_pool tests failed successful st tests' st' :
  round tests failed successful st ->
  add_candidates w a b build_path flags e env_option is_omp name_suffix
    desc_suffix best_inter best_pool tests st = Ok (tests', st') ->
  round tests' failed successful st'.
Proof.
  intros R H. unfold add_candidates in H.
  apply bind_Ok in H as (tests1 & st1 & H1 & H).
  assert (R1 : round tests1 failed successful st1).
  { destruct (1 <? best_inter); [|apply ret_Ok in H1 as [-> ->]; exact R].
    destruct (1 <? best_pool); [|apply ret_Ok in H1 as [-> ->]; exact R].
    apply bind_Ok in H1 as (r & st2 & Hnew & H1).
    apply ret_Ok in H1 as [-> ->].
    eapply round_new; [exact R| |exact Hnew].
    destruct is_omp; reflexivity. }
  apply bind_Ok in H as (r & st2 & Hnew & H).
  apply ret_Ok in H as [-> ->].
  eapply round_new; [exact R1| |exact Hnew]. reflexivity.
Qed.

Lemma round_run tests failed successful t st u st' :
  round tests failed successful st -> t ∈ tests ->
  run_perf_tuning w t false st = Ok (u, st') ->
  round tests failed successful st'.
Proof.
  intros (Htake & Hh & S & F0 & Hsucc & Htests & Hnds & Hndt & Hall) Ht H.
  pose proof (stamped_run w b h t false st u st' S H) as S'.
  pose proof (run_perf_tuning_take w h t false st u st'
                (proj1 (Htests t Ht)) H) as Hframe.
  apply run_perf_tuning_heap in H as (Hlen & Hother & _).
  split; [|split; [lia|split; [exact S'|split; [exact F0|split; [|split;
    [|split; [exact Hnds|split; [exact Hndt|]]]]]]]].
  - rewrite Hframe. exact Htake.
  - intros r Hr. destruct (Hsucc r Hr) as (Hhr & Hnt & q & Hlook & Hq).
    split; [exact Hhr|]. split; [exact Hnt|]. exists q.
    split; [|exact Hq]. rewrite Hother; [exact Hlook|].
    intros ->. exact (Hnt Ht).
  - intros r Hr. rewrite Hlen. exact (Htests r Hr).
  - intros r q Hr Hlook. destruct (decide (r = t)) as [-> | N].
    + right. right. exact Ht.
    + rewrite (Hother r N) in Hlook. exact (Hall r q Hr Hlook).
Qed.

Lemma round_run_all tests failed successful l : forall st u st',
  round tests failed successful st -> (forall t, t ∈ l -> t ∈ tests) ->
  for_each l (fun test _ => run_perf_tuning w test false) tt st = Ok (u, st') ->
  round tests failed successful st'.
Proof.
  induction l as [|t l IH]; intros st u st' R Hsub H; simpl in H.
  - apply ret_Ok in H as [_ ->]. exact R.
  - apply bind_Ok in H as ([] & st1 & Hrun & H).
    eapply IH; [|intros t' Ht'; apply Hsub; right; exact Ht'|exact H].
    eapply round_run; [exact R|apply Hsub; left|exact Hrun].
Qed.

Lemma round_sweep_combo env_names best_inter combo tests failed successful st
    tests' failed' successful' st' :
  round tests failed successful st ->
  sweep_combo w a b build_path flags env_names best_inter combo
    (tests, failed, successful) st = Ok ((tests', failed', successful'), st') ->
  round tests' failed' successful' st'.
Proof.
  intros R H. unfold sweep_combo in H.
  apply bind_Ok in H as (e & st1 & He & H). apply lift_Ok in He as [_ ->].
  apply bind_Ok in H as (num_threads & st2 & Hn & H).
  apply lift_Ok in Hn as [_ ->].
  apply bind_Ok in H as ([[best failed1] successful1] & st3 & Htuner & H).
  apply bind_Ok in H as (tests1 & st4 & Hadd & H).
  apply ret_Ok in H as [E ->]. injection E as <- <- <-.
  eapply round_add_candidates; [|exact Hadd].
  eapply round_tuner; [exact R | exact Htuner].
Qed.

Lemma round_sweep env_names best_inter combos : forall tests failed successful st
    tests' failed' successful' st',
  round tests failed successful st ->
  for_each combos (sweep_combo w a b build_path flags env_names best_inter)
    (tests, failed, successful) st = Ok ((tests', failed', successful'), st') ->
  round tests' failed' successful' st'.
Proof.
  induction combos as [|combo combos IH];
    intros tests failed successful st tests' failed' successful' st' R H;
    simpl in H.
  - apply ret_Ok in H as [E ->]. injection E as <- <- <-. exact R.
  - apply bind_Ok in H as ([[tests1 failed1] successful1] & st1 & Hc & H).
    eapply IH; [|exact H]. eapply round_sweep_combo; [exact R | exact Hc].
Qed.

End RoundFacts.

Lemma by_ep_get_set_ne d k v k' :
  k' <> k -> by_ep_get (by_ep_set d k v) k' = by_ep_get d k'.
Proof.
  intros N. induction d as [|[k0 v0] d IH]; simpl.
  - destruct (String.eqb k k') eqn:E; [|reflexivity].
    apply String.eqb_eq in E. congruence.
  - destruct (String.eqb k0 k) eqn:E; simpl.
    + apply String.eqb_eq in E. subst k0.
      destruct (String.eqb k k') eqn:E'; [|reflexivity].
      apply String.eqb_eq in E'. congruence.
    + destruct (String.eqb k0 k'); [reflexivity | exact IH].
Qed.

Lemma kept_set d k v : kept (by_ep_set d k v) k = v.
Proof. unfold kept. rewrite by_ep_get_set. reflexivity. Qed.

Lemma kept_set_ne d k v k' : k' <> k -> kept (by_ep_set d k v) k' = kept d k'.
Proof. intros N. unfold kept. rewrite by_ep_get_set_ne by exact N. reflexivity. Qed.

Lemma slice_to_cut {A} (l : list A) n x :
  x ∈ l -> x ∉ slice_to l n -> 0 <= n ->
  Z.of_nat (length (slice_to l n)) = n.
Proof.
  intros Hin Hout Hn. unfold slice_to in *.
  destruct (0 <=? n) eqn:E; [|apply Z.leb_gt in E; lia].
  destruct (decide (length l <= Z.to_nat n)%nat) as [Hle | Hgt].
  - rewrite take_ge in Hout by exact Hle. contradiction.
  - rewrite length_take. lia.
Qed.

Lemma NoDup_map_filter {A B} (f : A -> B) (g : A -> bool) (l : list A) :
  NoDup (List.map f l) -> NoDup (List.map f (List.filter g l)).
Proof.
  induction l as [|x l IH]; simpl; intros H; [exact H|].
  apply NoDup_cons in H as [Hx H].
  destruct (g x); simpl; [|exact (IH H)].
  apply NoDup_cons. split; [|exact (IH H)].
  intros Hin. apply Hx.
  apply list_elem_of_In, in_map_iff in Hin as (y & E & Hy).
  apply filter_In in Hy as [Hy _]. apply list_elem_of_In, in_map_iff. eauto.
Qed.

Lemma select_avg_NoDup want l st l' st' :
  select_avg want l st = Ok (l', st') -> NoDup l -> NoDup l'.
Proof.
  unfold select_avg. intros H Hnd.
  apply bind_Ok in H as (ps & st1 & Hps & H).
  apply deref_all_Ok in Hps as (-> & Hl & _).
  apply ret_Ok in H as [-> ->]. apply NoDup_map_filter. rewrite Hl. exact Hnd.
Qed.

Lemma ascending_key_lookup {A} (key : A -> Q) (l : list A) i j x y :
  ascending key l -> (i <= j)%nat ->
  l !! i = Some x -> l !! j = Some y -> (key x <= key y)%Q.
Proof.
  unfold ascending. intros S. revert i j x y.
  induction S as [|z l S IH F]; intros i j x y Hij Hi Hj; [discriminate|].
  destruct i as [|i], j as [|j]; simpl in Hi, Hj; try lia.
  - injection Hi as <-. injection Hj as <-. apply Qle_refl.
  - injection Hi as <-. rewrite Forall_forall in F. apply F.
    eapply list_elem_of_lookup_2. exact Hj.
  - eapply IH; [|exact Hi | exact Hj]. lia.
Qed.

(** In a ranking, a trial outside a prefix is not faster than a trial of
    the prefix. *)
Lemma rank_order (ps : list (ref * PerfTestParams)) (h : list PerfTestParams)
    m r p r' p' :
  ascending key_of ps ->
  (forall r p, (r, p) ∈ ps -> h !! r = Some p) ->
  r ∈ List.map fst ps -> r ∉ take m (List.map fst ps) ->
  r' ∈ take m (List.map fst ps) ->
  h !! r = Some p -> h !! r' = Some p' ->
  (key_of (r', p') <= key_of (r, p))%Q.
Proof.
  intros Hasc Hobj Hin Hout Hin' Hp Hp'.
  change (List.map fst ps) with (fst <$> ps) in *.
  apply elem_of_take in Hin' as (i & Hi & Him).
  apply list_elem_of_lookup in Hin as (j & Hj).
  assert (Hmj : (m <= j)%nat).
  { destruct (decide (m <= j)%nat) as [Hle | Hgt]; [exact Hle|].
    exfalso. apply Hout. apply elem_of_take. exists j. split; [exact Hj | lia]. }
  apply list_lookup_fmap_Some in Hi as ([r1 q'] & E' & Hi). simpl in E'. subst r1.
  apply list_lookup_fmap_Some in Hj as ([r2 q] & E & Hj). simpl in E. subst r2.
  assert (q' = p').
  { pose proof (Hobj r' q' (list_elem_of_lookup_2 _ _ _ Hi)) as H'. congruence. }
  assert (q = p).
  { pose proof (Hobj r q (list_elem_of_lookup_2 _ _ _ Hj)) as H'. congruence. }
  subst q q'.
  eapply (ascending_key_lookup key_of ps i j); [exact Hasc|lia|exact Hi|exact Hj].
Qed.

Section RankFacts.

Context (w : World) (a : Args) (b : string).

Lemma rank_spec tests successful s st s' st' n :
  rank w a b tests successful s st = Ok (s', st') ->
  int w (top_n a) = Some n ->
  st' = st /\
  exists passed not_passed ps,
    (forall r, r ∈ passed <->
       r ∈ tests /\ exists p, heap st !! r = Some p /\ truthy (avg p) = true) /\
    (forall r, r ∈ not_passed <->
       r ∈ tests /\ exists p, heap st !! r = Some p /\ truthy (avg p) = false) /\
    (NoDup tests -> NoDup passed) /\
    List.map fst ps ≡ₚ successful ++ passed /\
    ascending key_of ps /\
    (forall r p, (r, p) ∈ ps -> heap st !! r = Some p) /\
    successful_by_ep s'
    = (if (0 <? length (slice_to (List.map fst ps) n))%nat
       then by_ep_set (successful_by_ep s) b (slice_to (List.map fst ps) n)
       else successful_by_ep s) /\
    profile_candidates s'
    = match slice_to (List.map fst ps) n with
      | best :: _ => profile_candidates s ++ [best]
      | [] => profile_candidates s
      end /\
    failed s' = failed s ++ not_passed.
Proof.
  unfold rank. intros H Hint.
  apply bind_Ok in H as (passed & st1 & Hpassed & H).
  pose proof (select_avg_NoDup _ _ _ _ _ Hpassed) as Hnd.
  apply select_avg_Ok in Hpassed as (-> & Hpassed).
  apply bind_Ok in H as (ranked & st2 & Hranked & H).
  pose proof (sorted_by_avg_Ok _ _ _ _ Hranked) as (-> & Hperm).
  apply sorted_by_avg_ascending in Hranked as (ps & -> & Hasc & Hobj).
  apply bind_Ok in H as (m & st3 & Hm & H).
  apply lift_Ok in Hm as [Hm ->]. rewrite Hint in Hm. injection Hm as <-.
  apply bind_Ok in H as (not_passed & st4 & Hnp & H).
  apply select_avg_Ok in Hnp as (-> & Hnp).
  apply ret_Ok in H as [-> ->]. split; [reflexivity|].
  exists passed, not_passed, ps.
  cbn [successful_by_ep profile_candidates failed].
  repeat (split; [assumption || reflexivity|]). reflexivity.
Qed.

End RankFacts.

Section ProviderRound.

Context (w : World) (bin_dir : string) (a : Args).
Context (h0 : nat) (n : Z).
Hypothesis Hint : int w (top_n a) = Some n.

Lemma accounts_weaken done b s st :
  accounts h0 n done s st -> accounts h0 n (b :: done) s st.
Proof.
  intros (A1 & A2 & A3). split; [|split; [|exact A3]].
  - intros r p Hr Hp. destruct (A1 r p Hr Hp) as [Hd Hc].
    split; [right; exact Hd | exact Hc].
  - intros k l Hk. destruct (A2 k l Hk) as (Hd & Hrest).
    split; [right; exact Hd | exact Hrest].
Qed.

Lemma tune_accounts done b build_path flags s st s' st' :
  tune w a b build_path flags s st = Ok (s', st') ->
  accounts h0 n done s st -> (h0 <= length (heap st))%nat -> b ∉ done ->
  accounts h0 n (b :: done) s' st' /\ (h0 <= length (heap st'))%nat.
Proof.
  intros H (A1 & A2 & A3) Hh0 Hfresh. unfold tune in H.
  set (h := length (heap st)).
  assert (R0 : provider_round b h (heap st) (failed s) [] (failed s) [] st).
  { split; [apply take_ge; unfold h; lia|]. split; [unfold h; lia|].
    split; [intros r p Hr Hp; apply lookup_lt_Some in Hp; unfold h in Hr; lia|].
    split; [auto|]. split; [intros r Hr; inversion Hr|].
    split; [intros r Hr; inversion Hr|].
    split; [apply NoDup_nil_2|]. split; [apply NoDup_nil_2|].
    intros r p Hr Hp. apply lookup_lt_Some in Hp. unfold h in Hr. lia. }
  apply bind_Ok in H as ([[best failed1] successful1] & st1 & Hpar & H).
  assert (R1 : provider_round b h (heap st) (failed s) [] failed1 successful1 st1).
  { destruct (parallel a && mem b parallel_eps).
    - apply bind_Ok in Hpar as (num_cores & st0 & Hn & Hpar).
      apply lift_Ok in Hn as [_ ->].
      eapply round_tuner; [exact R0 | exact Hpar].
    - apply ret_Ok in Hpar as [E ->]. injection E as -> -> ->. exact R0. }
  apply bind_Ok in H as ([[tests failed2] successful2] & st2 & Hsweep & H).
  apply (round_sweep w a b build_path flags h (heap st) (failed s)) in Hsweep;
    [|exact R1].
  apply bind_Ok in H as ([] & st3 & Hrun & H).
  apply (round_run_all w b h (heap st) (failed s) tests failed2 successful2)
    in Hrun; [|exact Hsweep|auto].
  clear R0 R1 Hsweep Hpar.
  destruct Hrun as (Htake & Hh & S & F0 & Hsucc & Htests & Hnds & Hndt & Hall).
  apply (rank_spec w a b _ _ _ _ _ _ n) in H; [|exact Hint].
  destruct H as (-> & passed & not_passed & ps & Hpassed & Hnp & Hndp & Hperm
                 & Hasc & Hobj & Hby & Hcands & Hfailed).
  cbn [successful_by_ep profile_candidates failed] in Hby, Hcands, Hfailed.
  specialize (Hndp Hndt).
  set (ranked := List.map fst ps) in *.
  split; [|lia].
  (* the objects of the earlier rounds *)
  assert (Hold : forall r, (r < h)%nat -> heap st3 !! r = heap st !! r).
  { intros r Hr.
    transitivity (take h (heap st3) !! r);
      [symmetry; apply lookup_take_lt; exact Hr | rewrite Htake; reflexivity]. }
  assert (Hnone : by_ep_get (successful_by_ep s) b = None).
  { destruct (by_ep_get (successful_by_ep s) b) as [l|] eqn:E; [|reflexivity].
    destruct (A2 b l E) as [Hd _]. contradiction. }
  (* the trials of the ranking *)
  assert (Hranked : forall r, r ∈ ranked ->
            (h <= r)%nat /\
            exists p, heap st3 !! r = Some p /\ truthy (avg p) = true /\
                      build_name p = b).
  { intros r Hr. rewrite Hperm in Hr. apply elem_of_app in Hr as [Hr | Hr].
    - destruct (Hsucc r Hr) as (Hhr & _ & p & Hp & Ht).
      split; [exact Hhr|]. exists p. split; [exact Hp|]. split; [exact Ht|].
      exact (S r p Hhr Hp).
    - apply Hpassed in Hr as (Hr & p & Hp & Ht).
      destruct (Htests r Hr) as [Hhr _].
      split; [exact Hhr|]. exists p. split; [exact Hp|]. split; [exact Ht|].
      exact (S r p Hhr Hp). }
  assert (Hnd : NoDup ranked).
  { rewrite Hperm. apply NoDup_app. split; [exact Hnds|]. split; [|exact Hndp].
    intros r Hr Hr'. destruct (Hsucc r Hr) as (_ & Hnt & _).
    apply Hpassed in Hr' as [Hr' _]. contradiction. }
  destruct (slice_to_take ranked n) as [m Hm].
  set (keptl := slice_to ranked n) in *.
  assert (Hndk : NoDup keptl).
  { rewrite Hm. eapply sublist_NoDup; [exact Hnd | apply sublist_take]. }
  assert (Hkept_b : kept (successful_by_ep s') b = keptl).
  { rewrite Hby. destruct (0 <? length keptl)%nat eqn:E.
    - apply kept_set.
    - unfold kept. rewrite Hnone. apply Nat.ltb_ge in E.
      destruct keptl; [reflexivity | simpl in E; lia]. }
  assert (Hkept_other : forall k, k <> b ->
            by_ep_get (successful_by_ep s') k = by_ep_get (successful_by_ep s) k).
  { intros k N. rewrite Hby. destruct (0 <? length keptl)%nat; [|reflexivity].
    apply by_ep_get_set_ne. exact N. }
  assert (Hcands_old : forall c, c ∈ profile_candidates s ->
                                 c ∈ profile_candidates s').
  { intros c Hc. rewrite Hcands. destruct keptl; [exact Hc|].
    apply elem_of_app. left. exact Hc. }
  split; [|split].
  - intros r p Hr Hp. destruct (decide (r < h)%nat) as [Hlt | Hge].
    + rewrite (Hold r Hlt) in Hp. destruct (A1 r p Hr Hp) as [Hd Hc].
      assert (N : build_name p <> b) by (intros E; rewrite E in Hd; contradiction).
      split; [right; exact Hd|].
      unfold kept in *. rewrite (Hkept_other _ N).
      destruct Hc as [[Hf Ht] | [Hk | (Ht & Hfull & Hord)]].
      * left. split; [|exact Ht]. rewrite Hfailed. apply elem_of_app. left.
        exact (F0 r Hf).
      * right. left. exact Hk.
      * right. right. split; [exact Ht|]. split; [exact Hfull|].
        intros r' p' Hr' Hp'. apply Hord; [exact Hr'|].
        destruct (by_ep_get (successful_by_ep s) (build_name p)) as [l|] eqn:G;
          [|inversion Hr'].
        destruct (A2 _ l G) as (_ & _ & Hmem & _).
        destruct (Hmem r' Hr') as (q & Hq & _).
        rewrite <- Hold; [exact Hp'|]. apply lookup_lt_Some in Hq. exact Hq.
    + assert (Hhr : (h <= r)%nat) by lia.
      assert (Hb : build_name p = b) by exact (S r p Hhr Hp).
      split; [rewrite Hb; left|]. rewrite Hb, Hkept_b.
      assert (Hin : r ∈ ranked ->
                r ∈ keptl \/
                truthy (avg p) = true /\
                (0 <= n -> Z.of_nat (length keptl) = n) /\
                (forall r' p', r' ∈ keptl -> heap st3 !! r' = Some p' ->
                               (key_of (r', p') <= key_of (r, p))%Q)).
      { intros Hin. destruct (decide (r ∈ keptl)) as [Hk | Hk]; [left; exact Hk|].
        right. destruct (Hranked r Hin) as (_ & p' & Hp' & Ht & _).
        rewrite Hp in Hp'. injection Hp' as <-. split; [exact Ht|]. split.
        - intros Hn. eapply slice_to_cut; eassumption.
        - intros r' p' Hr' Hp'. rewrite Hm in Hk, Hr'.
          exact (rank_order ps (heap st3) m r p r' p' Hasc Hobj Hin Hk Hr'
                   Hp Hp'). }
      destruct (Hall r p Hhr Hp) as [[Hf Ht] | [Hs | Ht]].
      * left. split; [|exact Ht]. rewrite Hfailed. apply elem_of_app.
        left. exact Hf.
      * right. apply Hin. rewrite Hperm. apply elem_of_app. left. exact Hs.
      * destruct (decide (truthy (avg p) = true)) as [E | E].
        -- right. apply Hin. rewrite Hperm. apply elem_of_app.
           right. apply Hpassed. eauto.
        -- apply not_true_is_false in E.
           left. split; [|exact E]. rewrite Hfailed. apply elem_of_app.
           right. apply Hnp. eauto.
  - intros k l Hk. destruct (decide (k = b)) as [-> | N].
    + assert (El : l = keptl).
      { rewrite <- Hkept_b. unfold kept. rewrite Hk. reflexivity. }
      subst l. split; [left|]. split; [exact Hndk|]. split.
      * intros r Hr. apply slice_to_subset in Hr.
        destruct (Hranked r Hr) as (_ & p & Hp & Ht & Hb). eauto.
      * rewrite Hcands. rewrite Hby in Hk.
        destruct keptl as [|c l'] eqn:E.
        -- simpl in Hk. rewrite Hnone in Hk. discriminate Hk.
        -- exists c, l'. split; [reflexivity|]. apply elem_of_app. right. left.
    + rewrite (Hkept_other k N) in Hk.
      destruct (A2 k l Hk) as (Hd & Hndl & Hmem & Hc).
      split; [right; exact Hd|]. split; [exact Hndl|]. split.
      * intros r Hr. destruct (Hmem r Hr) as (p & Hp & Hb & Ht). exists p.
        split; [|auto]. rewrite Hold; [exact Hp|].
        apply lookup_lt_Some in Hp. exact Hp.
      * destruct Hc as (c & l' & E & Hc). exists c, l'.
        split; [exact E | exact (Hcands_old c Hc)].
  - intros c Hc. rewrite Hcands in Hc.
    assert (Old : c ∈ profile_candidates s ->
              exists p l', heap st3 !! c = Some p /\
                           by_ep_get (successful_by_ep s') (build_name p)
                           = Some (c :: l')).
    { intros Hc'. destruct (A3 c Hc') as (p & l' & Hp & Hk). exists p, l'.
      split; [rewrite Hold; [exact Hp | apply lookup_lt_Some in Hp; exact Hp]|].
      destruct (A2 _ _ Hk) as (Hd & _).
      rewrite Hkept_other; [exact Hk|].
      intros Eb. rewrite Eb in Hd. contradiction. }
    destruct keptl as [|c0 l'] eqn:E; [exact (Old Hc)|].
    apply elem_of_app in Hc as [Hc | Hc]; [exact (Old Hc)|].
    apply list_elem_of_singleton in Hc. subst c0.
    assert (Hin : c ∈ ranked).
    { apply (slice_to_subset ranked n). fold keptl. rewrite E. left. }
    destruct (Hranked c Hin) as (_ & p & Hp & Ht & Hb). exists p, l'.
    split; [exact Hp|]. rewrite Hb, Hby. simpl. apply by_ep_get_set.
Qed.

End ProviderRound.

Section ProviderLoop.

Context (w : World) (bin_dir : string) (a : Args).
Context (h0 : nat) (n : Z).
Hypothesis Hint : int w (top_n a) = Some n.

Lemma tune_provider_accounts done b s st s' st' :
  tune_provider w bin_dir a b s st = Ok (s', st') ->
  accounts h0 n done s st -> (h0 <= length (heap st))%nat -> b ∉ done ->
  accounts h0 n (b :: done) s' st' /\ (h0 <= length (heap st'))%nat /\
  supported b = true.
Proof.
  intros H A Hh Hfresh. unfold tune_provider in H.
  apply bind_Ok in H as (build_path & st1 & Hpath & H).
  assert (Hs : supported b = true /\ st1 = st).
  { unfold supported.
    destruct (Str.contains "mklml" b || Str.contains "nuphar" b).
    - apply ret_Ok in Hpath as [_ ->]. split; reflexivity.
    - destruct (mem b allProviders); [|discriminate Hpath].
      apply ret_Ok in Hpath as [_ ->]. split; reflexivity. }
  destruct Hs as [Hs ->].
  destruct (isdir w build_path).
  - destruct (tune_accounts w a h0 n Hint _ _ _ _ _ _ _ _ H A Hh Hfresh)
      as [A' Hh'].
    split; [exact A'|]. split; [exact Hh' | exact Hs].
  - apply ret_Ok in H as [-> ->].
    split; [apply accounts_weaken; exact A|]. split; [exact Hh | exact Hs].
Qed.

Lemma providers_accounts l : forall done s st s' st',
  for_each l (tune_provider w bin_dir a) s st = Ok (s', st') ->
  NoDup l -> (forall k, k ∈ l -> k ∉ done) ->
  (forall k, k ∈ done -> supported k = true) ->
  accounts h0 n done s st -> (h0 <= length (heap st))%nat ->
  exists done',
    accounts h0 n done' s' st' /\
    (forall k, k ∈ done' -> supported k = true).
Proof.
  induction l as [|b l IH]; intros done s st s' st' H Hnd Hfresh Hsup A Hh;
    simpl in H.
  - apply ret_Ok in H as [-> ->]. exists done. split; assumption.
  - apply bind_Ok in H as (s1 & st1 & Hb & H).
    apply NoDup_cons in Hnd as [Hnb Hnd].
    destruct (tune_provider_accounts done b s st s1 st1 Hb A Hh)
      as (A1 & Hh1 & Hs); [apply Hfresh; left|].
    apply (IH (b :: done) s1 st1 s' st' H Hnd); [| |exact A1|exact Hh1].
    + intros k Hk Hin. apply elem_of_cons in Hin as [-> | Hin];
        [contradiction|].
      apply (Hfresh k); [right; exact Hk | exact Hin].
    + intros k Hk. apply elem_of_cons in Hk as [-> | Hk]; [exact Hs|].
      exact (Hsup k Hk).
Qed.

End ProviderLoop.

Section ReportFacts.

Context (w : World).

Lemma report_set_same (d : report) k v : (k, v) ∈ report_set d k v.
Proof.
  induction d as [|[k0 v0] d IH]; simpl; [left|].
  destruct (String.eqb k0 k) eqn:E.
  - apply String.eqb_eq in E. subst k0. left.
  - right. exact IH.
Qed.

Lemma report_set_keep (d : report) k v k0 v0 :
  (k0, v0) ∈ d -> k0 <> k \/ v0 = v -> (k0, v0) ∈ report_set d k v.
Proof.
  intros Hin Hc. induction d as [|[k1 v1] d IH]; simpl; [inversion Hin|].
  destruct (String.eqb k1 k) eqn:E.
  - apply String.eqb_eq in E. subst k1.
    apply elem_of_cons in Hin as [Hin | Hin]; [|right; exact Hin].
    injection Hin as -> ->. destruct Hc as [N | ->]; [contradiction | left].
  - apply elem_of_cons in Hin as [Hin | Hin]; [rewrite Hin; left|].
    right. exact (IH Hin).
Qed.

Lemma fold_report_set_keep {A} (key : A -> string) k v (l : list A) :
  (forall x, x ∈ l -> key x = k) ->
  forall (d : report) k0 v0,
    (k0, v0) ∈ d -> k0 <> k \/ v0 = v ->
    (k0, v0) ∈ fold_left (fun out x => report_set out (key x) v) l d.
Proof.
  induction l as [|x l IH]; intros Hkey d k0 v0 Hin Hc; simpl; [exact Hin|].
  apply IH; [intros y Hy; apply Hkey; right; exact Hy| |exact Hc].
  rewrite (Hkey x) by left. apply report_set_keep; assumption.
Qed.

Lemma fold_report_set_new {A} (key : A -> string) k v (l : list A) (d : report) :
  (forall x, x ∈ l -> key x = k) -> l <> [] ->
  (k, v) ∈ fold_left (fun out x => report_set out (key x) v) l d.
Proof.
  intros Hkey Hne. destruct l as [|x l]; [contradiction|]. simpl.
  apply (fold_report_set_keep key k);
    [intros y Hy; apply Hkey; right; exact Hy| |right; reflexivity].
  rewrite (Hkey x) by left. apply report_set_same.
Qed.

Lemma json_records_elem tests records p :
  json_records tests = Ok records -> p ∈ tests ->
  exists record, record ∈ records /\ json_record p = Ok record.
Proof.
  revert records. induction tests as [|t tests IH]; intros records H Hp;
    [inversion Hp|].
  simpl in H. destruct (json_record t) as [rec| |] eqn:Et; try discriminate.
  simpl in H. destruct (json_records tests) as [recs| |]; try discriminate.
  simpl in H. injection H as <-.
  apply elem_of_cons in Hp as [-> | Hp].
  - exists rec. split; [left | exact Et].
  - destruct (IH recs eq_refl Hp) as (record & Hin & E).
    exists record. split; [right; exact Hin | exact E].
Qed.

Lemma json_records_lookup tests records i record :
  json_records tests = Ok records -> records !! i = Some record ->
  exists test, tests !! i = Some test /\ json_record test = Ok record.
Proof.
  revert records i. induction tests as [|t tests IH]; intros records i H Hi;
    simpl in H.
  - injection H as <-. discriminate Hi.
  - destruct (json_record t) as [rec| |] eqn:Et; try discriminate.
    simpl in H. destruct (json_records tests) as [recs| |]; try discriminate.
    simpl in H. injection H as <-.
    destruct i as [|i]; simpl in Hi.
    + injection Hi as <-. exists t. split; [reflexivity | exact Et].
    + destruct (IH recs i eq_refl Hi) as (test & Ht & E).
      exists test. split; [exact Ht | exact E].
Qed.

Lemma json_record_avg test record :
  json_record test = Ok record -> json_avg record = avg test.
Proof.
  unfold json_record. intros H.
  destruct (if 10 <=? _ then _ else _) as [p90| |]; try discriminate.
  simpl in H.
  destruct (if 20 <=? _ then _ else _) as [p95| |]; try discriminate.
  simpl in H. injection H as <-. reflexivity.
Qed.

Lemma deref_all_elem l st ps st' r p :
  deref_all l st = Ok (ps, st') -> r ∈ l -> heap st !! r = Some p ->
  (r, p) ∈ ps.
Proof.
  intros H Hr Hp. apply deref_all_Ok in H as (_ & Hl & Hall).
  rewrite <- Hl in Hr. apply list_elem_of_In, in_map_iff in Hr
    as ([r' p'] & E & Hin). simpl in E. subst r'.
  apply list_elem_of_In in Hin. pose proof (Hall r p' Hin) as Hp'.
  rewrite Hp in Hp'. injection Hp' as <-. exact Hin.
Qed.

Lemma recorded_fun successes st k r1 r2 :
  recorded successes st k r1 -> recorded successes st k r2 -> r1 = r2.
Proof.
  intros (t1 & ps1 & G1 & D1 & J1) (t2 & ps2 & G2 & D2 & J2).
  rewrite G1 in G2. injection G2 as <-. rewrite D1 in D2. injection D2 as <-.
  rewrite J1 in J2. injection J2 as <-. reflexivity.
Qed.

Lemma report_ep_spec successes c out st out' st' :
  (forall k l, by_ep_get successes k = Some l ->
     l <> [] /\
     forall r, r ∈ l -> exists p, heap st !! r = Some p /\ build_name p = k) ->
  report_ep successes c out st = Ok (out', st') ->
  st' = st /\
  exists cand records,
    heap st !! c = Some cand /\
    recorded successes st (build_name cand) records /\
    (build_name cand, Successes records) ∈ out' /\
    forall k0 v0, (k0, v0) ∈ out ->
      k0 <> build_name cand \/ v0 = Successes records -> (k0, v0) ∈ out'.
Proof.
  intros Hkeys H. unfold report_ep in H.
  apply bind_Ok in H as (cand & st1 & Hc & H). apply deref_Ok in Hc as [Hc ->].
  destruct (by_ep_get successes (build_name cand)) as [tests|] eqn:G;
    [|discriminate].
  apply bind_Ok in H as (ps & st2 & Hps & H).
  pose proof (deref_all_Ok _ _ _ _ Hps) as (-> & Hl & Hall).
  apply bind_Ok in H as (records & st3 & Hrec & H).
  apply lift_Ok in Hrec as [Hrec ->]. apply ret_Ok in H as [-> ->].
  split; [reflexivity|]. exists cand, records. split; [exact Hc|].
  destruct (Hkeys _ _ G) as [Hne Hmem].
  assert (Hkey : forall x, x ∈ ps -> build_name (snd x) = build_name cand).
  { intros [r p] Hx. simpl. pose proof (Hall r p Hx) as Hp.
    assert (Hr : r ∈ tests).
    { rewrite <- Hl. apply list_elem_of_In, in_map_iff. exists (r, p).
      split; [reflexivity | apply list_elem_of_In; exact Hx]. }
    destruct (Hmem r Hr) as (p' & Hp' & Hb). congruence. }
  split; [exists tests, ps; auto|]. split.
  - apply (fold_report_set_new (fun test : ref * PerfTestParams =>
                                  build_name (snd test))); [exact Hkey|].
    intros E. subst ps. simpl in Hl. congruence.
  - intros k0 v0 Hin Hc0.
    apply (fold_report_set_keep (fun test : ref * PerfTestParams =>
                                   build_name (snd test)) (build_name cand));
      assumption.
Qed.

Lemma report_loop successes st l : forall out out' st',
  (forall k tests, by_ep_get successes k = Some tests ->
     tests <> [] /\
     forall r, r ∈ tests -> exists p, heap st !! r = Some p /\ build_name p = k) ->
  for_each l (report_ep successes) out st = Ok (out', st') ->
  st' = st /\
  (forall k records, recorded successes st k records ->
     (k, Successes records) ∈ out -> (k, Successes records) ∈ out') /\
  forall c, c ∈ l ->
    exists cand records,
      heap st !! c = Some cand /\
      recorded successes st (build_name cand) records /\
      (build_name cand, Successes records) ∈ out'.
Proof.
  induction l as [|c l IH]; intros out out' st' Hkeys H; simpl in H.
  - apply ret_Ok in H as [-> ->]. split; [reflexivity|].
    split; [auto|]. intros c Hc. inversion Hc.
  - apply bind_Ok in H as (out1 & st1 & Hc & H).
    apply report_ep_spec in Hc; [|exact Hkeys].
    destruct Hc as (-> & cand & records & Hcand & Hrec & Hnew & Hkeep).
    destruct (IH out1 out' st' Hkeys H) as (-> & Hkeep' & Hall).
    split; [reflexivity|]. split.
    + intros k recs Hr Hin. apply (Hkeep' k recs Hr). apply Hkeep; [exact Hin|].
      destruct (decide (k = build_name cand)) as [-> | N]; [|left; exact N].
      right. f_equal. exact (recorded_fun _ _ _ _ _ Hr Hrec).
    + intros c0 Hc0. apply elem_of_cons in Hc0 as [-> | Hc0];
        [|exact (Hall c0 Hc0)].
      exists cand, records. split; [exact Hcand|]. split; [exact Hrec|].
      exact (Hkeep' _ _ Hrec Hnew).
Qed.

Lemma drop_gpu_failures_spec l st l' st' :
  drop_gpu_failures l st = Ok (l', st') ->
  st' = st /\
  forall r p, r ∈ l -> heap st !! r = Some p -> names_gpu (name p) = false ->
              r ∈ l'.
Proof.
  unfold drop_gpu_failures. intros H.
  apply bind_Ok in H as (ps & st1 & Hps & H).
  pose proof (fun r p => deref_all_elem _ _ _ _ r p Hps) as Helem.
  apply deref_all_Ok in Hps as (-> & _ & _).
  apply ret_Ok in H as [-> ->]. split; [reflexivity|].
  intros r p Hr Hp Hn. apply list_elem_of_In, in_map_iff. exists (r, p).
  split; [reflexivity|]. apply filter_In. split.
  - apply list_elem_of_In. exact (Helem r p Hr Hp).
  - simpl. unfold names_gpu in Hn. apply orb_false_elim in Hn as [-> ->].
    reflexivity.
Qed.

(** The re-profiling runs keep the name and the provider of every object
    and change the profile candidates only. *)
Lemma reprofiled l : forall st u st',
  for_each l (fun test _ => run_perf_tuning w test true) tt st = Ok (u, st') ->
  forall r p', heap st' !! r = Some p' ->
    exists p, heap st !! r = Some p /\ build_name p' = build_name p /\
              name p' = name p /\ (r ∉ l -> p' = p).
Proof.
  induction l as [|t l IH]; intros st u st' H r p' Hp'; simpl in H.
  - apply ret_Ok in H as [_ ->]. exists p'. auto.
  - apply bind_Ok in H as ([] & st1 & Hrun & H).
    destruct (IH st1 u st' H r p' Hp') as (p1 & Hp1 & Hb1 & Hn1 & Hsame1).
    apply run_perf_tuning_heap in Hrun
      as (_ & Hother & q & q' & Hq & Hq' & Hn & Hb).
    destruct (decide (r = t)) as [-> | N].
    + rewrite Hq' in Hp1. injection Hp1 as <-. exists q.
      split; [exact Hq|]. split; [congruence|]. split; [congruence|].
      intros Hout. exfalso. apply Hout. left.
    + exists p1. rewrite <- (Hother r N). split; [exact Hp1|].
      split; [exact Hb1|]. split; [exact Hn1|].
      intros Hout. apply Hsame1. intros Hin. apply Hout. right. exact Hin.
Qed.

End ReportFacts.

Lemma supported_not_failed k : supported k = true -> k <> "failed"%string.
Proof. intros H ->. vm_compute in H. discriminate H. Qed.

Section ReportAccounts.

Context (w : World) (bin_dir : string) (a : Args).

Lemma main_accounts st0 out_json st n :
  main w bin_dir a st0 = Ok (out_json, st) ->
  int w (top_n a) = Some n ->
  NoDup (providers a) ->
  forall r p,
    (length (heap st0) <= r)%nat -> heap st !! r = Some p ->
    listed_as_success out_json p \/
    listed_as_failure out_json p \/
    (truthy (avg p) = true /\ (0 <= n -> outranked n out_json p)) \/
    (truthy (avg p) = false /\ getGPUs w = 0%nat /\
     names_gpu (name p) = true).
Proof.
  intros H Hint Hnd r p Hr Hp. unfold main in H.
  apply bind_Ok in H as (s & st1 & Hloop & H).
  destruct (providers_accounts w bin_dir a (length (heap st0)) n Hint
              (providers a) [] _ _ _ _ Hloop Hnd)
    as (done & (A1 & A2 & A3) & Hsup).
  { intros k _ Hin. inversion Hin. }
  { intros k Hin. inversion Hin. }
  { split; [|split].
    - intros r0 p0 Hr0 Hp0. apply lookup_lt_Some in Hp0. lia.
    - intros k l Hk. discriminate Hk.
    - intros c Hc. inversion Hc. }
  { lia. }
  unfold aggregate in H.
  apply bind_Ok in H as ([] & st2 & Hprof & H).
  apply bind_Ok in H as (failed' & st3 & Hfailed & H).
  apply bind_Ok in H as (cands & st4 & Hsort & H).
  apply sorted_by_avg_Ok in Hsort as (-> & Hperm).
  apply bind_Ok in H as (out & st5 & Hrep & H).
  assert (Hst3 : st3 = st2 /\
            forall r0 p0, r0 ∈ failed s -> heap st2 !! r0 = Some p0 ->
              ((getGPUs w =? 0)%nat = true -> names_gpu (name p0) = false) ->
              r0 ∈ failed').
  { destruct (getGPUs w =? 0)%nat.
    - apply drop_gpu_failures_spec in Hfailed as (-> & Hf).
      split; [reflexivity|]. intros r0 p0 Hr0 Hp0 Hn. eapply Hf; eauto.
    - apply ret_Ok in Hfailed as [-> ->]. split; [reflexivity|]. auto. }
  destruct Hst3 as (-> & Hkeepf).
  (* the kept trials as the re-profiling runs leave them *)
  assert (Hkeys : forall k tests, by_ep_get (successful_by_ep s) k = Some tests ->
            tests <> [] /\
            forall r0, r0 ∈ tests ->
              exists p0, heap st2 !! r0 = Some p0 /\ build_name p0 = k).
  { intros k tests Hk.
    destruct (A2 k tests Hk) as (_ & _ & Hmem & c & l' & -> & _).
    split; [discriminate|]. intros r0 Hr0.
    destruct (Hmem r0 Hr0) as (p0 & Hp0 & Hb & _).
    destruct (lookup_lt_is_Some_2 (heap st2) r0) as [p2 Hp2].
    { apply lookup_lt_Some in Hp0.
      assert (E : length (heap st2) = length (heap st1)).
      { clear -Hprof. revert st1 st2 Hprof.
        induction (profile_candidates s) as [|t l IH]; intros st1 st2 H;
          simpl in H.
        - apply ret_Ok in H as [_ ->]. reflexivity.
        - apply bind_Ok in H as ([] & st & Hrun & H).
          apply run_perf_tuning_heap in Hrun as (E & _).
          rewrite (IH _ _ H). exact E. }
      lia. }
    exists p2. split; [exact Hp2|].
    destruct (reprofiled w _ _ _ _ Hprof r0 p2 Hp2) as (p1 & Hp1 & Hb1 & _).
    congruence. }
  apply report_loop in Hrep; [|exact Hkeys].
  destruct Hrep as (-> & _ & Hcands).
  unfold report_failed in H.
  apply bind_Ok in H as (psf & st6 & Hpsf & H).
  pose proof (fun r0 p0 => deref_all_elem _ _ _ _ r0 p0 Hpsf) as Hpsf_elem.
  apply deref_all_Ok in Hpsf as (-> & _ & _).
  apply ret_Ok in H as [-> <-].
  (* the successes of a provider with kept trials are in the report *)
  assert (Hlisted : forall k l, by_ep_get (successful_by_ep s) k = Some l ->
            exists ps records,
              deref_all l st = Ok (ps, st) /\
              json_records (List.map snd ps) = Ok records /\
              (k, Successes records)
                ∈ match psf with
                  | [] => out
                  | _ => report_set out "failed"
                           (Failures
                              (List.map
                                 (fun test : ref * PerfTestParams =>
                                    {| json_failed_name := name (snd test);
                                       json_failed_command := command (snd test) |})
                                 psf))
                  end).
  { intros k l Hk. destruct (A2 k l Hk) as (Hd & _ & _ & c & l' & -> & Hc).
    rewrite <- Hperm in Hc.
    destruct (Hcands c Hc) as (cand & records & Hcand & Hrec & Hin).
    destruct (Hkeys k _ Hk) as (_ & Hmem).
    destruct (Hmem c) as (p0 & Hp0 & Hb); [left|].
    rewrite Hcand in Hp0. injection Hp0 as <-. rewrite Hb in Hrec, Hin.
    destruct Hrec as (tests & ps & G & D & J).
    rewrite Hk in G. injection G as <-.
    exists ps, records. split; [exact D|]. split; [exact J|].
    destruct psf; [exact Hin|].
    apply report_set_keep; [exact Hin|]. left.
    apply supported_not_failed, Hsup, Hd. }
  assert (Hsuccess : forall p0, heap st !! r = Some p0 ->
            r ∈ kept (successful_by_ep s) (build_name p0) ->
            listed_as_success
              match psf with
              | [] => out
              | _ => report_set out "failed"
                       (Failures
                          (List.map
                             (fun test : ref * PerfTestParams =>
                                {| json_failed_name := name (snd test);
                                   json_failed_command := command (snd test) |})
                             psf))
              end p0).
  { intros p0 Hp0 Hk. unfold kept in Hk.
    destruct (by_ep_get (successful_by_ep s) (build_name p0)) as [l|] eqn:G;
      [|inversion Hk].
    destruct (Hlisted _ l G) as (ps & records & D & J & Hin).
    pose proof (deref_all_elem _ _ _ _ r p0 D Hk Hp0) as Hrp.
    destruct (json_records_elem (List.map snd ps) records p0 J)
      as (record & Hrec & Ej).
    { apply list_elem_of_In, in_map_iff. exists (r, p0).
      split; [reflexivity | apply list_elem_of_In; exact Hrp]. }
    exists records, record. auto. }
  destruct (reprofiled w _ _ _ _ Hprof r p Hp) as (p1 & Hp1 & Hb1 & Hn1 & Hsame).
  destruct (decide (r ∈ profile_candidates s)) as [Hc | Hc].
  { left. apply Hsuccess; [exact Hp|].
    destruct (A3 r Hc) as (q & l' & Hq & Hk).
    rewrite Hp1 in Hq. injection Hq as <-. rewrite Hb1.
    unfold kept. rewrite Hk. left. }
  specialize (Hsame Hc). subst p1.
  destruct (A1 r p Hr Hp1) as [Hd [[Hf Ht] | [Hk | (Ht & Hfull & Hord)]]].
  - destruct (decide ((getGPUs w =? 0)%nat = true /\ names_gpu (name p) = true))
      as [[Hg Hname] | Hno].
    + right. right. right. apply Nat.eqb_eq in Hg. auto.
    + right. left.
      assert (Hin : r ∈ failed').
      { apply (Hkeepf r p Hf Hp). intros Hg.
        destruct (names_gpu (name p)); [|reflexivity].
        exfalso. apply Hno. auto. }
      pose proof (Hpsf_elem r p Hin Hp) as Hrp.
      exists (List.map
                (fun test : ref * PerfTestParams =>
                   {| json_failed_name := name (snd test);
                      json_failed_command := command (snd test) |}) psf).
      split.
      * destruct psf; [inversion Hrp|]. apply report_set_same.
      * apply list_elem_of_In, in_map_iff. exists (r, p).
        split; [reflexivity | apply list_elem_of_In; exact Hrp].
  - left. exact (Hsuccess p Hp Hk).
  - right. right. left. split; [exact Ht|]. intros Hn.
    specialize (Hfull Hn). unfold kept in Hfull, Hord.
    destruct (by_ep_get (successful_by_ep s) (build_name p)) as [l|] eqn:G;
      [|left; simpl in Hfull; lia].
    right. destruct (Hlisted _ l G) as (ps & records & D & J & Hin).
    exists records. split; [exact Hin|].
    pose proof (json_records_length _ _ J) as Hlen.
    rewrite length_map in Hlen.
    apply deref_all_Ok in D as (_ & D & Hobj).
    split; [rewrite Hlen, <- Hfull, <- D, length_map; reflexivity|].
    intros i record Hi.
    destruct (json_records_lookup _ _ _ _ J Hi) as (test & Htest & Ej).
    change (List.map snd ps) with (snd <$> ps) in Htest.
    apply list_lookup_fmap_Some in Htest as ([r' q] & E & Hps).
    simpl in E. subst q.
    pose proof (Hobj r' test (list_elem_of_lookup_2 _ _ _ Hps)) as Hq.
    assert (Hl : l !! S i = Some r').
    { rewrite <- D. change (List.map fst ps) with (fst <$> ps).
      apply list_lookup_fmap_Some. exists (r', test). auto. }
    destruct (A2 _ l G) as (_ & Hndl & Hmem & _).
    destruct (Hmem r' (list_elem_of_lookup_2 _ _ _ Hl))
      as (q1 & Hq1 & Hbq & Htq).
    (* the trial of a later record is no profile candidate *)
    assert (Hnc : r' ∉ profile_candidates s).
    { intros Hin'. destruct (A3 r' Hin') as (q2 & l' & Hq2 & Hk2).
      rewrite Hq1 in Hq2. injection Hq2 as <-. rewrite Hbq, G in Hk2.
      injection Hk2 as ->. simpl in Hl.
      apply NoDup_cons in Hndl as [Hout _]. apply Hout.
      eapply list_elem_of_lookup_2. exact Hl. }
    destruct (reprofiled w _ _ _ _ Hprof r' test Hq)
      as (q0 & Hq0 & _ & _ & Hsame').
    specialize (Hsame' Hnc). subst q0.
    rewrite Hq1 in Hq0. injection Hq0 as ->.
    pose proof (Hord r' test (list_elem_of_lookup_2 _ _ _ Hl) Hq1) as Hle.
    unfold key_of in Hle. simpl in Hle.
    rewrite (json_record_avg _ _ Ej).
    destruct (avg test) as [a'|]; [|discriminate Htq].
    destruct (avg p) as [a0|]; [|discriminate Ht].
    exists a', a0. auto.
Qed.

End ReportAccounts.


(** ** Concrete runs of the further properties *)

Lemma search_returns_fastest_witness :
  let w := SearchExample.world_of SearchExample.valley in
  exists passed r p a,
    [0; 1; 2]%nat = [] ++ passed /\
    r ∈ passed /\ heap TunerExample.valley_final !! r = Some p /\
    name p = probe_name (SearchExample.template w) "_OMP_threads" 3 /\
    avg p = Some a /\
    forall r', r' ∈ passed ->
      exists p' a', heap TunerExample.valley_final !! r' = Some p' /\
                    avg p' = Some a' /\ (a <= a')%Q.
Proof.
  cbv zeta.
  assert (E : run_perf_tuning_binary
                (SearchExample.world_of SearchExample.valley) "dnnl"
                "bin/all_eps"
                (SearchExample.template (SearchExample.world_of SearchExample.valley))
                6 "_OMP_threads" " OMP_NUM_THREADS, " true false [] []
                initial_state
              = Ok ((3, [], [0; 1; 2]%nat), TunerExample.valley_final))
    by (vm_compute; reflexivity).
  exact (search_returns_fastest _ _ _ _ _ _ _ _ _ _ _ _ _ _ _ _ E
           ltac:(discriminate)).
Defined.

Lemma search_records_every_trial_witness :
  exists passed not_passed,
    [0; 1; 2]%nat = [] ++ passed /\
    @nil ref = [] ++ not_passed /\
    passed ++ not_passed
      = seq (length (heap initial_state))
            (length (heap TunerExample.valley_final)
             - length (heap initial_state)) /\
    (length not_passed <= 1)%nat /\
    take (length (heap initial_state)) (heap TunerExample.valley_final)
      = heap initial_state /\
    clock TunerExample.valley_final
      = (clock initial_state
         + 3 * (length (heap TunerExample.valley_final)
                - length (heap initial_state)))%nat /\
    (forall r, r ∈ passed ->
       exists p, heap TunerExample.valley_final !! r = Some p /\
                 truthy (avg p) = true) /\
    (forall r, r ∈ not_passed ->
       exists p, heap TunerExample.valley_final !! r = Some p /\
                 truthy (avg p) = false).
Proof.
  assert (E : run_perf_tuning_binary
                (SearchExample.world_of SearchExample.valley) "dnnl"
                "bin/all_eps"
                (SearchExample.template (SearchExample.world_of SearchExample.valley))
                6 "_OMP_threads" " OMP_NUM_THREADS, " true false [] []
                initial_state
              = Ok ((3, [], [0; 1; 2]%nat), TunerExample.valley_final))
    by (vm_compute; reflexivity).
  exact (search_records_every_trial _ _ _ _ _ _ _ _ _ _ _ _ _ _ _ _ E).
Defined.

Lemma search_trials_logarithmic_witness :
  Z.of_nat (length (heap TunerExample.valley_final)
            - length (heap initial_state)) <= 2 * Z.log2 6 + 3.
Proof.
  assert (E : run_perf_tuning_binary
                (SearchExample.world_of SearchExample.valley) "dnnl"
                "bin/all_eps"
                (SearchExample.template (SearchExample.world_of SearchExample.valley))
                6 "_OMP_threads" " OMP_NUM_THREADS, " true false [] []
                initial_state
              = Ok ((3, [], [0; 1; 2]%nat), TunerExample.valley_final))
    by (vm_compute; reflexivity).
  exact (search_trials_logarithmic _ _ _ _ _ _ _ _ _ _ _ _ _ _ _ _ E).
Defined.

Lemma search_result_range_witness :
  (3 = -1 \/ 2 <= 3 <= initial_upper 6 true) /\
  (3 = -1 <-> [0; 1; 2]%nat = []).
Proof.
  assert (E : run_perf_tuning_binary
                (SearchExample.world_of SearchExample.valley) "dnnl"
                "bin/all_eps"
                (SearchExample.template (SearchExample.world_of SearchExample.valley))
                6 "_OMP_threads" " OMP_NUM_THREADS, " true false [] []
                initial_state
              = Ok ((3, [], [0; 1; 2]%nat), TunerExample.valley_final))
    by (vm_compute; reflexivity).
  exact (search_result_range _ _ _ _ _ _ _ _ _ _ _ _ _ _ _ _ E).
Defined.

Lemma run_perf_tuning_frame_witness :
  let w := RunnerExtraExample.quiet_world 3 in
  let st := RunnerExtraExample.fresh w RunnerExample.sample_args in
  length (heap RunnerExtraExample.ranked) = length (heap st) /\
  (forall r', r' <> 0%nat ->
     heap RunnerExtraExample.ranked !! r' = heap st !! r') /\
  exists p', heap RunnerExtraExample.ranked !! 0%nat = Some p' /\
             same_setup (RunnerExtraExample.trial w RunnerExample.sample_args) p'.
Proof.
  cbv zeta.
  assert (E : run_perf_tuning (RunnerExtraExample.quiet_world 3) 0%nat false
                (RunnerExtraExample.fresh (RunnerExtraExample.quiet_world 3)
                   RunnerExample.sample_args)
              = Ok (tt, RunnerExtraExample.ranked))
    by (vm_compute; reflexivity).
  exact (run_perf_tuning_frame _ _ _ _ _ _ E eq_refl).
Defined.

Lemma command_written_once_witness :
  exists p1 p2,
    heap RunnerExtraExample.ranked !! 0%nat = Some p1 /\
    heap RunnerExtraExample.profiled !! 0%nat = Some p2 /\
    command p1 = Some (Str.join " " RunnerExtraExample.ranking_command) /\
    command p2 = Some (Str.join " " RunnerExtraExample.ranking_command).
Proof.
  assert (E1 : run_perf_tuning (RunnerExtraExample.quiet_world 3) 0%nat false
                 (RunnerExtraExample.fresh (RunnerExtraExample.quiet_world 3)
                    RunnerExample.sample_args)
               = Ok (tt, RunnerExtraExample.ranked))
    by (vm_compute; reflexivity).
  assert (E2 : run_perf_tuning (RunnerExtraExample.quiet_world 3) 0%nat true
                 RunnerExtraExample.ranked
               = Ok (tt, RunnerExtraExample.profiled))
    by (vm_compute; reflexivity).
  assert (C : trial_command (RunnerExtraExample.quiet_world 3)
                (RunnerExtraExample.trial (RunnerExtraExample.quiet_world 3)
                   RunnerExample.sample_args) false
                (clock (RunnerExtraExample.fresh (RunnerExtraExample.quiet_world 3)
                          RunnerExample.sample_args))
              = Ok RunnerExtraExample.ranking_command)
    by (vm_compute; reflexivity).
  exact (command_written_once (RunnerExtraExample.quiet_world 3) 0%nat false
           true
           (RunnerExtraExample.fresh (RunnerExtraExample.quiet_world 3)
              RunnerExample.sample_args) _ _
           (RunnerExtraExample.trial (RunnerExtraExample.quiet_world 3)
              RunnerExample.sample_args) _ eq_refl eq_refl C E1 E2).
Defined.

Lemma failed_run_returns_without_average_witness :
  let w := RunnerExtraExample.broken_world in
  exists st' p',
    run_perf_tuning w 0%nat false
      (RunnerExtraExample.fresh w RunnerExample.sample_args) = Ok (tt, st') /\
    heap st' !! 0%nat = Some p' /\ avg p' = None /\ latencies p' = [] /\
    clock st' = 3%nat.
Proof.
  cbv zeta.
  assert (C : trial_command RunnerExtraExample.broken_world
                (RunnerExtraExample.trial RunnerExtraExample.broken_world
                   RunnerExample.sample_args) false
                (clock (RunnerExtraExample.fresh RunnerExtraExample.broken_world
                          RunnerExample.sample_args))
              = Ok RunnerExtraExample.ranking_command)
    by (vm_compute; reflexivity).
  exact (failed_run_returns_without_average RunnerExtraExample.broken_world
           0%nat false
           (RunnerExtraExample.fresh RunnerExtraExample.broken_world
              RunnerExample.sample_args)
           (RunnerExtraExample.trial RunnerExtraExample.broken_world
              RunnerExample.sample_args) _ eq_refl C
           (or_intror eq_refl)).
Defined.

Lemma duration_mode_raises_witness :
  let w := RunnerExtraExample.quiet_world 3 in
  run_perf_tuning w 0%nat false
    (RunnerExtraExample.fresh w RunnerExtraExample.duration_args)
  = Raise AttributeError.
Proof.
  cbv zeta.
  apply (duration_mode_raises _ _ _
           (RunnerExtraExample.trial (RunnerExtraExample.quiet_world 3)
              RunnerExtraExample.duration_args)).
  - reflexivity.
  - simpl. discriminate.
  - reflexivity.
Defined.

Lemma warmup_is_discarded_witness :
  let w := RunnerExtraExample.quiet_world 3 in
  let st := RunnerExtraExample.fresh w RunnerExample.sample_args in
  run_perf_tuning (with_subprocess_run w RunnerExtraExample.cold) 0%nat false st
  = run_perf_tuning w 0%nat false st.
Proof.
  cbv zeta. apply warmup_is_discarded.
  intros k cmd e Hk. simpl in Hk. unfold RunnerExtraExample.cold.
  destruct (Nat.eqb_spec k 1); [contradiction | reflexivity].
Defined.

Lemma latencies_sorted_witness :
  let w := RunnerExtraExample.quiet_world 3 in
  let st := RunnerExtraExample.fresh w RunnerExample.sample_args in
  exists p cmd l p',
    heap st !! 0%nat = Some p /\
    trial_command w p false (clock st) = Ok cmd /\
    measured_latencies w (subprocess_run w (2 + clock st) cmd (env p)) = Ok l /\
    heap RunnerExtraExample.ranked !! 0%nat = Some p' /\
    latencies p' ≡ₚ l /\ ascending (fun x => x) (latencies p').
Proof.
  cbv zeta.
  assert (E : run_perf_tuning (RunnerExtraExample.quiet_world 3) 0%nat false
                (RunnerExtraExample.fresh (RunnerExtraExample.quiet_world 3)
                   RunnerExample.sample_args)
              = Ok (tt, RunnerExtraExample.ranked))
    by (vm_compute; reflexivity).
  exact (latencies_sorted _ _ _ _ _ E).
Defined.

Lemma average_error_witness :
  let l := [1 # 100; 3 # 100]%Q in
  let mean := (Num.sum l / Num.len l)%Q in
  exists a,
    average l = Some a /\
    (mean * 1000 - (1 # 2000000) <= a <= mean * 1000 + (1 # 2000000))%Q.
Proof.
  cbv zeta.
  destruct (average [1 # 100; 3 # 100]%Q) as [a|] eqn:E;
    [|vm_compute in E; discriminate E].
  exists a. split; [reflexivity|]. exact (average_error _ _ E).
Defined.

Lemma percentiles_ordered_witness :
  match json_p90 PercentileExample.record, json_p95 PercentileExample.record with
  | Some a, Some b => (a <= b)%Q
  | _, _ => False
  end.
Proof.
  assert (E : run_perf_tuning
                (Sample.world
                   (fun _ => Sample.benchmark [] (Some "0.020"%string) 20)
                   1 (fun _ => None))
                0%nat false PercentileExample.start
              = Ok (tt, PercentileExample.measured))
    by (vm_compute; reflexivity).
  assert (P : heap PercentileExample.measured !! 0%nat
              = Some PercentileExample.trial) by (vm_compute; reflexivity).
  assert (R : json_record PercentileExample.trial = Ok PercentileExample.record)
    by (vm_compute; reflexivity).
  destruct (json_p90 PercentileExample.record) as [a|] eqn:A;
    [|vm_compute in A; discriminate A].
  destruct (json_p95 PercentileExample.record) as [b|] eqn:B;
    [|vm_compute in B; discriminate B].
  exact (percentiles_ordered _ _ _ _ _ _ _ _ _ E P R A B).
Defined.

Lemma init_environment_witness :
  Dict.get (env (PerfTestParams_init EnvExample.omp_world "bin/all_eps" "dnnl"
                   "dnnl " "bin/all_eps" [] [("KMP_AFFINITY", "compact")]%string
                   RunnerExample.sample_args "dnnl")) "OMP_NUM_THREADS"
  = None.
Proof.
  assert (Hnd : NoDup (Dict.keys [("KMP_AFFINITY", "compact")]%string)).
  { apply NoDup_cons. split; [intros H; inversion H | apply NoDup_nil; exact I]. }
  exact (init_environment EnvExample.omp_world "bin/all_eps" "dnnl" "dnnl "
           "bin/all_eps" [] [("KMP_AFFINITY", "compact")]%string
           RunnerExample.sample_args "dnnl" "OMP_NUM_THREADS" Hnd).
Defined.

Lemma probe_thread_setting_witness :
  let w := SearchExample.world_of SearchExample.valley in
  let p := make_probe w "dnnl" "bin/all_eps" (SearchExample.template w)
                      "_OMP_threads" " OMP_NUM_THREADS, " true false 4 in
  test_args p = test_args (SearchExample.template w) ++ ["-x"; "1"]%string /\
  env_to_set p
  = Dict.set (env_to_set (SearchExample.template w)) "OMP_NUM_THREADS"
             (Str.of_Z 4) /\
  Dict.get (env p) "OMP_NUM_THREADS" = Some (Str.of_Z 4).
Proof.
  cbv zeta.
  exact (probe_thread_setting (SearchExample.world_of SearchExample.valley)
           "dnnl" "bin/all_eps"
           (SearchExample.template (SearchExample.world_of SearchExample.valley))
           "_OMP_threads" " OMP_NUM_THREADS, " true false 4
           ltac:(apply NoDup_nil; exact I)).
Defined.

Lemma combos_are_product_witness :
  get_env_var_combos (Some EnvExample.table)
  = product (List.map snd EnvExample.table) /\
  forall combo,
    combo ∈ get_env_var_combos (Some EnvExample.table) <->
    Forall2 (fun kv v => v ∈ snd kv) EnvExample.table combo.
Proof.
  apply combos_are_product.
  - discriminate.
  - repeat constructor; discriminate.
Defined.

Lemma combos_give_overrides_witness :
  let combo := ["scatter"; ""]%string in
  length combo = length EnvExample.table /\
  gen_env_var_dict (List.map fst EnvExample.table) combo
  = Ok (overrides (List.map fst EnvExample.table) combo).
Proof.
  cbv zeta. apply combos_give_overrides.
  - discriminate.
  - repeat constructor; discriminate.
  - apply NoDup_cons. split.
    + intros H. apply list_elem_of_In in H. vm_compute in H.
      destruct H as [H | []]. discriminate H.
    + apply NoDup_cons. split; [intros H; inversion H | apply NoDup_nil; exact I].
  - apply list_elem_of_In. vm_compute. auto.
Defined.

Lemma rank_profiles_fastest_witness :
  (exists best rest p,
     by_ep_get (successful_by_ep ScriptExample.ranked) "cpu"
       = Some (best :: rest) /\
     profile_candidates ScriptExample.ranked
       = profile_candidates RankExample.empty_script ++ [best] /\
     heap RankExample.prepared !! best = Some p /\
     forall r q, r ∈ rest -> heap RankExample.prepared !! r = Some q ->
       exists x y, avg p = Some x /\ avg q = Some y /\ (x <= y)%Q) \/
  (successful_by_ep ScriptExample.ranked
     = successful_by_ep RankExample.empty_script /\
   profile_candidates ScriptExample.ranked
     = profile_candidates RankExample.empty_script).
Proof.
  assert (E : rank RankExample.sample_world ScriptExample.wide_args "cpu"
                [0; 1; 2]%nat [] RankExample.empty_script RankExample.prepared
              = Ok (ScriptExample.ranked, RankExample.prepared))
    by (vm_compute; reflexivity).
  exact (rank_profiles_fastest _ _ _ _ _ _ _ _ _ E).
Defined.

Lemma no_gpu_failures_without_gpu_witness :
  List.map fst (fst ScriptExample.failing_run) = ["failed"%string] /\
  forall k l record,
    (k, Failures l) ∈ fst ScriptExample.failing_run -> record ∈ l ->
    names_gpu (json_failed_name record) = false.
Proof.
  assert (E : main ScriptExample.failing_world "bin"
                (ReportExample.sample_args "cpu,cuda") initial_state
              = Ok (fst ScriptExample.failing_run, snd ScriptExample.failing_run))
    by (vm_compute; reflexivity).
  split; [vm_compute; reflexivity|].
  exact (no_gpu_failures_without_gpu _ _ _ _ _ _ E eq_refl).
Defined.


Lemma nothing_runs_without_builds_witness :
  exists out_json st,
    main ScriptExample.empty_world "bin" (ReportExample.sample_args "cpu,dnnl")
         initial_state
    = Ok (out_json, st) /\
    out_json = [] /\ st = initial_state.
Proof.
  destruct (main ScriptExample.empty_world "bin"
              (ReportExample.sample_args "cpu,dnnl") initial_state)
    as [[out_json st]| |] eqn:E; [|vm_compute in E; discriminate E..].
  exists out_json, st. split; [reflexivity|].
  exact (nothing_runs_without_builds ScriptExample.empty_world "bin"
           (ReportExample.sample_args "cpu,dnnl") initial_state out_json st
           eq_refl eq_refl E).
Defined.

Lemma report_keeps_top_n_witness :
  List.map fst (fst TopExample.outcome) = ["cpu"]%string /\
  forall k l,
    (k, Successes l) ∈ fst TopExample.outcome -> Z.of_nat (length l) <= 1.
Proof.
  assert (E : main RankExample.sample_world "bin" RankExample.sample_args
                   initial_state
              = Ok (fst TopExample.outcome, snd TopExample.outcome))
    by (vm_compute; reflexivity).
  split; [vm_compute; reflexivity|].
  exact (report_keeps_top_n _ _ _ _ _ _ 1 E eq_refl ltac:(lia)).
Defined.

Lemma json_cannot_disable_witness :
  exists a,
    ConverterParamsFromJson.init 8 JsonExample.sequential = Ok a /\
    ConverterParamsFromJson.parallel a = JBool true /\
    ConverterParamsFromJson.top_n a = JString "3".
Proof.
  destruct (ConverterParamsFromJson.init 8 JsonExample.sequential) as [a| |] eqn:E;
    [|vm_compute in E; discriminate E..].
  exists a. split; [reflexivity|].
  split.
  - apply (proj1 (json_cannot_disable 8 JsonExample.sequential a E)). reflexivity.
  - vm_compute in E. injection E as <-. reflexivity.
Defined.

Lemma from_source_builds_witness :
  Build.main (BuildExample.world false BuildExample.nothing)
       (BuildExample.sample_args false) []
    = Build.Done tt BuildExample.from_source /\
  Build.runs BuildExample.from_source
    = [["ort/build.sh"; "--config"; "Release"; "--build_shared_lib";
        "--parallel"; "--use_cuda"; "--cuda_home"; "/cuda"; "--cudnn_home";
        "/cudnn"];
       ["ort/build.sh"; "--config"; "Release"; "--build_shared_lib";
        "--parallel"; "--use_dnnl"; "--use_openmp"]]%string /\
  Build.made BuildExample.from_source
    = ["bin/Release/mlas_eps"; "bin/Release/omp_eps"]%string.
Proof.
  assert (E : Build.main (BuildExample.world false BuildExample.nothing)
                (BuildExample.sample_args false) []
              = Build.Done tt BuildExample.from_source)
    by (vm_compute; reflexivity).
  split; [exact E|].
  exact (from_source_builds (BuildExample.world false BuildExample.nothing)
           (BuildExample.sample_args false) [] BuildExample.from_source
           eq_refl E).
Defined.

Lemma nuphar_needs_mklml_witness :
  Build.main (BuildExample.world false BuildExample.nothing)
    BuildExample.nuphar_args []
    = Build.Raised Build.ValueError BuildExample.first_build /\
  Build.runs BuildExample.first_build
    = [["ort/build.sh"; "--config"; "Release"; "--build_shared_lib";
        "--parallel"; "--use_cuda"; "--cuda_home"; "/cuda"; "--cudnn_home";
        "/cudnn"]]%string.
Proof.
  assert (E : Build.build_onnxruntime
                (BuildExample.world false BuildExample.nothing) "ort" "Release"
                (Build.first_build_args BuildExample.nuphar_args) "mlas_eps"
                BuildExample.nuphar_args []
              = Build.Done false BuildExample.first_build)
    by (vm_compute; reflexivity).
  exact (proj2 (nuphar_needs_mklml
                  (BuildExample.world false BuildExample.nothing)
                  BuildExample.nuphar_args [] eq_refl eq_refl eq_refl)
           false BuildExample.first_build E).
Defined.

Lemma prebuilt_tree_witness :
  Build.main (BuildExample.world true BuildExample.everything)
    (BuildExample.sample_args true) []
    = Build.Raised Build.UnboundLocalError [] /\
  Build.main (BuildExample.world false BuildExample.everything)
    (BuildExample.sample_args true) []
    = Build.Done tt BuildExample.from_prebuilt /\
  Build.runs BuildExample.from_prebuilt = [] /\
  Build.made BuildExample.from_prebuilt = ["bin/Release/all_eps"%string].
Proof.
  assert (E : Build.main (BuildExample.world false BuildExample.everything)
                (BuildExample.sample_args true) []
              = Build.Done tt BuildExample.from_prebuilt)
    by (vm_compute; reflexivity).
  split; [|split; [exact E|]].
  - exact (prebuilt_tree (BuildExample.world true BuildExample.everything)
             (BuildExample.sample_args true) [] eq_refl eq_refl eq_refl).
  - exact (prebuilt_tree (BuildExample.world false BuildExample.everything)
             (BuildExample.sample_args true) [] eq_refl eq_refl eq_refl
             BuildExample.from_prebuilt E).
Defined.


(** C5 (amended) needs its premise.  With the provider [cpu] requested
    twice, the second round overwrites the successes of the first: the
    trial of the first round has an average, and yet it has no record in
    the report, whose successes for [cpu] hold one record while [top_n]
    is 3. *)
Lemma repeated_provider_drops_trial :
  main RunnerExample.sample_world "bin" (ReportExample.sample_args "cpu,cpu")
       initial_state
    = Ok ReportExample.twice /\
  match heap (snd ReportExample.twice) !! 0%nat with
  | Some p =>
      truthy (avg p) = true /\
      ~ listed_as_success (fst ReportExample.twice) p /\
      ~ listed_as_failure (fst ReportExample.twice) p /\
      ~ outranked 3 (fst ReportExample.twice) p
  | None => False
  end.
Proof.
  split; [vm_compute; reflexivity|].
  unfold ReportExample.twice. cbn [snd fst heap lookup list_lookup].
  split; [reflexivity|]. split; [|split].
  - intros (l & record & Hin & Hrec & Hj).
    apply list_elem_of_singleton in Hin. injection Hin as ->.
    apply list_elem_of_singleton in Hrec. subst record.
    vm_compute in Hj. discriminate Hj.
  - intros (l & Hin & _).
    apply list_elem_of_singleton in Hin. discriminate Hin.
  - intros [E | (l & Hin & Hlen & _)]; [discriminate E|].
    apply list_elem_of_singleton in Hin. injection Hin as ->.
    simpl in Hlen. discriminate Hlen.
Qed.
